(** * Briefly frontend: session and summary-collection controllers

    A shallow embedding of the React front end of Briefly:

    - [RequestService.js]: the axios wrappers (the resource gateway);
    - [App.js]: [AuthProvider], with [logout] and [verifyToken];
    - [SummariesList.js]: the list component, its fetch, delete and
      share handlers and the two filtered views.

    JavaScript values are modelled by [jsval]; an exception is the [Throw]
    branch of [completion].  An [async] handler is cut at its [await]: the
    part that runs when the handler is called, and the part that runs when
    the awaited promise settles.  React state is a record and each setter
    is a record update; the handlers below never read a state variable
    after having set it, except through a functional update, which the
    state-passing style models exactly. *)

From Stdlib Require Import ZArith String Ascii List Bool Lia.
From stdpp Require Import base option list strings gmap.

Set Default Proof Using "Type".
Local Open Scope string_scope.

(** ** JavaScript values *)

Module JS.

(** JSON-shaped values.  Numbers are restricted to integers (no NaN, no
    fractions); objects are finite maps from property names to values. *)
#[warnings="-register-all"]
Inductive jsval : Type :=
| JUndefined
| JNull
| JBool (b : bool)
| JNum (n : Z)
| JStr (s : string)
| JArr (xs : list jsval)
| JObj (fields : gmap string jsval).

(** Result of evaluating an expression: a value, or a thrown value. *)
Inductive completion (A : Type) : Type :=
| Normal (a : A)
| Throw (e : jsval).
Arguments Normal {A} a.
Arguments Throw {A} e.

(** Sequencing: a thrown value skips the rest.  With these instances
    stdpp's [x ← c; k] reads as a sequence of statements. *)
#[export] Instance completion_ret : MRet completion := @Normal.
#[export] Instance completion_bind : MBind completion := λ A B k c,
  match c with
  | Normal a => k a
  | Throw e => Throw e
  end.

(** The value thrown by the engine on a bad property access or call.  Only
    its being an object without a [detail] property matters here. *)
Definition TypeError (msg : string) : jsval :=
  JObj {[ "name" := JStr "TypeError"; "message" := JStr msg ]}.

(** [new Error(msg)] *)
Definition Error (msg : string) : jsval :=
  JObj {[ "name" := JStr "Error"; "message" := JStr msg ]}.

(** [v.p]: throws on [undefined] and [null]; a missing property of an
    object, and any named property of the primitives and arrays met here,
    reads as [undefined]. *)
Definition get (v : jsval) (p : string) : completion jsval :=
  match v with
  | JUndefined | JNull => Throw (TypeError "Cannot read properties")
  | JObj fields => Normal (default JUndefined (fields !! p))
  | _ => Normal JUndefined
  end.

(** ToBoolean. *)
Definition truthy (v : jsval) : bool :=
  match v with
  | JUndefined | JNull => false
  | JBool b => b
  | JNum n => negb (n =? 0)%Z
  | JStr s => negb (String.eqb s "")
  | JArr _ | JObj _ => true
  end.

(** [a || b] on values. *)
Definition or_else (a b : jsval) : jsval := if truthy a then a else b.

(** Numbers, strings, booleans, [undefined] and [null]. *)
Definition primitive (v : jsval) : bool :=
  match v with
  | JArr _ | JObj _ => false
  | _ => true
  end.

(** [a === b].  Arrays and objects compare by reference, which values do
    not record: they are taken as never equal, and this is exact as soon as
    one side is a primitive. *)
Definition strict_eq (a b : jsval) : bool :=
  match a, b with
  | JUndefined, JUndefined => true
  | JNull, JNull => true
  | JBool x, JBool y => Bool.eqb x y
  | JNum x, JNum y => (x =? y)%Z
  | JStr x, JStr y => String.eqb x y
  | _, _ => false
  end.

(** ASCII lower-casing of one character. *)
Definition lower_ascii (c : ascii) : ascii :=
  let n := nat_of_ascii c in
  if (65 <=? n)%nat && (n <=? 90)%nat then ascii_of_nat (n + 32) else c.

(** [String.prototype.toLowerCase] on the ASCII range. *)
Fixpoint lower (s : string) : string :=
  match s with
  | EmptyString => EmptyString
  | String c s' => String (lower_ascii c) (lower s')
  end.

(** [v.toLowerCase()]: a method of strings only. *)
Definition toLowerCase (v : jsval) : completion string :=
  match v with
  | JStr s => Normal (lower s)
  | JUndefined | JNull => Throw (TypeError "Cannot read properties")
  | _ => Throw (TypeError "toLowerCase is not a function")
  end.

(** [s.includes(q)]: [q] occurs in [s] as a contiguous substring. *)
Fixpoint includes (s q : string) : bool :=
  String.prefix q s ||
  match s with
  | EmptyString => false
  | String _ s' => includes s' q
  end.

(** [xs.filter(f)] for a callback that may throw: elements are visited in
    order and the first exception aborts the whole call. *)
Fixpoint filterM {A} (f : A → completion bool) (xs : list A) : completion (list A) :=
  match xs with
  | [] => Normal []
  | x :: xs' =>
      keep ← f x;
      rest ← filterM f xs';
      Normal (if keep : bool then x :: rest else rest)
  end.

End JS.

Import JS.

(** ** RequestService.js: the resource gateway *)

Module RequestService.

(** What axios hands back.  A response has a status code, a decoded body
    and headers. *)
Record axios_response := {
  status : Z;
  data : jsval;
  headers : gmap string jsval
}.

(** How an axios call ends: fulfilled with a response, or rejected with an
    error whose [response] is absent when no answer arrived (network
    failure, timeout) and whose [message] is always there. *)
Inductive axios_outcome :=
| AxiosOk (response : axios_response)
| AxiosFail (response : option axios_response) (message : string).

(** [error.response?.data] *)
Definition response_data (response : option axios_response) : jsval :=
  match response with
  | Some r => data r
  | None => JUndefined
  end.

(** The response object itself as a value, for [deleteUserSummary], which
    returns [response] and not [response.data]. *)
Definition response_object (r : axios_response) : jsval :=
  JObj {[ "status" := JNum (status r); "data" := data r; "headers" := JObj (headers r) ]}.

(** [new Blob([response.data], { type: response.headers["content-type"] })] *)
Definition Blob (r : axios_response) : jsval :=
  JObj {[ "parts" := JArr [data r];
          "type" := default JUndefined (headers r !! "content-type") ]}.

(** Each exported function is one request in a [try]; the [catch] logs and
    rethrows [error.response?.data || '<fixed text>'].  The argument [o] is
    how the request ended; the result is how the returned promise settles. *)

Definition createUser (o : axios_outcome) : completion jsval :=
  match o with
  | AxiosOk response => Normal (data response)
  | AxiosFail response _ =>
      Throw (or_else (response_data response) (JStr "Error creating user"))
  end.

Definition verifyUser (o : axios_outcome) : completion jsval :=
  match o with
  | AxiosOk response => Normal (data response)
  | AxiosFail response _ =>
      Throw (or_else (response_data response) (JStr "Error verifying user"))
  end.

Definition getUserSummaries (o : axios_outcome) : completion jsval :=
  match o with
  | AxiosOk response => Normal (data response)
  | AxiosFail response _ =>
      Throw (or_else (response_data response) (JStr "Error fetching summaries"))
  end.

Definition createUserSummary (o : axios_outcome) : completion jsval :=
  match o with
  | AxiosOk response => Normal (data response)
  | AxiosFail response _ =>
      Throw (or_else (response_data response) (JStr "Error creating user summary"))
  end.

Definition userSummaryUpload (o : axios_outcome) : completion jsval :=
  match o with
  | AxiosOk response => Normal (data response)
  | AxiosFail response _ =>
      Throw (or_else (response_data response) (JStr "Error creating user summary"))
  end.

Definition deleteUserSummary (o : axios_outcome) : completion jsval :=
  match o with
  | AxiosOk response => Normal (response_object response)
  | AxiosFail response _ =>
      Throw (or_else (response_data response) (JStr "Error deleting summary"))
  end.

Definition regenerateUserSummary (o : axios_outcome) : completion jsval :=
  match o with
  | AxiosOk response => Normal (data response)
  | AxiosFail response _ =>
      Throw (or_else (response_data response) (JStr "Error creating user summary"))
  end.

Definition shareSummary (o : axios_outcome) : completion jsval :=
  match o with
  | AxiosOk response => Normal (data response)
  | AxiosFail response _ =>
      Throw (or_else (response_data response) (JStr "Error sharing summary"))
  end.

Definition getUserSharedSummaries (o : axios_outcome) : completion jsval :=
  match o with
  | AxiosOk response => Normal (data response)
  | AxiosFail response _ =>
      Throw (or_else (response_data response) (JStr "Error fetching shared summaries"))
  end.

Definition getUserSummary (o : axios_outcome) : completion jsval :=
  match o with
  | AxiosOk response => Normal (data response)
  | AxiosFail response _ =>
      Throw (or_else (response_data response) (JStr "Error fetching summary for user"))
  end.

Definition getInputFile (o : axios_outcome) : completion jsval :=
  match o with
  | AxiosOk response => Normal (Blob response)
  | AxiosFail response _ =>
      Throw (or_else (response_data response) (JStr "Error fetching or downloading file"))
  end.

(** The exported functions, each with the text it falls back to. *)
Definition methods : list ((axios_outcome → completion jsval) * string) :=
  [ (createUser, "Error creating user");
    (verifyUser, "Error verifying user");
    (getUserSummaries, "Error fetching summaries");
    (createUserSummary, "Error creating user summary");
    (userSummaryUpload, "Error creating user summary");
    (deleteUserSummary, "Error deleting summary");
    (regenerateUserSummary, "Error creating user summary");
    (shareSummary, "Error sharing summary");
    (getUserSharedSummaries, "Error fetching shared summaries");
    (getUserSummary, "Error fetching summary for user");
    (getInputFile, "Error fetching or downloading file") ].

End RequestService.

(** ** App.js: the authentication provider *)

Module App.

(** React state of [AuthProvider], together with the browser's
    [localStorage], which [logout] and [verifyToken] read and write. *)
Record State := {
  isAuthenticated : bool;
  userData : jsval;
  summaries : jsval;
  loading : bool;
  error : jsval;
  localStorage : gmap string string
}.

(** State on mount: the [useState] initial values over a given store. *)
Definition initial (store : gmap string string) : State :=
  {| isAuthenticated := false; userData := JNull; summaries := JArr [];
     loading := true; error := JNull; localStorage := store |}.

Definition setIsAuthenticated (v : bool) (s : State) : State :=
  {| isAuthenticated := v; userData := userData s; summaries := summaries s;
     loading := loading s; error := error s; localStorage := localStorage s |}.
Definition setUserData (v : jsval) (s : State) : State :=
  {| isAuthenticated := isAuthenticated s; userData := v; summaries := summaries s;
     loading := loading s; error := error s; localStorage := localStorage s |}.
Definition setSummaries (v : jsval) (s : State) : State :=
  {| isAuthenticated := isAuthenticated s; userData := userData s; summaries := v;
     loading := loading s; error := error s; localStorage := localStorage s |}.
Definition setLoading (v : bool) (s : State) : State :=
  {| isAuthenticated := isAuthenticated s; userData := userData s; summaries := summaries s;
     loading := v; error := error s; localStorage := localStorage s |}.
Definition setError (v : jsval) (s : State) : State :=
  {| isAuthenticated := isAuthenticated s; userData := userData s; summaries := summaries s;
     loading := loading s; error := v; localStorage := localStorage s |}.
(** [localStorage.removeItem(key)] *)
Definition removeItem (key : string) (s : State) : State :=
  {| isAuthenticated := isAuthenticated s; userData := userData s; summaries := summaries s;
     loading := loading s; error := error s; localStorage := delete key (localStorage s) |}.

(** [localStorage.getItem(key)]: the stored string, or [null]. *)
Definition getItem (key : string) (s : State) : option string :=
  localStorage s !! key.

(** [!item] for the result of [getItem]: [null] and the empty string. *)
Definition falsy_item (item : option string) : bool :=
  match item with
  | None => true
  | Some v => String.eqb v ""
  end.

Definition logout (s : State) : State :=
  setError JNull
    (setSummaries (JArr [])
      (setUserData JNull
        (setIsAuthenticated false
          (removeItem "user_data"
            (removeItem "auth_token" s))))).

(** Payload of a decoded token, as jwt-decode declares it: [exp?: number],
    in seconds.  The other registered claims are not read. *)
Record JwtPayload := { exp : option Z }.

(** [decodedToken.exp * 1000 < Date.now()].  An absent [exp] multiplies to
    NaN, and every comparison with NaN is false. *)
Definition expired (decodedToken : JwtPayload) (now : Z) : bool :=
  match exp decodedToken with
  | Some e => (e * 1000 <? now)%Z
  | None => false
  end.

Section VerifyToken.

(** The two library parsers, each of which either returns or throws. *)
Variable jwtDecode : string → completion JwtPayload.
Variable JSON_parse : string → completion jsval.

(** The outer [try] of [verifyToken] down to [JSON.parse]: the checks
    that can send control to the [catch], which calls [logout]. *)
Definition verifyToken_checks (now : Z) (s : State) : completion jsval :=
  let token := getItem "auth_token" s in
  let storedUserData := getItem "user_data" s in
  if falsy_item token || falsy_item storedUserData then
    Throw (Error "No token or user data found")
  else
    decodedToken ← jwtDecode (default "" token);
    if expired decodedToken now then
      Throw (Error "Token expired")
    else
      JSON_parse (default "" storedUserData).

(** [verifyToken] up to the [await] of [getUserSummaries].  The second
    component tells whether the request was issued; when it was not, the
    handler has run to its end. *)
Definition verifyToken_call (now : Z) (s : State) : State * option jsval :=
  match verifyToken_checks now s with
  | Throw _ => (setLoading false (logout s), None)
  | Normal parsedUserData =>
      let s1 := setIsAuthenticated true (setUserData parsedUserData s) in
      match get parsedUserData "id" with
      | Throw _ => (setLoading false (setSummaries (JArr []) s1), None)
      | Normal id => (s1, Some id)
      end
  end.

(** The rest of [verifyToken], run when [getUserSummaries] settles: the
    inner [try], whose [catch] empties the summaries, then [finally]. *)
Definition verifyToken_settle (settled : completion jsval) (s : State) : State :=
  let body : completion State :=
    summariesResponse ← settled;
    ok ← (if truthy summariesResponse
          then status ← get summariesResponse "status";
               mret (strict_eq status (JStr "OK"))
          else mret false);
    if ok : bool then
      result ← get summariesResponse "result";
      mret (setSummaries (or_else result (JArr [])) s)
    else mret s
  in
  setLoading false
    match body with
    | Normal s' => s'
    | Throw _ => setSummaries (JArr []) s
    end.

(** The whole of [verifyToken], given how the summaries request ends. *)
Definition verifyToken (now : Z) (o : RequestService.axios_outcome) (s : State) : State :=
  match verifyToken_call now s with
  | (s', None) => s'
  | (s', Some _) => verifyToken_settle (RequestService.getUserSummaries o) s'
  end.

End VerifyToken.

End App.

(** ** SummariesList.js: the summary collection *)

Module SummariesList.

(** The two values [currentView] takes: ['my-summaries'] and
    ['shared-summaries']. *)
Inductive View := MySummaries | SharedSummaries.

(** React state of the component, in the order of its [useState] calls,
    followed by the [selectedSummary] prop, which the parent owns and the
    component changes through [setSelectedSummary]. *)
Record State := {
  summaries : list jsval;
  searchQuery : string;
  loading : bool;
  error : jsval;
  deleting : bool;
  currentView : View;
  sharingSummary : jsval;
  recipient : string;
  sharing : bool;
  errorMessage : jsval;
  sharedSummaries : list jsval;
  deleteDialogOpen : bool;
  summaryToDelete : jsval;
  activeTab : string;
  selectedSummary : jsval
}.

(** State on mount. *)
Definition initial (selected : jsval) : State :=
  {| summaries := []; searchQuery := ""; loading := true; error := JNull;
     deleting := false; currentView := MySummaries; sharingSummary := JNull;
     recipient := ""; sharing := false; errorMessage := JStr "";
     sharedSummaries := []; deleteDialogOpen := false; summaryToDelete := JNull;
     activeTab := "all"; selectedSummary := selected |}.

(** The setters. *)
Definition setSummaries (v : list jsval) (s : State) : State :=
  {| summaries := v; searchQuery := searchQuery s; loading := loading s;
     error := error s; deleting := deleting s; currentView := currentView s;
     sharingSummary := sharingSummary s; recipient := recipient s;
     sharing := sharing s; errorMessage := errorMessage s;
     sharedSummaries := sharedSummaries s; deleteDialogOpen := deleteDialogOpen s;
     summaryToDelete := summaryToDelete s; activeTab := activeTab s;
     selectedSummary := selectedSummary s |}.
Definition setSearchQuery (v : string) (s : State) : State :=
  {| summaries := summaries s; searchQuery := v; loading := loading s;
     error := error s; deleting := deleting s; currentView := currentView s;
     sharingSummary := sharingSummary s; recipient := recipient s;
     sharing := sharing s; errorMessage := errorMessage s;
     sharedSummaries := sharedSummaries s; deleteDialogOpen := deleteDialogOpen s;
     summaryToDelete := summaryToDelete s; activeTab := activeTab s;
     selectedSummary := selectedSummary s |}.
Definition setLoading (v : bool) (s : State) : State :=
  {| summaries := summaries s; searchQuery := searchQuery s; loading := v;
     error := error s; deleting := deleting s; currentView := currentView s;
     sharingSummary := sharingSummary s; recipient := recipient s;
     sharing := sharing s; errorMessage := errorMessage s;
     sharedSummaries := sharedSummaries s; deleteDialogOpen := deleteDialogOpen s;
     summaryToDelete := summaryToDelete s; activeTab := activeTab s;
     selectedSummary := selectedSummary s |}.
Definition setError (v : jsval) (s : State) : State :=
  {| summaries := summaries s; searchQuery := searchQuery s; loading := loading s;
     error := v; deleting := deleting s; currentView := currentView s;
     sharingSummary := sharingSummary s; recipient := recipient s;
     sharing := sharing s; errorMessage := errorMessage s;
     sharedSummaries := sharedSummaries s; deleteDialogOpen := deleteDialogOpen s;
     summaryToDelete := summaryToDelete s; activeTab := activeTab s;
     selectedSummary := selectedSummary s |}.
Definition setDeleting (v : bool) (s : State) : State :=
  {| summaries := summaries s; searchQuery := searchQuery s; loading := loading s;
     error := error s; deleting := v; currentView := currentView s;
     sharingSummary := sharingSummary s; recipient := recipient s;
     sharing := sharing s; errorMessage := errorMessage s;
     sharedSummaries := sharedSummaries s; deleteDialogOpen := deleteDialogOpen s;
     summaryToDelete := summaryToDelete s; activeTab := activeTab s;
     selectedSummary := selectedSummary s |}.
Definition setCurrentView (v : View) (s : State) : State :=
  {| summaries := summaries s; searchQuery := searchQuery s; loading := loading s;
     error := error s; deleting := deleting s; currentView := v;
     sharingSummary := sharingSummary s; recipient := recipient s;
     sharing := sharing s; errorMessage := errorMessage s;
     sharedSummaries := sharedSummaries s; deleteDialogOpen := deleteDialogOpen s;
     summaryToDelete := summaryToDelete s; activeTab := activeTab s;
     selectedSummary := selectedSummary s |}.
Definition setSharingSummary (v : jsval) (s : State) : State :=
  {| summaries := summaries s; searchQuery := searchQuery s; loading := loading s;
     error := error s; deleting := deleting s; currentView := currentView s;
     sharingSummary := v; recipient := recipient s; sharing := sharing s;
     errorMessage := errorMessage s; sharedSummaries := sharedSummaries s;
     deleteDialogOpen := deleteDialogOpen s; summaryToDelete := summaryToDelete s;
     activeTab := activeTab s; selectedSummary := selectedSummary s |}.
Definition setRecipient (v : string) (s : State) : State :=
  {| summaries := summaries s; searchQuery := searchQuery s; loading := loading s;
     error := error s; deleting := deleting s; currentView := currentView s;
     sharingSummary := sharingSummary s; recipient := v; sharing := sharing s;
     errorMessage := errorMessage s; sharedSummaries := sharedSummaries s;
     deleteDialogOpen := deleteDialogOpen s; summaryToDelete := summaryToDelete s;
     activeTab := activeTab s; selectedSummary := selectedSummary s |}.
Definition setSharing (v : bool) (s : State) : State :=
  {| summaries := summaries s; searchQuery := searchQuery s; loading := loading s;
     error := error s; deleting := deleting s; currentView := currentView s;
     sharingSummary := sharingSummary s; recipient := recipient s; sharing := v;
     errorMessage := errorMessage s; sharedSummaries := sharedSummaries s;
     deleteDialogOpen := deleteDialogOpen s; summaryToDelete := summaryToDelete s;
     activeTab := activeTab s; selectedSummary := selectedSummary s |}.
Definition setErrorMessage (v : jsval) (s : State) : State :=
  {| summaries := summaries s; searchQuery := searchQuery s; loading := loading s;
     error := error s; deleting := deleting s; currentView := currentView s;
     sharingSummary := sharingSummary s; recipient := recipient s;
     sharing := sharing s; errorMessage := v; sharedSummaries := sharedSummaries s;
     deleteDialogOpen := deleteDialogOpen s; summaryToDelete := summaryToDelete s;
     activeTab := activeTab s; selectedSummary := selectedSummary s |}.
Definition setSharedSummaries (v : list jsval) (s : State) : State :=
  {| summaries := summaries s; searchQuery := searchQuery s; loading := loading s;
     error := error s; deleting := deleting s; currentView := currentView s;
     sharingSummary := sharingSummary s; recipient := recipient s;
     sharing := sharing s; errorMessage := errorMessage s; sharedSummaries := v;
     deleteDialogOpen := deleteDialogOpen s; summaryToDelete := summaryToDelete s;
     activeTab := activeTab s; selectedSummary := selectedSummary s |}.
Definition setDeleteDialogOpen (v : bool) (s : State) : State :=
  {| summaries := summaries s; searchQuery := searchQuery s; loading := loading s;
     error := error s; deleting := deleting s; currentView := currentView s;
     sharingSummary := sharingSummary s; recipient := recipient s;
     sharing := sharing s; errorMessage := errorMessage s;
     sharedSummaries := sharedSummaries s; deleteDialogOpen := v;
     summaryToDelete := summaryToDelete s; activeTab := activeTab s;
     selectedSummary := selectedSummary s |}.
Definition setSummaryToDelete (v : jsval) (s : State) : State :=
  {| summaries := summaries s; searchQuery := searchQuery s; loading := loading s;
     error := error s; deleting := deleting s; currentView := currentView s;
     sharingSummary := sharingSummary s; recipient := recipient s;
     sharing := sharing s; errorMessage := errorMessage s;
     sharedSummaries := sharedSummaries s; deleteDialogOpen := deleteDialogOpen s;
     summaryToDelete := v; activeTab := activeTab s;
     selectedSummary := selectedSummary s |}.
Definition setActiveTab (v : string) (s : State) : State :=
  {| summaries := summaries s; searchQuery := searchQuery s; loading := loading s;
     error := error s; deleting := deleting s; currentView := currentView s;
     sharingSummary := sharingSummary s; recipient := recipient s;
     sharing := sharing s; errorMessage := errorMessage s;
     sharedSummaries := sharedSummaries s; deleteDialogOpen := deleteDialogOpen s;
     summaryToDelete := summaryToDelete s; activeTab := v;
     selectedSummary := selectedSummary s |}.
Definition setSelectedSummary (v : jsval) (s : State) : State :=
  {| summaries := summaries s; searchQuery := searchQuery s; loading := loading s;
     error := error s; deleting := deleting s; currentView := currentView s;
     sharingSummary := sharingSummary s; recipient := recipient s;
     sharing := sharing s; errorMessage := errorMessage s;
     sharedSummaries := sharedSummaries s; deleteDialogOpen := deleteDialogOpen s;
     summaryToDelete := summaryToDelete s; activeTab := activeTab s;
     selectedSummary := v |}.

(** *** The filtered views *)

(** [activeTab === 'all' || summary.type.toLowerCase() === activeTab]:
    with the tab on ['all'] the right operand, and so [summary.type], is
    never evaluated. *)
Definition matchesTab (activeTab : string) (summary : jsval) : completion bool :=
  if String.eqb activeTab "all" then mret true
  else
    type ← get summary "type";
    lowered ← toLowerCase type;
    mret (String.eqb lowered activeTab).

(** [summary.title.toLowerCase().includes(searchQuery.toLowerCase()) ||
     summary.outputData.toLowerCase().includes(searchQuery.toLowerCase())]:
    [summary.outputData] is read only when the title does not match. *)
Definition matchesSearch (searchQuery : string) (summary : jsval) : completion bool :=
  title ← get summary "title";
  lowered ← toLowerCase title;
  if includes lowered (lower searchQuery) then mret true
  else
    outputData ← get summary "outputData";
    lowered' ← toLowerCase outputData;
    mret (includes lowered' (lower searchQuery)).

(** The callback both filters pass to [Array.prototype.filter]. *)
Definition matches (activeTab searchQuery : string) (summary : jsval) : completion bool :=
  tab ← matchesTab activeTab summary;
  search ← matchesSearch searchQuery summary;
  mret (tab && search).

Definition filteredSummaries (s : State) : completion (list jsval) :=
  filterM (matches (activeTab s) (searchQuery s)) (summaries s).

Definition filteredSharedSummaries (s : State) : completion (list jsval) :=
  filterM (matches (activeTab s) (searchQuery s)) (sharedSummaries s).

(** *** The component in its environment *)

(** A call to the gateway, with its arguments. *)
Inductive request :=
| GetUserSummaries (userId : jsval)
| GetUserSharedSummaries (userId : jsval)
| DeleteUserSummary (summaryId : jsval)
| ShareSummary (summaryId : jsval) (recipient : string)
| GetUserSummary (summaryId : jsval).

(** How the gateway settles the promise of a request, given how the
    underlying axios call ended. *)
Definition answer (r : request) (o : RequestService.axios_outcome) : completion jsval :=
  match r with
  | GetUserSummaries _ => RequestService.getUserSummaries o
  | GetUserSharedSummaries _ => RequestService.getUserSharedSummaries o
  | DeleteUserSummary _ => RequestService.deleteUserSummary o
  | ShareSummary _ _ => RequestService.shareSummary o
  | GetUserSummary _ => RequestService.getUserSummary o
  end.

(** A handler suspended at its [await], with the variables its closure
    still reads afterwards. *)
Inductive continuation :=
| InFetchSummaries
| InFetchSharedSummaries
| InHandleDeleteSummary (summaryId : jsval)
| InHandleSendShare (recipient : string)
| InHandleSummaryRegenerate.

(** Everything a handler can touch: the component's state, the provider
    behind [useAuth], the texts passed to [alert], the gateway calls made
    so far (oldest first) and the handlers waiting for an answer, keyed by
    the position of their call in [requests]. *)
Record World := {
  state : State;
  session : App.State;
  alerts : list string;
  requests : list request;
  suspended : gmap nat continuation
}.

Definition on_state (f : State → State) (w : World) : World :=
  {| state := f (state w); session := session w; alerts := alerts w;
     requests := requests w; suspended := suspended w |}.

(** [alert(text)] *)
Definition alert (text : string) (w : World) : World :=
  {| state := state w; session := session w; alerts := alerts w ++ [text];
     requests := requests w; suspended := suspended w |}.

(** [await r]: the request goes out and the handler is parked. *)
Definition await (r : request) (k : continuation) (w : World) : World :=
  {| state := state w; session := session w; alerts := alerts w;
     requests := requests w ++ [r];
     suspended := <[length (requests w) := k]> (suspended w) |}.

(** The promise of call [n] has settled: its handler is no longer parked. *)
Definition wake (n : nat) (w : World) : World :=
  {| state := state w; session := session w; alerts := alerts w;
     requests := requests w; suspended := delete n (suspended w) |}.

(** *** Fetching *)

Definition load_failed : string := "Failed to load summaries. Please try again later.".
Definition load_shared_failed : string :=
  "Failed to load shared summaries. Please try again later.".

(** The checks both fetchers run on a settled promise: the [try] block
    from the [await] to the setter, yielding the array to store. *)
Definition checked (what : string) (settled : completion jsval) : completion (list jsval) :=
  response ← settled;
  status ← get response "status";
  if negb (strict_eq status (JStr "OK")) then Throw (Error ("Failed to fetch " ++ what))
  else
    data ← get response "result";
    match data with
    | JArr items => mret items
    | _ (* [!Array.isArray(data)] *) =>
        Throw (Error "Invalid response format: result is not an array")
    end.

(** [fetchSummaries], up to its [await]. *)
Definition fetchSummaries (w : World) : World :=
  let w := on_state (setLoading true) w in
  match get (App.userData (session w)) "id" with
  | Normal id => await (GetUserSummaries id) InFetchSummaries w
  | Throw _ => on_state (setLoading false) (on_state (setError (JStr load_failed)) w)
  end.

(** [fetchSummaries], from its [await] on. *)
Definition fetchSummaries_settled (settled : completion jsval) (w : World) : World :=
  on_state (setLoading false)
    match checked "summaries" settled with
    | Normal data => on_state (setSummaries data) w
    | Throw _ => on_state (setError (JStr load_failed)) w
    end.

Definition fetchSharedSummaries (w : World) : World :=
  let w := on_state (setLoading true) w in
  match get (App.userData (session w)) "id" with
  | Normal id => await (GetUserSharedSummaries id) InFetchSharedSummaries w
  | Throw _ => on_state (setLoading false) (on_state (setError (JStr load_shared_failed)) w)
  end.

Definition fetchSharedSummaries_settled (settled : completion jsval) (w : World) : World :=
  on_state (setLoading false)
    match checked "shared summaries" settled with
    | Normal data => on_state (setSharedSummaries data) w
    | Throw _ => on_state (setError (JStr load_shared_failed)) w
    end.

(** The effect on [currentView, userData]. *)
Definition effect (w : World) : World :=
  if truthy (App.userData (session w)) then
    match currentView (state w) with
    | MySummaries => fetchSummaries w
    | SharedSummaries => fetchSharedSummaries w
    end
  else w.

(** *** Deleting *)

Definition delete_failed : string := "Failed to delete summary. Please try again later.".

(** [handleDeleteSummary], up to its [await]. *)
Definition handleDeleteSummary (summaryId : jsval) (w : World) : World :=
  await (DeleteUserSummary summaryId) (InHandleDeleteSummary summaryId)
    (on_state (setDeleting true) w).

(** [prev.filter((summary) => summary.id !== summaryId)] *)
Definition without (summaryId : jsval) (prev : list jsval) : completion (list jsval) :=
  filterM (λ summary, id ← get summary "id"; mret (negb (strict_eq id summaryId))) prev.

(** [handleDeleteSummary], from its [await] on.  The functional update of
    [summaries] is applied to the state of that moment; should its callback
    throw, the component is lost, which is the [Throw] result. *)
Definition handleDeleteSummary_settled (summaryId : jsval) (settled : completion jsval)
    (w : World) : completion World :=
  match settled with
  | Normal _ =>
      next ← without summaryId (summaries (state w));
      mret (on_state (setDeleting false) (on_state (setSummaries next) w))
  | Throw _ =>
      mret (on_state (setDeleting false) (on_state (setError (JStr delete_failed)) w))
  end.

(** [confirmDeleteSummary]: opens the confirmation dialog. *)
Definition confirmDeleteSummary (summaryId : jsval) (w : World) : World :=
  on_state (setDeleteDialogOpen true) (on_state (setSummaryToDelete summaryId) w).

(** The dialog's Delete button. *)
Definition dialogDelete (w : World) : World :=
  let w := on_state (setDeleteDialogOpen false) w in
  handleDeleteSummary (summaryToDelete (state w)) w.

(** *** Sharing *)

Definition recipient_missing : string := "Please enter a recipient email or username.".

(** [handleShareSummary]: opens the share dialog. *)
Definition handleShareSummary (summary : jsval) (w : World) : World :=
  on_state (setSharingSummary summary) w.

(** The [catch] and [finally] of [handleSendShare].  Reading [err.detail]
    of a thrown [undefined] or [null] throws in turn and skips the setter;
    the gateway never throws either. *)
Definition handleSendShare_caught (err : jsval) (w : World) : World :=
  on_state (setSharing false)
    match get err "detail" with
    | Normal errorMessage => on_state (setErrorMessage errorMessage) w
    | Throw _ => w
    end.

(** [handleSendShare], up to its [await]. *)
Definition handleSendShare (w : World) : World :=
  let recipient := recipient (state w) in
  if negb (truthy (JStr recipient)) then alert recipient_missing w
  else
    let w := on_state (setSharing true) w in
    match get (sharingSummary (state w)) "id" with
    | Normal id => await (ShareSummary id recipient) (InHandleSendShare recipient) w
    | Throw err => handleSendShare_caught err w
    end.

(** [handleSendShare], from its [await] on. *)
Definition handleSendShare_settled (recipient : string) (settled : completion jsval)
    (w : World) : World :=
  match settled with
  | Normal _ =>
      on_state (setSharing false)
        (on_state (setRecipient "")
          (on_state (setSharingSummary JNull)
            (alert ("Summary shared successfully with " ++ recipient) w)))
  | Throw err => handleSendShare_caught err w
  end.

(** [handleCloseDialog] *)
Definition handleCloseDialog (w : World) : World :=
  on_state (setErrorMessage (JStr ""))
    (on_state (setRecipient "")
      (on_state (setSharingSummary JNull)
        (on_state (setSelectedSummary JNull) w))).

(** *** The detail view *)

Definition handleViewSummary (summary : jsval) (w : World) : World :=
  on_state (setSelectedSummary summary) w.

(** [handleSummaryRegenerate], up to its [await]. *)
Definition handleSummaryRegenerate (summary : jsval) (w : World) : World :=
  match get summary "id" with
  | Normal id => await (GetUserSummary id) InHandleSummaryRegenerate w
  | Throw _ => w
  end.

(** [handleSummaryRegenerate], from its [await] on. *)
Definition handleSummaryRegenerate_settled (settled : completion jsval) (w : World) : World :=
  match regeneratedSummary ← settled; get regeneratedSummary "result" with
  | Normal result => on_state (setSelectedSummary result) w
  | Throw _ => w
  end.

(** *** Search, tabs and the view toggle *)

Definition handleTabChange (newValue : string) (w : World) : World :=
  on_state (setActiveTab newValue) w.

(** [onToggleChange] of the toggle, followed by the effect when
    [currentView] has changed. *)
Definition onToggleChange (view : string) (w : World) : World :=
  let target := if String.eqb view "my-summaries" then MySummaries else SharedSummaries in
  let w' := on_state (setSearchQuery "") (on_state (setCurrentView target) w) in
  match currentView (state w), target with
  | MySummaries, MySummaries | SharedSummaries, SharedSummaries => w'
  | _, _ => effect w'
  end.

(** *** Runs *)

(** What can happen to the component: a handler is called, or the network
    answers the call at position [n]. *)
Inductive event :=
| FetchSummaries
| FetchSharedSummaries
| ConfirmDeleteSummary (summaryId : jsval)
| DialogDelete
| HandleDeleteSummary (summaryId : jsval)
| HandleShareSummary (summary : jsval)
| SetRecipient (value : string)
| HandleSendShare
| HandleCloseDialog
| HandleViewSummary (summary : jsval)
| HandleSummaryRegenerate (summary : jsval)
| SetSearchQuery (value : string)
| HandleTabChange (newValue : string)
| OnToggleChange (view : string)
| Settle (n : nat) (o : RequestService.axios_outcome).

(** Resuming a parked handler with its settled promise. *)
Definition resume (k : continuation) (settled : completion jsval) (w : World)
    : completion World :=
  match k with
  | InFetchSummaries => mret (fetchSummaries_settled settled w)
  | InFetchSharedSummaries => mret (fetchSharedSummaries_settled settled w)
  | InHandleDeleteSummary summaryId => handleDeleteSummary_settled summaryId settled w
  | InHandleSendShare recipient => mret (handleSendShare_settled recipient settled w)
  | InHandleSummaryRegenerate => mret (handleSummaryRegenerate_settled settled w)
  end.

Definition step (e : event) (w : World) : completion World :=
  match e with
  | FetchSummaries => mret (fetchSummaries w)
  | FetchSharedSummaries => mret (fetchSharedSummaries w)
  | ConfirmDeleteSummary summaryId => mret (confirmDeleteSummary summaryId w)
  | DialogDelete => mret (dialogDelete w)
  | HandleDeleteSummary summaryId => mret (handleDeleteSummary summaryId w)
  | HandleShareSummary summary => mret (handleShareSummary summary w)
  | SetRecipient value => mret (on_state (setRecipient value) w)
  | HandleSendShare => mret (handleSendShare w)
  | HandleCloseDialog => mret (handleCloseDialog w)
  | HandleViewSummary summary => mret (handleViewSummary summary w)
  | HandleSummaryRegenerate summary => mret (handleSummaryRegenerate summary w)
  | SetSearchQuery value => mret (on_state (setSearchQuery value) w)
  | HandleTabChange newValue => mret (handleTabChange newValue w)
  | OnToggleChange view => mret (onToggleChange view w)
  | Settle n o =>
      match suspended w !! n, requests w !! n with
      | Some k, Some r => resume k (answer r o) (wake n w)
      | _, _ => mret w
      end
  end.

(** Events in the order in which they happen. *)
Fixpoint run (es : list event) (w : World) : completion World :=
  match es with
  | [] => mret w
  | e :: es' => w' ← step e w; run es' w'
  end.

End SummariesList.


(** ** App.js, continued: login, registration and the protected route *)

Module Auth.
Import App.

Section Login.

(** [JSON.stringify], and the conversion to a string that
    [localStorage.setItem] applies to a value that is not one. *)
Variable JSON_stringify : jsval → jsval.
Variable ToString : jsval → string.

(** The text under which [setItem] stores a value. *)
Definition item_text (value : jsval) : string :=
  match value with
  | JStr text => text
  | _ => ToString value
  end.

(** [localStorage.setItem(key, value)] *)
Definition setItem (key : string) (value : jsval) (s : State) : State :=
  {| isAuthenticated := isAuthenticated s; userData := userData s; summaries := summaries s;
     loading := loading s; error := error s;
     localStorage := <[key := item_text value]> (localStorage s) |}.

(** [login], up to its [await] of [verifyUser]. *)
Definition login_call (s : State) : State := setError JNull (setLoading true s).

(** The [try] block of [login] from the [await] on: the state it leaves
    when it reaches [return { success: true }], or what it throws.  Nothing
    is written before the last point at which it can throw. *)
Definition login_try (settled : completion jsval) (s : State) : completion State :=
  response ← settled;
  result ← get response "result";
  auth_token ← get result "auth_token";
  if truthy auth_token then
    user ← get result "user";
    mret (setIsAuthenticated true
           (setUserData user
             (setItem "user_data" (JSON_stringify user)
               (setItem "auth_token" auth_token s))))
  else Throw (Error "Invalid credentials").

(** [login], from its [await] on: the state it leaves and what its promise
    settles to.  The promise is rejected only when reading [error.message]
    in the [catch] throws. *)
Definition login_settled (settled : completion jsval) (s : State)
    : State * completion jsval :=
  match login_try settled s with
  | Normal s' => (setLoading false s', Normal (JObj {[ "success" := JBool true ]}))
  | Throw error =>
      match get error "message" with
      | Normal message =>
          let text := or_else message (JStr "Authentication failed") in
          (setLoading false (setError text s),
           Normal (JObj {[ "success" := JBool false; "error" := text ]}))
      | Throw e => (setLoading false s, Throw e)
      end
  end.

End Login.

(** [register], up to its [await] of [createUser]. *)
Definition register_call (s : State) : State := setError JNull (setLoading true s).

(** [register], from its [await] on. *)
Definition register_settled (settled : completion jsval) (s : State)
    : State * completion jsval :=
  match settled with
  | Normal response =>
      (setLoading false s,
       Normal (JObj {[ "success" := JBool true; "user" := response ]}))
  | Throw error =>
      match get error "message" with
      | Normal message =>
          let text := or_else message (JStr "Registration failed") in
          (setLoading false (setError text s),
           Normal (JObj {[ "success" := JBool false; "error" := text ]}))
      | Throw e => (setLoading false s, Throw e)
      end
  end.

(** What [ProtectedRoute] renders. *)
Inductive rendered := Spinner | Children | Nothing.

Definition ProtectedRoute (s : State) : rendered :=
  if loading s then Spinner
  else if isAuthenticated s then Children else Nothing.

(** The effect of [ProtectedRoute]: whether it calls
    [navigate('/login', { replace: true })]. *)
Definition redirects (s : State) : bool :=
  negb (isAuthenticated s) && negb (loading s).

End Auth.

(** ** SummaryToggle.js *)

Module SummaryToggle.
Import SummariesList.

(** [handleChange]: a deselection, which the button group reports as
    [null], is ignored; anything else goes to the list's [onToggleChange],
    where only the string ['my-summaries'] selects the owned list. *)
Definition handleChange (newView : jsval) (w : World) : World :=
  match newView with
  | JNull => w
  | JStr view => onToggleChange view w
  | _ => onToggleChange "shared-summaries" w
  end.

End SummaryToggle.

(** ** SummariesList.js, continued: what is rendered *)

Module ListView.
Import SummariesList.

(** The colours of a category chip. *)
Record style := { backgroundColor : string; color : string }.

(** The [switch] of [getCategoryStyles] on the lower-cased type. *)
Definition palette (lowered : string) : style :=
  if String.eqb lowered "code" then
    {| backgroundColor := "#E3F2FD"; color := "#1565C0" |}
  else if String.eqb lowered "research" then
    {| backgroundColor := "#F3E5F5"; color := "#6A1B9A" |}
  else if String.eqb lowered "documentation" then
    {| backgroundColor := "#E8F5E9"; color := "#2E7D32" |}
  else
    {| backgroundColor := "#E0E0E0"; color := "#616161" |}.

Definition getCategoryStyles (type : jsval) : completion style :=
  lowered ← toLowerCase type;
  mret (palette lowered).

(** [xs.map(f)] for a callback that may throw: elements are visited in
    order and the first exception aborts the whole call. *)
Fixpoint mapM {A B} (f : A → completion B) (xs : list A) : completion (list B) :=
  match xs with
  | [] => Normal []
  | x :: xs' =>
      y ← f x;
      ys ← mapM f xs';
      mret (y :: ys)
  end.

(** What the callback of the grid computes of one visible summary: the
    key, the heading, the label and the colours of the chip, what the date
    is made of, the sharer on the shared view, and the text of the card. *)
Record card := {
  key : jsval;
  heading : jsval;
  label : jsval;
  chip : style;
  dated : jsval;
  sharedBy : option jsval;
  body : jsval
}.

(** The callback of the grid.  Each [||] reads its right operand only
    when the left one is falsy; [getCategoryStyles(summary.type)] is called
    whatever the type is. *)
Definition card_of (view : View) (summary : jsval) : completion card :=
  id ← get summary "id";
  title ← get summary "title";
  type ← get summary "type";
  styles ← getCategoryStyles type;
  sharedAt ← get summary "sharedAt";
  date ← (if truthy sharedAt then mret sharedAt else get summary "createdAt");
  sharer ← match view with
           | SharedSummaries => by_whom ← get summary "sharedBy"; mret (Some by_whom)
           | MySummaries => mret None
           end;
  content ← get summary "content";
  text ← (if truthy content then mret content
          else
            outputData ← get summary "outputData";
            mret (or_else outputData (JStr "No content available for this summary.")));
  mret {| key := id;
          heading := or_else title (JStr "Untitled Summary");
          label := or_else type (JStr "Unknown");
          chip := styles;
          dated := date;
          sharedBy := sharer;
          body := text |}.

(** The heading of the share dialog, which is rendered under the grid
    while [sharingSummary] is truthy. *)
Definition share_dialog (s : State) : completion (option jsval) :=
  if truthy (sharingSummary s) then
    title ← get (sharingSummary s) "title";
    mret (Some (or_else title (JStr "Untitled Summary")))
  else mret None.

(** The four returns of the component function. *)
Inductive screen :=
| Progress
| ErrorAlert (error : jsval)
| DetailView (summary : jsval)
| ListOf (view : View) (cards : list card) (sharing : option jsval).

(** The component function from the two filters on: what a render returns,
    or what it throws.  The two filtered lists are computed first, on every
    render; the list is the last return, and maps the callback of the grid
    over the filtered list of the view that is on.  The dialog of the
    detail is not reached there, [selectedSummary] being falsy; what React
    does with the elements returned is not part of the function. *)
Definition screen_of (s : State) : completion screen :=
  owned ← filteredSummaries s;
  shared ← filteredSharedSummaries s;
  if loading s then mret Progress
  else if truthy (error s) then mret (ErrorAlert (error s))
  else if truthy (selectedSummary s) then mret (DetailView (selectedSummary s))
  else
    cards ← mapM (card_of (currentView s))
               match currentView s with
               | MySummaries => owned
               | SharedSummaries => shared
               end;
    sharing ← share_dialog s;
    mret (ListOf (currentView s) cards sharing).

End ListView.

(** ** Dashboard.js *)

Module Dashboard.

(** React state of [Dashboard]. *)
Record State := {
  summaries : jsval;
  openNewDialog : bool;
  loading : bool;
  refreshKey : Z;
  selectedSummary : jsval
}.

(** State on mount. *)
Definition initial : State :=
  {| summaries := JArr []; openNewDialog := false; loading := true;
     refreshKey := 0; selectedSummary := JNull |}.

Definition setSummaries (v : jsval) (s : State) : State :=
  {| summaries := v; openNewDialog := openNewDialog s; loading := loading s;
     refreshKey := refreshKey s; selectedSummary := selectedSummary s |}.
Definition setOpenNewDialog (v : bool) (s : State) : State :=
  {| summaries := summaries s; openNewDialog := v; loading := loading s;
     refreshKey := refreshKey s; selectedSummary := selectedSummary s |}.
Definition setLoading (v : bool) (s : State) : State :=
  {| summaries := summaries s; openNewDialog := openNewDialog s; loading := v;
     refreshKey := refreshKey s; selectedSummary := selectedSummary s |}.
Definition setRefreshKey (v : Z) (s : State) : State :=
  {| summaries := summaries s; openNewDialog := openNewDialog s; loading := loading s;
     refreshKey := v; selectedSummary := selectedSummary s |}.
Definition setSelectedSummary (v : jsval) (s : State) : State :=
  {| summaries := summaries s; openNewDialog := openNewDialog s; loading := loading s;
     refreshKey := refreshKey s; selectedSummary := v |}.

(** [xs.find(f)] for a callback that may throw: the first element the
    callback accepts, [undefined] when it accepts none. *)
Fixpoint find (f : jsval → completion bool) (xs : list jsval) : completion jsval :=
  match xs with
  | [] => Normal JUndefined
  | x :: xs' =>
      hit ← f x;
      if hit : bool then Normal x else find f xs'
  end.

(** [v.find(f)] on any value: only arrays have the method. *)
Definition find_in (v : jsval) (f : jsval → completion bool) : completion jsval :=
  match v with
  | JArr xs => find f xs
  | JUndefined | JNull => Throw (TypeError "Cannot read properties")
  | _ => Throw (TypeError "find is not a function")
  end.

(** The checks on the answer that both handlers share: the part of the
    [try] block from the [await] to [response.result]. *)
Definition result_of (settled : completion jsval) : completion jsval :=
  response ← settled;
  status ← get response "status";
  if negb (strict_eq status (JStr "OK")) then Throw (Error "Failed to fetch summaries")
  else get response "result".

(** [fetchSummaries] of the effect, up to its [await].  The effect calls
    it only with a truthy [userData]; the result tells the id requested. *)
Definition fetchSummaries (userData : jsval) (s : State) : State * option jsval :=
  let s := setLoading true s in
  match get userData "id" with
  | Normal id => (s, Some id)
  | Throw _ => (setLoading false s, None)
  end.

(** [fetchSummaries], from its [await] on.  The result is stored as it
    comes; the [catch] only logs. *)
Definition fetchSummaries_settled (settled : completion jsval) (s : State) : State :=
  setLoading false
    match result_of settled with
    | Normal result => setSummaries result s
    | Throw _ => s
    end.

(** The effect on [userData, refreshKey]. *)
Definition effect (userData : jsval) (s : State) : State * option jsval :=
  if truthy userData then fetchSummaries userData s else (s, None).

(** [handleRefresh], with the effect that the new key sets off. *)
Definition handleRefresh (userData : jsval) (s : State) : State * option jsval :=
  effect userData (setRefreshKey (refreshKey s + 1) s).

(** [handleNewSummary], up to its [await]. *)
Definition handleNewSummary (userData : jsval) (s : State) : State * option jsval :=
  let s := setOpenNewDialog false s in
  match get userData "id" with
  | Normal id => (s, Some id)
  | Throw _ => (s, None)
  end.

(** The callback handed to [find]:
    [summary.id === newSummary.result.summary_id]. *)
Definition is_created (newSummary summary : jsval) : completion bool :=
  id ← get summary "id";
  result ← get newSummary "result";
  summary_id ← get result "summary_id";
  mret (strict_eq id summary_id).

(** [handleNewSummary], from its [await] on.  The list is stored before
    the created summary is looked up in it, so a lookup that throws leaves
    the new list in place and the selection as it was. *)
Definition handleNewSummary_settled (newSummary : jsval) (settled : completion jsval)
    (s : State) : State :=
  match result_of settled with
  | Normal updatedSummaries =>
      let s := setSummaries updatedSummaries s in
      match find_in updatedSummaries (is_created newSummary) with
      | Normal selected => setSelectedSummary selected s
      | Throw _ => s
      end
  | Throw _ => s
  end.

(** What [Dashboard] renders: the progress indicator while the provider
    or the dashboard itself is loading, the list and the dialog
    otherwise. *)
Definition shows_list (authLoading : bool) (s : State) : bool :=
  negb (authLoading || loading s).

End Dashboard.

(** ** NewSummary.js *)

Module NewSummary.

(** A file picked in the file input, as far as the dialog looks at it. *)
Record File := { name : string; size : Z }.

(** React state of [NewSummaryDialog].  The two toggle groups report a
    deselection as [null], so type and method are any value. *)
Record State := {
  summaryType : jsval;
  inputMethod : jsval;
  content : string;
  file : option File;
  loading : bool
}.

Definition initial : State :=
  {| summaryType := JStr ""; inputMethod := JStr ""; content := "";
     file := None; loading := false |}.

Definition setSummaryType (v : jsval) (s : State) : State :=
  {| summaryType := v; inputMethod := inputMethod s; content := content s;
     file := file s; loading := loading s |}.
Definition setInputMethod (v : jsval) (s : State) : State :=
  {| summaryType := summaryType s; inputMethod := v; content := content s;
     file := file s; loading := loading s |}.
Definition setContent (v : string) (s : State) : State :=
  {| summaryType := summaryType s; inputMethod := inputMethod s; content := v;
     file := file s; loading := loading s |}.
Definition setFile (v : option File) (s : State) : State :=
  {| summaryType := summaryType s; inputMethod := inputMethod s; content := content s;
     file := v; loading := loading s |}.
Definition setLoading (v : bool) (s : State) : State :=
  {| summaryType := summaryType s; inputMethod := inputMethod s; content := content s;
     file := file s; loading := v |}.

(** What [newSummary.initialData] holds: the typed content, or the file
    state, which is [null] when no file has been picked. *)
Inductive initial_data :=
| Typed (content : string)
| Picked (file : option File).

(** The object [newSummary]. *)
Record payload := {
  userId : jsval;
  type : jsval;
  uploadType : jsval;
  initialData : initial_data
}.

(** The two gateway functions the dialog calls. *)
Inductive request :=
| UserSummaryUpload (newSummary : payload)
| CreateUserSummary (newSummary : payload).

(** The dialog with what it acts on: the user of [useAuth], the texts
    passed to [alert], the gateway calls made, the number of calls to the
    [onClose] prop and the arguments of the calls to the [onCreate] prop,
    oldest first. *)
Record World := {
  state : State;
  userData : jsval;
  alerts : list string;
  requests : list request;
  closed : nat;
  created : list jsval
}.

Definition on_state (f : State → State) (w : World) : World :=
  {| state := f (state w); userData := userData w; alerts := alerts w;
     requests := requests w; closed := closed w; created := created w |}.
Definition alert (text : string) (w : World) : World :=
  {| state := state w; userData := userData w; alerts := alerts w ++ [text];
     requests := requests w; closed := closed w; created := created w |}.
Definition call (r : request) (w : World) : World :=
  {| state := state w; userData := userData w; alerts := alerts w;
     requests := requests w ++ [r]; closed := closed w; created := created w |}.
Definition onClose (w : World) : World :=
  {| state := state w; userData := userData w; alerts := alerts w;
     requests := requests w; closed := S (closed w); created := created w |}.
Definition onCreate (createdSummary : jsval) (w : World) : World :=
  {| state := state w; userData := userData w; alerts := alerts w;
     requests := requests w; closed := closed w;
     created := created w ++ [createdSummary] |}.

(** The effect on [summaryType]. *)
Definition type_effect (w : World) : World :=
  on_state (setFile None) (on_state (setContent "") (on_state (setInputMethod (JStr "")) w)).

(** The [onChange] of the type toggle, followed by the effect when the
    type has changed.  The types are strings or [null], on which React's
    comparison of dependencies is strict equality. *)
Definition selectType (newType : jsval) (w : World) : World :=
  let changed := negb (strict_eq (summaryType (state w)) newType) in
  let w := on_state (setSummaryType newType) w in
  if changed then type_effect w else w.

(** The [onChange] of the method toggle and of the text field. *)
Definition selectMethod (newMethod : jsval) (w : World) : World :=
  on_state (setInputMethod newMethod) w.
Definition typeContent (value : string) (w : World) : World :=
  on_state (setContent value) w.

Definition maxSizeInBytes : Z := 200 * 1024 * 1024.

(** [handleFileChange], given [event.target.files[0]]. *)
Definition handleFileChange (uploadedFile : option File) (w : World) : World :=
  match uploadedFile with
  | Some f =>
      if (size f >? maxSizeInBytes)%Z
      then alert "File size exceeds 200MB. Please upload a smaller file." w
      else on_state (setFile (Some f)) w
  | None => w
  end.

(** [handleReset].  When it changes the type, the effect on the type
    resets the same three fields once more. *)
Definition handleReset (w : World) : World :=
  on_state (setFile None)
    (on_state (setContent "")
      (on_state (setInputMethod (JStr ""))
        (on_state (setSummaryType (JStr "")) w))).

Definition handleCancel (w : World) : World := onClose (handleReset w).

(** The guard of [handleTypeSelect], which is also what enables the
    Create button. *)
Definition ready (s : State) : bool :=
  truthy (summaryType s) && truthy (inputMethod s) &&
  (truthy (JStr (content s)) || bool_decide (is_Some (file s))).

(** How a click on Create ends before any answer: the guard has failed
    and [onCreate] got [undefined]; or building [newSummary] has thrown
    and the click handler has died; or a request is out. *)
Inductive clicked :=
| NotReady (w : World)
| Died (e : jsval)
| Sent (w : World).

(** The click on Create, up to the [await] inside [handleTypeSelect]. *)
Definition create_click (w : World) : clicked :=
  let s := state w in
  if ready s then
    match get (userData w) "id" with
    | Throw e => Died e
    | Normal id =>
        let newSummary :=
          {| userId := id; type := summaryType s; uploadType := inputMethod s;
             initialData := if strict_eq (inputMethod s) (JStr "type")
                            then Typed (content s) else Picked (file s) |} in
        let w := on_state (setLoading true) w in
        Sent (call (if strict_eq (inputMethod s) (JStr "upload")
                    then UserSummaryUpload newSummary
                    else CreateUserSummary newSummary) w)
    end
  else NotReady (onCreate JUndefined w).

(** The click on Create, from the [await] on: the rest of
    [handleTypeSelect], which calls [onCreate] itself when the gateway call
    has succeeded, and then the click handler, which calls it with what
    [handleTypeSelect] has returned.  [onCreate] is the prop as [Dashboard]
    passes it. *)
Definition create_settled (settled : completion jsval) (w : World) : World :=
  match settled with
  | Normal createdSummary =>
      onCreate createdSummary
        (on_state (setLoading false)
          (onCreate createdSummary (onClose (handleReset w))))
  | Throw _ => onCreate JUndefined (on_state (setLoading false) w)
  end.

(** What can happen to the dialog.  Answers are not matched to calls here:
    a run may hold an answer for which no call is out, so that what holds
    of all runs holds of the real ones. *)
Inductive event :=
| SelectType (newType : jsval)
| SelectMethod (newMethod : jsval)
| TypeContent (value : string)
| FileChange (uploadedFile : option File)
| Cancel
| Create
| Settled (settled : completion jsval).

Definition step (e : event) (w : World) : World :=
  match e with
  | SelectType newType => selectType newType w
  | SelectMethod newMethod => selectMethod newMethod w
  | TypeContent value => typeContent value w
  | FileChange uploadedFile => handleFileChange uploadedFile w
  | Cancel => handleCancel w
  | Create =>
      match create_click w with
      | NotReady w' | Sent w' => w'
      | Died _ => w
      end
  | Settled settled => create_settled settled w
  end.

Definition run (es : list event) (w : World) : World := foldl (λ w e, step e w) w es.

(** The dialog as it mounts for a user. *)
Definition mounted (userData : jsval) : World :=
  {| state := initial; userData := userData; alerts := []; requests := [];
     closed := 0; created := [] |}.

End NewSummary.

(** ** SelectedSummary.js: regeneration *)

Module SelectedSummary.

(** React state of [SelectedSummary]. *)
Record State := {
  isRegenerating : bool;
  feedback : string;
  regenerating : bool;
  isCopied : bool
}.

Definition initial : State :=
  {| isRegenerating := false; feedback := ""; regenerating := false; isCopied := false |}.

Definition setIsRegenerating (v : bool) (s : State) : State :=
  {| isRegenerating := v; feedback := feedback s; regenerating := regenerating s;
     isCopied := isCopied s |}.
Definition setFeedback (v : string) (s : State) : State :=
  {| isRegenerating := isRegenerating s; feedback := v; regenerating := regenerating s;
     isCopied := isCopied s |}.
Definition setRegenerating (v : bool) (s : State) : State :=
  {| isRegenerating := isRegenerating s; feedback := feedback s; regenerating := v;
     isCopied := isCopied s |}.

(** The component with what it acts on: the [summary] prop, the arguments
    of the calls to [regenerateUserSummary] (summary id and feedback) and
    the arguments of the calls to the [onSummaryRegenerate] prop, oldest
    first. *)
Record World := {
  state : State;
  summary : jsval;
  requests : list (jsval * string);
  regenerated : list jsval
}.

Definition on_state (f : State → State) (w : World) : World :=
  {| state := f (state w); summary := summary w; requests := requests w;
     regenerated := regenerated w |}.

(** [handleRegenerateClick] *)
Definition handleRegenerateClick (w : World) : World :=
  on_state (λ s, setIsRegenerating (negb (isRegenerating s)) s) w.

(** [handleSubmitRegenerate], up to its [await]; the result tells whether
    the call went out. *)
Definition handleSubmitRegenerate (w : World) : World * bool :=
  let w := on_state (setRegenerating true) w in
  match get (summary w) "id" with
  | Normal id =>
      ({| state := state w; summary := summary w;
          requests := requests w ++ [(id, feedback (state w))];
          regenerated := regenerated w |}, true)
  | Throw _ => (on_state (setRegenerating false) w, false)
  end.

(** [handleSubmitRegenerate], from its [await] on. *)
Definition handleSubmitRegenerate_settled (settled : completion jsval) (w : World) : World :=
  match settled with
  | Normal _ =>
      on_state (setRegenerating false)
        (on_state (setIsRegenerating false)
          (on_state (setFeedback "")
            {| state := state w; summary := summary w; requests := requests w;
               regenerated := regenerated w ++ [summary w] |}))
  | Throw _ => on_state (setRegenerating false) w
  end.

End SelectedSummary.

(** ** Regular expressions *)

Module Regex.

(** The regular expressions the forms use: classes of characters,
    sequence, alternative and repetition. *)
Inductive regex :=
| Never
| Empty
| Class (p : ascii → bool)
| Then (r1 r2 : regex)
| Or (r1 r2 : regex)
| Star (r : regex).

(** [r+], [r?], [r{n}] and [r{n,}] *)
Definition Plus (r : regex) : regex := Then r (Star r).
Definition Opt (r : regex) : regex := Or Empty r.
Fixpoint Times (n : nat) (r : regex) : regex :=
  match n with
  | O => Empty
  | S n' => Then r (Times n' r)
  end.
Definition AtLeast (n : nat) (r : regex) : regex := Then (Times n r) (Star r).

(** A single given character, and any character. *)
Definition Char (c : ascii) : regex := Class (Ascii.eqb c).
Definition Any : regex := Class (λ _, true).

(** Whether the empty text matches. *)
Fixpoint nullable (r : regex) : bool :=
  match r with
  | Never => false
  | Empty => true
  | Class _ => false
  | Then r1 r2 => nullable r1 && nullable r2
  | Or r1 r2 => nullable r1 || nullable r2
  | Star _ => true
  end.

(** What is left to match once [c] has been read. *)
Fixpoint derive (c : ascii) (r : regex) : regex :=
  match r with
  | Never => Never
  | Empty => Never
  | Class p => if p c then Empty else Never
  | Then r1 r2 =>
      if nullable r1 then Or (Then (derive c r1) r2) (derive c r2)
      else Then (derive c r1) r2
  | Or r1 r2 => Or (derive c r1) (derive c r2)
  | Star r' => Then (derive c r') (Star r')
  end.

(** Whether the whole of [cs] matches [r]. *)
Fixpoint matches (r : regex) (cs : list ascii) : bool :=
  match cs with
  | [] => nullable r
  | c :: cs' => matches (derive c r) cs'
  end.

(** [/^r$/.test(text)] *)
Definition test_whole (r : regex) (text : string) : bool :=
  matches r (list_ascii_of_string text).

(** [/r/.test(text)]: [r] matches somewhere in the text. *)
Definition test (r : regex) (text : string) : bool :=
  matches (Then (Star Any) (Then r (Star Any))) (list_ascii_of_string text).

(** The classes [\s] and [\d], on the ASCII range. *)
Definition space (c : ascii) : bool :=
  let n := nat_of_ascii c in ((9 <=? n)%nat && (n <=? 13)%nat) || (n =? 32)%nat.
Definition digit (c : ascii) : bool :=
  let n := nat_of_ascii c in (48 <=? n)%nat && (n <=? 57)%nat.

End Regex.

(** ** AuthForms.js *)

Module AuthForms.
Import Regex.

(** [formData].  The three fields of the registration form that
    [handleToggleMode] leaves out are [undefined] from then on. *)
Record FormData := {
  email : string;
  password : string;
  confirmPassword : string;
  firstName : option string;
  lastName : option string;
  phone : option string
}.

(** [validations] *)
Record Validations := {
  email_ok : bool;
  hasMinLength : bool;
  hasUpperCase : bool;
  hasLowerCase : bool;
  hasNumber : bool;
  hasSpecialChar : bool
}.

(** React state of [AuthForms]. *)
Record State := {
  isLogin : bool;
  showPassword : bool;
  loading : bool;
  error : jsval;
  formData : FormData;
  validations : Validations
}.

Definition initial : State :=
  {| isLogin := true; showPassword := false; loading := false; error := JStr "";
     formData := {| email := ""; password := ""; confirmPassword := "";
                    firstName := Some ""; lastName := Some ""; phone := Some "" |};
     validations := {| email_ok := true; hasMinLength := false; hasUpperCase := false;
                       hasLowerCase := false; hasNumber := false;
                       hasSpecialChar := false |} |}.

Definition setIsLogin (v : bool) (s : State) : State :=
  {| isLogin := v; showPassword := showPassword s; loading := loading s;
     error := error s; formData := formData s; validations := validations s |}.
Definition setShowPassword (v : bool) (s : State) : State :=
  {| isLogin := isLogin s; showPassword := v; loading := loading s;
     error := error s; formData := formData s; validations := validations s |}.
Definition setLoading (v : bool) (s : State) : State :=
  {| isLogin := isLogin s; showPassword := showPassword s; loading := v;
     error := error s; formData := formData s; validations := validations s |}.
Definition setError (v : jsval) (s : State) : State :=
  {| isLogin := isLogin s; showPassword := showPassword s; loading := loading s;
     error := v; formData := formData s; validations := validations s |}.
Definition setFormData (v : FormData) (s : State) : State :=
  {| isLogin := isLogin s; showPassword := showPassword s; loading := loading s;
     error := error s; formData := v; validations := validations s |}.
Definition setValidations (v : Validations) (s : State) : State :=
  {| isLogin := isLogin s; showPassword := showPassword s; loading := loading s;
     error := error s; formData := formData s; validations := v |}.

(** The class [[^\s@]]. *)
Definition plain (c : ascii) : bool := negb (space c || Ascii.eqb c "@").

(** [/^[^\s@]+@[^\s@]+\.[^\s@]+$/] *)
Definition emailRegex : regex :=
  Then (Plus (Class plain))
    (Then (Char "@")
      (Then (Plus (Class plain))
        (Then (Char ".") (Plus (Class plain))))).

Definition validateEmail (email : string) : bool := test_whole emailRegex email.

(** The classes [[A-Z]], [[a-z]] and that of the special characters,
    in which the double quote is character 34. *)
Definition upper (c : ascii) : bool :=
  let n := nat_of_ascii c in (65 <=? n)%nat && (n <=? 90)%nat.
Definition lower_case (c : ascii) : bool :=
  let n := nat_of_ascii c in (97 <=? n)%nat && (n <=? 122)%nat.
Definition special (c : ascii) : bool :=
  existsb (Ascii.eqb c) (list_ascii_of_string "!@#$%^&*(),.?:{}|<>") ||
  Ascii.eqb c (ascii_of_nat 34).

(** The five requirements on a password, as [validatePassword] computes
    them. *)
Definition checked (password : string) (v : Validations) : Validations :=
  {| email_ok := email_ok v;
     hasMinLength := (8 <=? String.length password)%nat;
     hasUpperCase := test (Class upper) password;
     hasLowerCase := test (Class lower_case) password;
     hasNumber := test (Class digit) password;
     hasSpecialChar := test (Class special) password |}.

Definition validatePassword (password : string) (s : State) : State :=
  setValidations (checked password (validations s)) s.

(** [/^\+?[\d\s-]{10,}$/], tested on the phone, which as [undefined] is
    tested as the text of that word. *)
Definition phoneRegex : regex :=
  Then (Opt (Char "+"))
    (AtLeast 10 (Class (λ c, digit c || space c || Ascii.eqb c "-"))).

Definition validatePhone (phone : option string) : bool :=
  test_whole phoneRegex (default "undefined" phone).

(** The calls to the provider. *)
Inductive call :=
| Login (email password : string)
| Register (formData : FormData).

(** The form with what it acts on: the calls to [login] and [register]
    and the paths passed to [navigate], oldest first. *)
Record World := {
  state : State;
  calls : list call;
  navigated : list string
}.

Definition on_state (f : State → State) (w : World) : World :=
  {| state := f (state w); calls := calls w; navigated := navigated w |}.

Definition mounted : World := {| state := initial; calls := []; navigated := [] |}.

(** The inputs that go through [handleInputChange], by their [name]. *)
Inductive field := EmailField | PasswordField | ConfirmPasswordField
                 | FirstNameField | LastNameField.

Definition with_field (name : field) (value : string) (d : FormData) : FormData :=
  match name with
  | EmailField =>
      {| email := value; password := password d; confirmPassword := confirmPassword d;
         firstName := firstName d; lastName := lastName d; phone := phone d |}
  | PasswordField =>
      {| email := email d; password := value; confirmPassword := confirmPassword d;
         firstName := firstName d; lastName := lastName d; phone := phone d |}
  | ConfirmPasswordField =>
      {| email := email d; password := password d; confirmPassword := value;
         firstName := firstName d; lastName := lastName d; phone := phone d |}
  | FirstNameField =>
      {| email := email d; password := password d; confirmPassword := confirmPassword d;
         firstName := Some value; lastName := lastName d; phone := phone d |}
  | LastNameField =>
      {| email := email d; password := password d; confirmPassword := confirmPassword d;
         firstName := firstName d; lastName := Some value; phone := phone d |}
  end.

(** The effect on [formData.password]: it runs when the password has
    changed and validates it when it is not empty. *)
Definition password_effect (before : string) (s : State) : State :=
  let now := password (formData s) in
  if negb (String.eqb before now) && negb (String.eqb now "")
  then validatePassword now s else s.

(** [handleInputChange], followed by the effect on the password. *)
Definition handleInputChange (name : field) (value : string) (w : World) : World :=
  on_state (λ s,
    let s1 := setFormData (with_field name value (formData s)) s in
    let s2 :=
      match name with
      | EmailField =>
          setValidations
            {| email_ok := validateEmail value;
               hasMinLength := hasMinLength (validations s1);
               hasUpperCase := hasUpperCase (validations s1);
               hasLowerCase := hasLowerCase (validations s1);
               hasNumber := hasNumber (validations s1);
               hasSpecialChar := hasSpecialChar (validations s1) |} s1
      | _ => s1
      end in
    password_effect (password (formData s)) s2) w.

(** [handlePhoneChange] *)
Definition handlePhoneChange (value : string) (w : World) : World :=
  on_state (λ s,
    let d := formData s in
    setFormData
      {| email := email d; password := password d; confirmPassword := confirmPassword d;
         firstName := firstName d; lastName := lastName d;
         phone := Some ("+" ++ value) |} s) w.

(** [handleToggleMode], followed by the effect on the password, which
    finds it empty. *)
Definition handleToggleMode (w : World) : World :=
  on_state (λ s,
    setValidations
      {| email_ok := true; hasMinLength := false; hasUpperCase := false;
         hasLowerCase := false; hasNumber := false; hasSpecialChar := false |}
      (setFormData
        {| email := ""; password := ""; confirmPassword := "";
           firstName := None; lastName := None; phone := None |}
        (setError (JStr "") (setIsLogin (negb (isLogin s)) s)))) w.

Definition handleTogglePasswordVisibility (w : World) : World :=
  on_state (λ s, setShowPassword (negb (showPassword s)) s) w.

(** [Object.values(validations).every(v => v)] *)
Definition all_met (v : Validations) : bool :=
  email_ok v && hasMinLength v && hasUpperCase v && hasLowerCase v &&
  hasNumber v && hasSpecialChar v.

(** [!name] for a field that may be [undefined]. *)
Definition missing (name : option string) : bool :=
  match name with
  | Some text => String.eqb text ""
  | None => true
  end.

(** [handleSubmit], up to its [await]. *)
Definition handleSubmit (w : World) : World :=
  let w := on_state (setError (JStr "")) w in
  let s := state w in
  let d := formData s in
  let refuse text := on_state (setError (JStr text)) w in
  if negb (validateEmail (email d)) then refuse "Please enter a valid email address"
  else if negb (isLogin s) && negb (all_met (validations s)) then
    refuse "Please ensure all password requirements are met"
  else if negb (isLogin s) && negb (String.eqb (password d) (confirmPassword d)) then
    refuse "Passwords do not match"
  else if negb (isLogin s) && (missing (firstName d) || missing (lastName d)) then
    refuse "Please enter both first and last name"
  else if negb (isLogin s) && negb (validatePhone (phone d)) then
    refuse "Please enter a valid phone number"
  else
    {| state := setLoading true s;
       calls := calls w ++ [if isLogin s then Login (email d) (password d) else Register d];
       navigated := navigated w |}.

(** [handleSubmit], from its [await] on, given what the promise of the
    provider settles to. *)
Definition handleSubmit_settled (settled : completion jsval) (w : World) : World :=
  on_state (setLoading false)
    match (result ← settled; success ← get result "success"; mret (result, success)) with
    | Normal (result, success) =>
        if truthy success then
          {| state := state w; calls := calls w;
             navigated := navigated w ++ ["/dashboard"] |}
        else
          match get result "error" with
          | Normal message =>
              on_state (setError (or_else message (JStr "Authentication failed"))) w
          | Throw _ =>
              on_state (setError
                (JStr "An error occurred during authentication. Please try again.")) w
          end
    | Throw _ =>
        on_state (setError
          (JStr "An error occurred during authentication. Please try again.")) w
    end.

End AuthForms.
(** * Vocabulary of the statements *)

Import JS SummariesList.

(** ** Filtering with a callback that may throw *)

(** The verdict of a callback where it returns one. *)
Definition verdict {A} (f : A → completion bool) (x : A) : bool :=
  match f x with
  | Normal b => b
  | Throw _ => false
  end.

(** ** The visible list *)

(** [x.p] is the string [v]. *)
Definition has_text (x : jsval) (p v : string) : Prop := get x p = Normal (JStr v).

(** [x.p] is some string. *)
Definition text_field (x : jsval) (p : string) : Prop := ∃ v, has_text x p v.

(** The text at [x.p], empty when there is none. *)
Definition text (x : jsval) (p : string) : string :=
  match get x p with
  | Normal (JStr v) => v
  | _ => ""
  end.

(** The three kinds of summary. *)
Definition kinds : list string := ["code"; "documentation"; "research"].

(** A summary of the data model, as far as the filters look at it: title
    and output are texts and the type is one of the three kinds. *)
Definition is_summary (x : jsval) : Prop :=
  text_field x "title" ∧ text_field x "outputData" ∧
  ∃ kind, has_text x "type" kind ∧ kind ∈ kinds.

(** The two predicates of the visible list, in the words of the
    specification: the type is the category unless the category is [all];
    the lower-cased query occurs in the lower-cased title or in the
    lower-cased output. *)
Definition in_category (category : string) (x : jsval) : bool :=
  String.eqb category "all" || String.eqb (text x "type") category.

Definition answers_query (query : string) (x : jsval) : bool :=
  includes (lower (text x "title")) (lower query) ||
  includes (lower (text x "outputData")) (lower query).

Definition displayed (category query : string) (x : jsval) : bool :=
  in_category category x && answers_query query x.

(** An item of which the callback of the filters can read all it may
    read: title, output and type are texts, whatever texts. *)
Definition readable (x : jsval) : Prop :=
  text_field x "title" ∧ text_field x "outputData" ∧ text_field x "type".

(** The test of the tab as the callback makes it on such an item: it is the
    lower-cased type that is compared with the tab. *)
Definition on_tab (activeTab : string) (x : jsval) : bool :=
  String.eqb activeTab "all" || String.eqb (lower (text x "type")) activeTab.

(** What the callback keeps of readable items. *)
Definition kept (activeTab searchQuery : string) (x : jsval) : bool :=
  on_tab activeTab x && answers_query searchQuery x.

(** The items of the concrete scenario, with the output text left open. *)
Definition first_item (outputData : string) : jsval :=
  JObj {[ "id" := JNum 1; "title" := JStr "A"; "type" := JStr "code";
          "outputData" := JStr outputData ]}.
Definition second_item (outputData : string) : jsval :=
  JObj {[ "id" := JNum 2; "title" := JStr "B"; "type" := JStr "research";
          "outputData" := JStr outputData ]}.

(** The same two items exactly as the scenario writes them, with no
    [outputData]. *)
Definition first_item_bare : jsval :=
  JObj {[ "id" := JNum 1; "title" := JStr "A"; "type" := JStr "code" ]}.
Definition second_item_bare : jsval :=
  JObj {[ "id" := JNum 2; "title" := JStr "B"; "type" := JStr "research" ]}.

(** What the callback of the filters needs of an item in order to return:
    a text for title; a text for type unless the tab is [all]; a text for
    output unless the title already matches the query. *)
Definition answerable (activeTab searchQuery : string) (x : jsval) : Prop :=
  (activeTab = "all" ∨ text_field x "type") ∧
  ∃ title, has_text x "title" title ∧
    (includes (lower title) (lower searchQuery) = true ∨ text_field x "outputData").

(** The owned list of the scenario as it is written, on a fresh
    component. *)
Definition scenario_as_written : State :=
  setSummaries [first_item_bare; second_item_bare] (initial JNull).

(** The owned list of the scenario with empty output texts. *)
Definition scenario_completed : State :=
  setSummaries [first_item ""; second_item ""] (initial JNull).

(** The owned list of the scenario with output texts of which the second
    holds an [a]. *)
Definition scenario_with_output : State :=
  setSummaries [first_item "x"; second_item "a summary"] (initial JNull).

(** A summary whose type is written with a capital. *)
Definition capitalised_item : jsval :=
  JObj {[ "id" := JNum 3; "title" := JStr "C"; "type" := JStr "Research";
          "outputData" := JStr "" ]}.

(** An item with a title and an output but no type, alone in the owned list
    of a fresh component (tab [all], empty query). *)
Definition untyped_item : jsval :=
  JObj {[ "id" := JNum 1; "title" := JStr "A"; "outputData" := JStr "x" ]}.
Definition untyped_alone : State := setSummaries [untyped_item] (initial JNull).

(** ** Fetching *)

(** The list carried by a well-formed answer, in the words of the
    specification: the status flag says [OK] and the result is a list.
    Anything else, a rejection included, carries none. *)
Definition payload (settled : completion jsval) : option (list jsval) :=
  match settled with
  | Normal (JObj fields) =>
      match fields !! "status", fields !! "result" with
      | Some (JStr flag), Some (JArr items) =>
          if String.eqb flag "OK" then Some items else None
      | _, _ => None
      end
  | _ => None
  end.

(** The answer of the API to a list request that succeeds with [items]. *)
Definition listing (items : list jsval) : RequestService.axios_outcome :=
  RequestService.AxiosOk
    {| RequestService.status := 200;
       RequestService.data := JObj {[ "status" := JStr "OK"; "result" := JArr items ]};
       RequestService.headers := ∅ |}.

(** Call [n] is out with handler [k] parked on it. *)
Definition waiting (n : nat) (r : request) (k : continuation) (w : World) : Prop :=
  requests w !! n = Some r ∧ suspended w !! n = Some k.

(** ** Deleting *)

(** [x.id] where it can be read. *)
Definition id_of (x : jsval) : jsval :=
  match get x "id" with
  | Normal id => id
  | Throw _ => JUndefined
  end.

(** [undefined] and [null], of which no property can be read. *)
Definition nullish (x : jsval) : bool :=
  match x with
  | JUndefined | JNull => true
  | _ => false
  end.

(** The state variables that deleting has no business with: all but
    [summaries], [deleting] and [error]. *)
Definition untouched_by_delete (s s' : State) : Prop :=
  sharedSummaries s' = sharedSummaries s ∧
  searchQuery s' = searchQuery s ∧
  activeTab s' = activeTab s ∧
  currentView s' = currentView s ∧
  selectedSummary s' = selectedSummary s ∧
  loading s' = loading s ∧
  sharingSummary s' = sharingSummary s ∧
  recipient s' = recipient s ∧
  sharing s' = sharing s ∧
  errorMessage s' = errorMessage s ∧
  deleteDialogOpen s' = deleteDialogOpen s ∧
  summaryToDelete s' = summaryToDelete s.

(** ** Sample worlds *)

(** A provider with a user signed in and both session fields stored. *)
Definition signed_in : App.State :=
  {| App.isAuthenticated := true;
     App.userData := JObj {[ "id" := JStr "user-id"; "email" := JStr "test@example.com" ]};
     App.summaries := JArr [];
     App.loading := false;
     App.error := JNull;
     App.localStorage := {[ "auth_token" := "token"; "user_data" := "profile" ]} |}.

(** The list component as it mounts under that provider. *)
Definition mounted : World :=
  {| state := initial JNull; session := signed_in; alerts := [];
     requests := []; suspended := ∅ |}.

(** The same once the two items of the scenario are in the owned list. *)
Definition listed : World :=
  on_state (setSummaries [first_item ""; second_item ""]) mounted.

(** The share dialog open on the summary with id 5, with [recipient] typed
    into its field. *)
Definition sharing_to (recipient : string) : World :=
  on_state (setRecipient recipient)
    (handleShareSummary (JObj {[ "id" := JNum 5 ]}) mounted).

(** ** Sharing *)

(** The text the server gives for a failure: [detail] of the body. *)
Definition server_text (body : jsval) (text : jsval) : Prop :=
  ∃ fields, body = JObj fields ∧ fields !! "detail" = Some text.

(** ** Failures of the API *)

(** The API answers with an error status and a body. *)
Definition failure (status : Z) (body : jsval) : RequestService.axios_outcome :=
  RequestService.AxiosFail
    (Some {| RequestService.status := status; RequestService.data := body;
             RequestService.headers := ∅ |})
    "Request failed".

(** The body of a refusal. *)
Definition refusal : jsval := JObj {[ "detail" := JStr "Could not validate credentials" ]}.

(** ** Startup verification *)

(** The conditions under which the startup verification gives up: no token
    or no cached profile (absent or empty); a token that does not decode; a
    decoded expiry, in milliseconds, before the current time; a cached
    profile that does not parse. *)
Definition refused (jwtDecode : string → completion App.JwtPayload)
    (JSON_parse : string → completion jsval) (now : Z) (s : App.State) : Prop :=
  App.falsy_item (App.getItem "auth_token" s) = true ∨
  App.falsy_item (App.getItem "user_data" s) = true ∨
  ∃ token profile,
    App.getItem "auth_token" s = Some token ∧
    App.getItem "user_data" s = Some profile ∧
    ((∃ e, jwtDecode token = Throw e) ∨
     (∃ decoded exp, jwtDecode token = Normal decoded ∧
        App.exp decoded = Some exp ∧ (exp * 1000 < now)%Z) ∨
     (∃ e, JSON_parse profile = Throw e)).

(** A decoder that knows one token, expiring at second 1000, and a parser
    that knows one profile text. *)
Definition decode_sample (token : string) : completion App.JwtPayload :=
  if String.eqb token "token" then Normal {| App.exp := Some 1000%Z |}
  else Throw (Error "Invalid token specified").

Definition parse_sample (text : string) : completion jsval :=
  if String.eqb text "profile" then Normal (JObj {[ "id" := JStr "user-id" ]})
  else Throw (Error "Unexpected token").

(** The provider as it mounts over a store holding that token and that
    profile. *)
Definition restarted : App.State :=
  App.initial {[ "auth_token" := "token"; "user_data" := "profile" ]}.

(** The startup verification run at the very millisecond the sample token
    expires, the summaries request then succeeding with an empty list. *)
Definition verified_at_expiry : App.State :=
  App.verifyToken decode_sample parse_sample 1000000 (listing []) restarted.

(** The same one millisecond later. *)
Definition verified_after_expiry : App.State :=
  App.verifyToken decode_sample parse_sample 1000001 (listing []) restarted.

(** ** Login *)

(** The answer of the API grants a session: it carries a truthy
    [result.auth_token], and [result.user] beside it. *)
Definition granted (settled : completion jsval) (token user : jsval) : Prop :=
  ∃ response result,
    settled = Normal response ∧
    get response "result" = Normal result ∧
    get result "auth_token" = Normal token ∧
    truthy token = true ∧
    get result "user" = Normal user.

(** The object [{ success: true }]. *)
Definition succeeded : jsval := JObj {[ "success" := JBool true ]}.

(** The object [{ success: false, error: text }]. *)
Definition failed (text : jsval) : jsval :=
  JObj {[ "success" := JBool false; "error" := text ]}.

(** A stringifier and a conversion for the sample session: the profile of
    the sample is written as the text the sample parser knows. *)
Definition stringify_sample (v : jsval) : jsval := JStr "profile".
Definition tostring_sample (v : jsval) : string := "value".

(** The answer of the API to a good login of the sample user. *)
Definition login_answer : jsval :=
  JObj {[ "result" :=
    JObj {[ "auth_token" := JStr "token";
            "user" := JObj {[ "id" := JStr "user-id" ]} ]} ]}.

(** ** The new-summary dialog *)

(** A file, if any, of at most 200 MiB. *)
Definition within_limit (f : option NewSummary.File) : Prop :=
  match f with
  | Some f => (NewSummary.size f ≤ 200 * 1024 * 1024)%Z
  | None => True
  end.

(** The file a gateway call carries, if any. *)
Definition carried (r : NewSummary.request) : option NewSummary.File :=
  match r with
  | NewSummary.UserSummaryUpload p | NewSummary.CreateUserSummary p =>
      match NewSummary.initialData p with
      | NewSummary.Picked f => f
      | NewSummary.Typed _ => None
      end
  end.

(** The file in the dialog and the files of the calls made are all within
    the limit. *)
Definition files_within_limit (w : NewSummary.World) : Prop :=
  within_limit (NewSummary.file (NewSummary.state w)) ∧
  Forall (λ r, within_limit (carried r)) (NewSummary.requests w).

(** ** The dashboard *)

(** The first item of a list whose id is [summary_id], [undefined] when
    there is none. *)
Definition first_with_id (summary_id : jsval) (items : list jsval) : jsval :=
  default JUndefined (head (filter (λ x, strict_eq (id_of x) summary_id) items)).

(** ** Regular expressions *)

(** The texts a regular expression stands for. *)
Inductive lang : Regex.regex → list ascii → Prop :=
| lang_empty : lang Regex.Empty []
| lang_class p c : p c = true → lang (Regex.Class p) [c]
| lang_then r1 r2 s1 s2 :
    lang r1 s1 → lang r2 s2 → lang (Regex.Then r1 r2) (s1 ++ s2)
| lang_or_l r1 r2 s : lang r1 s → lang (Regex.Or r1 r2) s
| lang_or_r r1 r2 s : lang r2 s → lang (Regex.Or r1 r2) s
| lang_star_nil r : lang (Regex.Star r) []
| lang_star_more r s1 s2 :
    lang r s1 → lang (Regex.Star r) s2 → lang (Regex.Star r) (s1 ++ s2).

(** ** The sign-in form *)

(** A run of one or more characters that are neither white space nor
    [@]. *)
Definition word (cs : list ascii) : Prop :=
  cs ≠ [] ∧ Forall (λ c, AuthForms.plain c = true) cs.

(** The shape of an address the form accepts: a word, [@], a word, a
    dot, a word. *)
Definition email_shape (email : string) : Prop :=
  ∃ l a b,
    list_ascii_of_string email = (l ++ "@"%char :: a ++ "."%char :: b)%list ∧
    word l ∧ word a ∧ word b.

(** What a registration needs beyond a good address. *)
Definition registrable (s : AuthForms.State) : Prop :=
  AuthForms.all_met (AuthForms.validations s) = true ∧
  AuthForms.password (AuthForms.formData s)
    = AuthForms.confirmPassword (AuthForms.formData s) ∧
  AuthForms.missing (AuthForms.firstName (AuthForms.formData s)) = false ∧
  AuthForms.missing (AuthForms.lastName (AuthForms.formData s)) = false ∧
  AuthForms.validatePhone (AuthForms.phone (AuthForms.formData s)) = true.

(** The registration form filled in for the sample user, with a password
    that meets the five requirements. *)
Definition filled_in : AuthForms.World :=
  AuthForms.handleInputChange AuthForms.PasswordField "Abcdef1!"
    (AuthForms.handlePhoneChange "1234567890"
      (AuthForms.handleInputChange AuthForms.LastNameField "Doe"
        (AuthForms.handleInputChange AuthForms.FirstNameField "John"
          (AuthForms.handleInputChange AuthForms.EmailField "john.doe@example.com"
            (AuthForms.handleToggleMode AuthForms.mounted))))).

(** The class of the characters of a phone number: digits, white space
    and the hyphen. *)
Definition dialable (c : ascii) : bool :=
  Regex.digit c || Regex.space c || Ascii.eqb c "-".

(** The text holds a character of the class. *)
Definition holds (p : ascii → bool) (text : string) : Prop :=
  Exists (λ c, p c = true) (list_ascii_of_string text).

(** ** What a render shows *)



(** * Properties *)

(** ** The JavaScript layer on small inputs *)

Example lower_mixed : lower "Summary 1" = "summary 1".
Proof. reflexivity. Qed.

Example includes_inside : includes "shared content 1" "content" = true.
Proof. reflexivity. Qed.

Example includes_absent : includes "b" "a" = false.
Proof. reflexivity. Qed.

Example get_missing : get (JObj {[ "id" := JNum 1 ]}) "title" = Normal JUndefined.
Proof. reflexivity. Qed.

Example get_of_null : get JNull "id" = Throw (TypeError "Cannot read properties").
Proof. reflexivity. Qed.

Example or_else_empty : or_else (JStr "") (JStr "Error sharing summary") = JStr "Error sharing summary".
Proof. reflexivity. Qed.

Example filterM_stops :
  filterM (λ x, toLowerCase x ≫= λ l, mret (String.eqb l "a")) [JStr "A"; JNum 3; JStr "b"]
  = Throw (TypeError "toLowerCase is not a function").
Proof. reflexivity. Qed.

(** ** Filtering with a callback that may throw *)

Section FilterM.
Context {A : Type}.
Implicit Types (f : A → completion bool) (p : A → bool) (xs ys : list A).

Lemma filterM_cons f x xs :
  filterM f (x :: xs) =
  (keep ← f x; rest ← filterM f xs; Normal (if keep : bool then x :: rest else rest)).
Proof. reflexivity. Qed.

(** A callback that never throws on the elements of the list makes
    [filterM] the ordinary filter. *)
Lemma filterM_pure f p xs :
  Forall (λ x, f x = Normal (p x)) xs →
  filterM f xs = Normal (filter (λ x, p x) xs).
Proof.
  induction 1 as [|x xs Hx _ IH]; [done|].
  rewrite filterM_cons, Hx, IH. simpl.
  rewrite filter_cons. by destruct (p x).
Qed.

(** A normal result is the ordinary filter by the callback's verdicts, and
    the callback has thrown on no element. *)
Lemma filterM_normal f xs ys :
  filterM f xs = Normal ys →
  Forall (λ x, f x = Normal (verdict f x)) xs ∧ ys = filter (λ x, verdict f x) xs.
Proof.
  revert ys. induction xs as [|x xs IH]; intros ys.
  - intros [= <-]. by split.
  - rewrite filterM_cons.
    destruct (f x) as [b|e] eqn:Hx; [|done]. simpl.
    destruct (filterM f xs) as [rest|e] eqn:Hxs; [|done]. simpl.
    intros [= <-].
    destruct (IH rest eq_refl) as [Hall ->].
    split.
    + constructor; [|done]. unfold verdict. by rewrite Hx.
    + rewrite filter_cons.
      assert (verdict f x = b) as -> by (unfold verdict; by rewrite Hx).
      by destruct b.
Qed.

(** [filterM] returns exactly when the callback returns on every element. *)
Lemma filterM_returns f xs :
  (∃ ys, filterM f xs = Normal ys) ↔ Forall (λ x, ∃ b, f x = Normal b) xs.
Proof.
  split.
  - intros [ys Hys]. apply filterM_normal in Hys as [Hall _].
    eapply Forall_impl; [exact Hall|]. intros x Hx. simpl in Hx. eauto.
  - intros Hall. exists (filter (λ x, verdict f x) xs).
    apply filterM_pure. eapply Forall_impl; [exact Hall|].
    intros x [b Hb]. unfold verdict. by rewrite Hb.
Qed.

(** Filtering what the filter returned changes nothing. *)
Lemma filterM_idemp f xs ys :
  filterM f xs = Normal ys → filterM f ys = Normal ys.
Proof.
  revert ys. induction xs as [|x xs IH]; intros ys.
  - by intros [= <-].
  - rewrite filterM_cons.
    destruct (f x) as [b|e] eqn:Hx; [|done]. simpl.
    destruct (filterM f xs) as [rest|e] eqn:Hxs; [|done]. simpl.
    intros [= <-]. specialize (IH rest eq_refl).
    destruct b; [|done].
    by rewrite filterM_cons, Hx, IH.
Qed.

End FilterM.

(** ** The visible list *)


Lemma includes_empty s : includes s "" = true.
Proof. by destruct s. Qed.

Lemma text_of x p v : has_text x p v → text x p = v.
Proof. unfold has_text, text. by intros ->. Qed.

Lemma lower_kind kind : kind ∈ kinds → lower kind = kind.
Proof.
  unfold kinds. rewrite !elem_of_cons, elem_of_nil.
  intros [->|[->|[->|[]]]]; reflexivity.
Qed.

(** On a readable item the callback does not throw and keeps the item
    when its lower-cased type is the tab, or the tab is [all], and it
    answers the query. *)
Lemma matches_readable activeTab searchQuery x :
  readable x → matches activeTab searchQuery x = Normal (kept activeTab searchQuery x).
Proof.
  intros ([title Ht] & [output Ho] & [kind Hk]).
  unfold matches, matchesTab, matchesSearch, kept, on_tab, answers_query.
  rewrite (text_of _ _ _ Ht), (text_of _ _ _ Ho), (text_of _ _ _ Hk).
  unfold has_text in *. rewrite Ht, Ho, Hk. simpl.
  destruct (String.eqb activeTab "all"); simpl;
    destruct (includes (lower title) (lower searchQuery)); simpl;
    try reflexivity; by rewrite ?andb_true_r, ?andb_false_r.
Qed.

(** A summary of the data model is readable, and on its type, which is
    written in small letters, the test of the tab is equality. *)
Lemma summary_readable x : is_summary x → readable x.
Proof. intros (Ht & Ho & kind & Hk & _). split; [done|]. split; [done|by exists kind]. Qed.

Lemma kept_summary activeTab searchQuery x :
  is_summary x → kept activeTab searchQuery x = displayed activeTab searchQuery x.
Proof.
  intros (_ & _ & kind & Hk & Hin).
  unfold kept, displayed, on_tab, in_category.
  rewrite (text_of _ _ _ Hk), (lower_kind _ Hin).
  by rewrite (String.eqb_sym kind activeTab).
Qed.

Lemma filteredSummaries_readable s :
  Forall readable (summaries s) →
  filteredSummaries s =
  Normal (filter (λ x, kept (activeTab s) (searchQuery s) x) (summaries s)).
Proof.
  intros Hall. unfold filteredSummaries. apply filterM_pure.
  eapply Forall_impl; [exact Hall|]. intros x Hx. by apply matches_readable.
Qed.

Lemma filteredSummaries_summaries s :
  Forall is_summary (summaries s) →
  filteredSummaries s =
  Normal (filter (λ x, displayed (activeTab s) (searchQuery s) x) (summaries s)).
Proof.
  intros Hall. unfold filteredSummaries. apply filterM_pure.
  eapply Forall_impl; [exact Hall|]. intros x Hx.
  rewrite <- (kept_summary _ _ _ Hx). by apply matches_readable, summary_readable.
Qed.

(** A sequence that returns has returned at each of its two steps. *)
Lemma bind_normal {A B} (c : completion A) (k : A → completion B) b :
  (c ≫= k) = Normal b → ∃ a, c = Normal a ∧ k a = Normal b.
Proof. destruct c as [a|e]; [|done]. intros H. by exists a. Qed.

Lemma toLowerCase_normal v l :
  toLowerCase v = Normal l → ∃ s, v = JStr s ∧ l = lower s.
Proof. destruct v; try done. intros [= <-]. eauto. Qed.

Lemma matchesTab_returns activeTab x :
  (∃ b, matchesTab activeTab x = Normal b) ↔ (activeTab = "all" ∨ text_field x "type").
Proof.
  unfold matchesTab.
  destruct (String.eqb activeTab "all") eqn:Hall.
  - apply String.eqb_eq in Hall. split; eauto.
  - apply String.eqb_neq in Hall. split.
    + intros [b (ty & Hty & (l & Hl & _)%bind_normal)%bind_normal].
      right. apply toLowerCase_normal in Hl as (s & -> & _). by exists s.
    + intros [?|[v Hv]]; [done|]. unfold has_text in Hv. rewrite Hv. simpl. eauto.
Qed.

Lemma matchesSearch_returns searchQuery x :
  (∃ b, matchesSearch searchQuery x = Normal b) ↔
  ∃ title, has_text x "title" title ∧
    (includes (lower title) (lower searchQuery) = true ∨ text_field x "outputData").
Proof.
  unfold matchesSearch, text_field, has_text. split.
  - intros [b (t & Ht & (l & Hl & Hrest)%bind_normal)%bind_normal].
    apply toLowerCase_normal in Hl as (title & -> & ->).
    exists title. split; [done|].
    destruct (includes (lower title) (lower searchQuery)); [by left|right].
    apply bind_normal in Hrest as (o & Ho & (l & Hl & _)%bind_normal).
    apply toLowerCase_normal in Hl as (s & -> & _). by exists s.
  - intros (title & -> & Hor). simpl.
    destruct (includes (lower title) (lower searchQuery)); [by eauto|].
    destruct Hor as [?|[v ->]]; [done|]. simpl. eauto.
Qed.

Lemma matches_returns activeTab searchQuery x :
  (∃ b, matches activeTab searchQuery x = Normal b) ↔ answerable activeTab searchQuery x.
Proof.
  unfold answerable.
  rewrite <- matchesTab_returns, <- matchesSearch_returns. unfold matches. split.
  - intros [b (t & Ht & (q & Hq & _)%bind_normal)%bind_normal]. eauto.
  - intros [[t ->] [q ->]]. simpl. eauto.
Qed.

Lemma first_item_summary o : is_summary (first_item o).
Proof.
  split; [by exists "A"|]. split; [by exists o|].
  exists "code". split; [done|]. unfold kinds. set_solver.
Qed.

Lemma second_item_summary o : is_summary (second_item o).
Proof.
  split; [by exists "B"|]. split; [by exists o|].
  exists "research". split; [done|]. unfold kinds. set_solver.
Qed.

(** C2, as amended: on a list of items whose title, output and type are
    texts, the visible list is the sublist of the items whose lower-cased type
    is the tab, unless the tab is [all], and that answer the query; on the
    summaries of the data model, whose types are written in small letters,
    this is the sublist of the items that are in the category and answer
    the query; an empty query is answered by every item; and in the
    scenario, the two items carrying output texts, the tab [research] shows
    the second item alone, and the query [A] on top of it shows nothing
    when the output of the second item holds no [a] and the second item
    when it holds one. *)
Theorem visible_list_spec :
  (∀ s, Forall readable (summaries s) →
     filteredSummaries s =
     Normal (filter (λ x, kept (activeTab s) (searchQuery s) x) (summaries s))) ∧
  (∀ s, Forall is_summary (summaries s) →
     filteredSummaries s =
     Normal (filter (λ x, displayed (activeTab s) (searchQuery s) x) (summaries s))) ∧
  (∀ x, answers_query "" x = true) ∧
  (∀ s o1 o2,
     summaries s = [first_item o1; second_item o2] →
     filteredSummaries (setActiveTab "research" (setSearchQuery "" s))
       = Normal [second_item o2] ∧
     filteredSummaries (setSearchQuery "A" (setActiveTab "research" s))
       = Normal (if includes (lower o2) "a" then [second_item o2] else [])).
Proof.
  split; [exact filteredSummaries_readable|].
  split; [exact filteredSummaries_summaries|]. split.
  - intros x. unfold answers_query. simpl. by rewrite includes_empty.
  - intros s o1 o2 Hs.
    assert (Hall : Forall is_summary [first_item o1; second_item o2]).
    { apply Forall_cons_2; [apply first_item_summary|].
      apply Forall_cons_2; [apply second_item_summary|]. apply Forall_nil_2. }
    split.
    + rewrite filteredSummaries_summaries; simpl; rewrite Hs; [|done].
      rewrite !filter_cons, filter_nil.
      assert (displayed "research" "" (first_item o1) = false) as -> by reflexivity.
      assert (displayed "research" "" (second_item o2) = true) as -> by reflexivity.
      reflexivity.
    + rewrite filteredSummaries_summaries; simpl; rewrite Hs; [|done].
      rewrite !filter_cons, filter_nil.
      assert (displayed "research" "A" (first_item o1) = false) as -> by reflexivity.
      assert (displayed "research" "A" (second_item o2) = includes (lower o2) "a") as ->.
      { unfold displayed, answers_query.
        change (text (second_item o2) "outputData") with o2. reflexivity. }
      by destruct (includes (lower o2) "a").
Qed.

(** The scenario with empty output texts. *)
Lemma visible_list_spec_witness :
  filteredSummaries scenario_completed =
    Normal (filter (λ x, displayed "all" "" x) [first_item ""; second_item ""]) ∧
  filteredSummaries (setActiveTab "research" (setSearchQuery "" scenario_completed))
    = Normal [second_item ""] ∧
  filteredSummaries (setSearchQuery "A" (setActiveTab "research" scenario_completed))
    = Normal [] ∧
  filteredSummaries (setActiveTab "research" (setSummaries [capitalised_item] (initial JNull)))
    = Normal [capitalised_item].
Proof.
  destruct visible_list_spec as (Hreadable & Hlist & _ & Hscenario).
  split; [|split; [|split]].
  - apply (Hlist scenario_completed). simpl.
    apply Forall_cons_2; [apply first_item_summary|].
    apply Forall_cons_2; [apply second_item_summary|]. apply Forall_nil_2.
  - apply (Hscenario scenario_completed "" ""); reflexivity.
  - apply (Hscenario scenario_completed "" ""); reflexivity.
  - rewrite (Hreadable (setActiveTab "research" (setSummaries [capitalised_item] (initial JNull))));
      [reflexivity|].
    apply Forall_cons_2; [|apply Forall_nil_2].
    split; [by exists "C"|]. split; [by exists ""|by exists "Research"].
Defined.

(** C2, as it is stated: with output texts on the two items of the
    scenario, as every summary has one, and an [a] in that of the second,
    the tab [research] with the query [A] still shows the second item, the
    query being looked for in the output as well as in the title. *)
Lemma output_answers_the_query :
  Forall is_summary [first_item "x"; second_item "a summary"] ∧
  filteredSummaries (setActiveTab "research" scenario_with_output)
    = Normal [second_item "a summary"] ∧
  filteredSummaries (setSearchQuery "A" (setActiveTab "research" scenario_with_output))
    = Normal [second_item "a summary"] ∧
  filteredSummaries (setSearchQuery "A" (setActiveTab "research" scenario_with_output))
    ≠ Normal [].
Proof.
  split.
  - apply Forall_cons_2; [apply first_item_summary|].
    apply Forall_cons_2; [apply second_item_summary|]. apply Forall_nil_2.
  - split; [reflexivity|]. split; [reflexivity|discriminate].
Qed.

(** The two items exactly as the scenario writes them, with no output at
    all: the tab [research] does show the second item, but the query [A]
    then makes the filter throw, there being no [outputData] to search. *)
Lemma scenario_as_written_throws :
  filteredSummaries (setActiveTab "research" scenario_as_written)
    = Normal [second_item_bare] ∧
  filteredSummaries (setSearchQuery "A" (setActiveTab "research" scenario_as_written))
    = Throw (TypeError "Cannot read properties") ∧
  filteredSummaries (setSearchQuery "A" (setActiveTab "research" scenario_as_written))
    ≠ Normal [].
Proof. split; [reflexivity|]. split; [reflexivity|discriminate]. Qed.

(** The tab is compared with the lower-cased type: a type written with a
    capital is kept on the tab of its kind, though it is not the
    category letter for letter. *)
Lemma capitalised_type_is_kept :
  readable capitalised_item ∧
  in_category "research" capitalised_item = false ∧
  filteredSummaries (setActiveTab "research" (setSummaries [capitalised_item] (initial JNull)))
    = Normal [capitalised_item].
Proof.
  split; [|split; reflexivity].
  split; [by exists "C"|]. split; [by exists ""|by exists "Research"].
Qed.

(** C8: filtering is idempotent.  Whatever the first pass yields, a list or
    an exception, a second pass over its list with the same tab and query
    yields the same; this for the owned and for the shared list. *)
Theorem filter_idempotent s :
  (visible ← filteredSummaries s; filteredSummaries (setSummaries visible s))
    = filteredSummaries s ∧
  (visible ← filteredSharedSummaries s; filteredSharedSummaries (setSharedSummaries visible s))
    = filteredSharedSummaries s.
Proof.
  split.
  - destruct (filteredSummaries s) as [visible|e] eqn:H; [|done]. simpl.
    exact (filterM_idemp _ _ _ H).
  - destruct (filteredSharedSummaries s) as [visible|e] eqn:H; [|done]. simpl.
    exact (filterM_idemp _ _ _ H).
Qed.

(** C9, as amended: on a list whose items all have texts for title, output
    and type the filter returns; and it returns exactly when every item has
    what the callback reads of it, namely a text for title, a text for type
    unless the tab is [all], and a text for output unless the lower-cased
    query occurs in the lower-cased title. *)
Theorem filteredSummaries_returns :
  (∀ s,
     Forall (λ x, text_field x "title" ∧ text_field x "outputData" ∧ text_field x "type")
       (summaries s) →
     ∃ visible, filteredSummaries s = Normal visible) ∧
  (∀ s,
     (∃ visible, filteredSummaries s = Normal visible) ↔
     Forall (answerable (activeTab s) (searchQuery s)) (summaries s)).
Proof.
  assert (Hiff : ∀ s,
    (∃ visible, filteredSummaries s = Normal visible) ↔
    Forall (answerable (activeTab s) (searchQuery s)) (summaries s)).
  { intros s. unfold filteredSummaries. rewrite filterM_returns.
    apply Forall_iff. intros x. apply matches_returns. }
  split; [|exact Hiff].
  intros s Hall. apply Hiff.
  eapply Forall_impl; [exact Hall|].
  intros x ([title Ht] & Ho & Hty). unfold answerable.
  split; [by right|]. exists title. split; [done|by right].
Qed.

(** The completed scenario returns, and so does the item without a type. *)
Lemma filteredSummaries_returns_witness :
  (∃ visible, filteredSummaries scenario_completed = Normal visible) ∧
  Forall (answerable "all" "") [untyped_item].
Proof.
  destruct filteredSummaries_returns as [Htexts Hiff].
  split.
  - apply (Htexts scenario_completed). simpl.
    apply Forall_cons_2; [|apply Forall_cons_2; [|apply Forall_nil_2]].
    + split; [by exists "A"|]. split; [by exists ""|by exists "code"].
    + split; [by exists "B"|]. split; [by exists ""|by exists "research"].
  - apply (Hiff untyped_alone). by exists [untyped_item].
Defined.

(** C9, as it is stated: an item without [type] does not make the filter
    fail while the tab is [all]; it is shown. *)
Lemma untyped_item_is_shown :
  get untyped_item "type" = Normal JUndefined ∧
  filteredSummaries untyped_alone = Normal [untyped_item].
Proof. split; reflexivity. Qed.

(** ** Fetching *)

(** The checks of the fetchers accept exactly the well-formed answers. *)
Lemma checked_payload what settled :
  match payload settled with
  | Some items => checked what settled = Normal items
  | None => ∃ e, checked what settled = Throw e
  end.
Proof.
  unfold payload, checked.
  destruct settled as [response|e]; [|by eauto].
  destruct response as [| | | | |xs|fields]; simpl; try by eauto.
  destruct (fields !! "status") as [status|] eqn:Hst; simpl.
  - destruct status as [| | | |flag| |]; simpl; try by eauto.
    destruct (String.eqb flag "OK"); simpl.
    + destruct (fields !! "result") as [[| | | | |items|]|]; simpl; by eauto.
    + destruct (fields !! "result") as [[| | | | |items|]|]; simpl; by eauto.
  - by eauto.
Qed.

(** C7: a fetch leaves the list alone until the answer is there; a
    malformed answer (status flag not [OK], result not a list, or no
    answer at all) sets the error and leaves the list as it was; a
    well-formed one replaces the list by the list it carries.  This for the
    owned and for the shared list. *)
Theorem fetch_settled_spec w settled :
  summaries (state (fetchSummaries w)) = summaries (state w) ∧
  sharedSummaries (state (fetchSharedSummaries w)) = sharedSummaries (state w) ∧
  match payload settled with
  | Some items =>
      summaries (state (fetchSummaries_settled settled w)) = items ∧
      sharedSummaries (state (fetchSharedSummaries_settled settled w)) = items
  | None =>
      error (state (fetchSummaries_settled settled w)) = JStr load_failed ∧
      summaries (state (fetchSummaries_settled settled w)) = summaries (state w) ∧
      error (state (fetchSharedSummaries_settled settled w)) = JStr load_shared_failed ∧
      sharedSummaries (state (fetchSharedSummaries_settled settled w))
        = sharedSummaries (state w)
  end.
Proof.
  split; [|split].
  - unfold fetchSummaries. simpl. by destruct (get _ "id").
  - unfold fetchSharedSummaries. simpl. by destruct (get _ "id").
  - unfold fetchSummaries_settled, fetchSharedSummaries_settled.
    pose proof (checked_payload "summaries" settled) as Ho.
    pose proof (checked_payload "shared summaries" settled) as Hs.
    destruct (payload settled) as [items|].
    + by rewrite Ho, Hs.
    + destruct Ho as [e ->], Hs as [e' ->]. done.
Qed.

(** ** Deleting *)

Lemma without_returns summaryId prev :
  Forall (λ x, nullish x = false) prev →
  without summaryId prev =
  Normal (filter (λ x, negb (strict_eq (id_of x) summaryId)) prev).
Proof.
  intros Hall. unfold without. apply filterM_pure.
  eapply Forall_impl; [exact Hall|]. intros x Hx. unfold id_of.
  by destruct x.
Qed.

Lemma without_throws summaryId prev e :
  without summaryId prev = Throw e → Exists (λ x, nullish x = true) prev.
Proof.
  unfold without. induction prev as [|x prev IH]; [done|].
  rewrite filterM_cons.
  destruct (nullish x) eqn:Hx; [intros _; by apply Exists_cons_hd|].
  intros Hthrow. apply Exists_cons_tl. apply IH.
  destruct x; try done; simpl in Hthrow;
    by destruct (filterM _ prev).
Qed.

Lemma waiting_await r k w : waiting (length (requests w)) r k (await r k w).
Proof.
  split; simpl.
  - by rewrite lookup_app_r, Nat.sub_diag.
  - by rewrite lookup_insert_eq.
Qed.

(** C3: a confirmed delete leaves the list alone until the gateway has
    answered; when the gateway call succeeds, the list becomes the items
    whose id is not the deleted one, each as it was and in the order they
    had; when the gateway call fails, the error is set and the list stays
    as it was.  The id is a primitive, as ids are, and the list holds no
    [undefined] or [null], of which no id could be read. *)
Theorem handleDeleteSummary_spec w summaryId :
  (summaries (state (handleDeleteSummary summaryId w)) = summaries (state w) ∧
   waiting (length (requests w)) (DeleteUserSummary summaryId)
     (InHandleDeleteSummary summaryId) (handleDeleteSummary summaryId w)) ∧
  (∀ response,
     primitive summaryId = true →
     Forall (λ x, nullish x = false) (summaries (state w)) →
     ∃ w',
       handleDeleteSummary_settled summaryId
         (RequestService.deleteUserSummary (RequestService.AxiosOk response)) w
         = Normal w' ∧
       summaries (state w')
         = filter (λ x, negb (strict_eq (id_of x) summaryId)) (summaries (state w)) ∧
       Forall (λ x, strict_eq (id_of x) summaryId = false) (summaries (state w')) ∧
       summaries (state w') `sublist_of` summaries (state w) ∧
       error (state w') = error (state w)) ∧
  (∀ response message,
     ∃ w',
       handleDeleteSummary_settled summaryId
         (RequestService.deleteUserSummary (RequestService.AxiosFail response message)) w
         = Normal w' ∧
       error (state w') = JStr delete_failed ∧
       summaries (state w') = summaries (state w)).
Proof.
  split; [|split].
  - split; [reflexivity|]. apply (waiting_await _ _ (on_state (setDeleting true) w)).
  - intros response _ Hall. simpl. rewrite (without_returns _ _ Hall). simpl.
    eexists. split; [reflexivity|]. simpl. split; [reflexivity|]. split; [|split].
    + apply Forall_forall. intros x [Hx _]%list_elem_of_filter.
      by destruct (strict_eq (id_of x) summaryId).
    + apply sublist_filter.
    + reflexivity.
  - intros response message. simpl. eexists. split; [reflexivity|]. by split.
Qed.

(** Deleting the first of the two items of the scenario. *)
Lemma handleDeleteSummary_spec_witness :
  ∃ w',
    handleDeleteSummary_settled (JNum 1)
      (RequestService.deleteUserSummary
         (RequestService.AxiosOk
            {| RequestService.status := 200; RequestService.data := JNull;
               RequestService.headers := ∅ |}))
      listed = Normal w' ∧
    summaries (state w') = [second_item ""].
Proof.
  destruct (handleDeleteSummary_spec listed (JNum 1))
    as (_ & Hok & _).
  destruct (Hok {| RequestService.status := 200; RequestService.data := JNull;
                   RequestService.headers := ∅ |})
    as (w' & Hrun & Hlist & _).
  - reflexivity.
  - simpl. apply Forall_cons_2; [reflexivity|].
    apply Forall_cons_2; [reflexivity|]. apply Forall_nil_2.
  - exists w'. split; [exact Hrun|]. rewrite Hlist. reflexivity.
Defined.

(** C10: deleting changes [summaries], [deleting] and [error] and nothing
    else, before the gateway answers and after, whether it succeeds or
    fails.  There is no state to speak of only when the update of the list
    throws, which takes a successful answer and an [undefined] or [null]
    among the items. *)
Theorem handleDeleteSummary_frame w summaryId settled :
  untouched_by_delete (state w) (state (handleDeleteSummary summaryId w)) ∧
  match handleDeleteSummary_settled summaryId settled w with
  | Normal w' => untouched_by_delete (state w) (state w')
  | Throw _ =>
      (∃ v, settled = Normal v) ∧ Exists (λ x, nullish x = true) (summaries (state w))
  end.
Proof.
  split; [by repeat split|].
  unfold handleDeleteSummary_settled.
  destruct settled as [v|e]; simpl; [|by repeat split].
  destruct (without summaryId (summaries (state w))) as [next|e] eqn:Hw; simpl.
  - by repeat split.
  - split; [by eauto|]. by eapply without_throws.
Qed.

(** ** Sharing *)

(** C6: with an empty recipient the share handler makes no gateway call and
    reports the validation error; with a recipient it calls the gateway
    share operation for the summary of the dialog; when that call succeeds
    the dialog's summary and the recipient field are cleared; when it fails
    the dialog's summary is kept, so the dialog stays open, and the text of
    the server is put in the dialog's error message. *)
Theorem handleSendShare_spec w :
  (recipient (state w) = "" →
     requests (handleSendShare w) = requests w ∧
     suspended (handleSendShare w) = suspended w ∧
     alerts (handleSendShare w) = (alerts w ++ [recipient_missing])%list ∧
     state (handleSendShare w) = state w) ∧
  (∀ id,
     recipient (state w) ≠ "" →
     get (sharingSummary (state w)) "id" = Normal id →
     requests (handleSendShare w)
       = (requests w ++ [ShareSummary id (recipient (state w))])%list ∧
     waiting (length (requests w)) (ShareSummary id (recipient (state w)))
       (InHandleSendShare (recipient (state w))) (handleSendShare w) ∧
     sharingSummary (state (handleSendShare w)) = sharingSummary (state w)) ∧
  (∀ to response,
     let w' := handleSendShare_settled to
                 (RequestService.shareSummary (RequestService.AxiosOk response)) w in
     sharingSummary (state w') = JNull ∧
     recipient (state w') = "" ∧
     alerts w' = (alerts w ++ [("Summary shared successfully with " ++ to)%string])%list) ∧
  (∀ to response message,
     let w' := handleSendShare_settled to
                 (RequestService.shareSummary (RequestService.AxiosFail response message)) w in
     sharingSummary (state w') = sharingSummary (state w) ∧
     recipient (state w') = recipient (state w) ∧
     ∀ text,
       server_text (RequestService.response_data response) text →
       errorMessage (state w') = text).
Proof.
  split; [|split; [|split]].
  - intros Hempty. unfold handleSendShare. rewrite Hempty. by simpl.
  - intros id Hto Hid. unfold handleSendShare.
    assert (truthy (JStr (recipient (state w))) = true) as ->.
    { simpl. by apply String.eqb_neq in Hto as ->. }
    simpl. rewrite Hid.
    split; [reflexivity|]. split; [|reflexivity].
    apply (waiting_await _ _ (on_state (setSharing true) w)).
  - intros to response. by simpl.
  - intros to response message. simpl.
    unfold handleSendShare_caught, or_else.
    destruct (truthy (RequestService.response_data response)) eqn:Htruthy.
    + destruct (get _ "detail") as [detail|e] eqn:Hdetail; simpl.
      * split; [reflexivity|]. split; [reflexivity|].
        intros text (fields & Hbody & Htext). rewrite Hbody in Hdetail.
        simpl in Hdetail. rewrite Htext in Hdetail. simpl in Hdetail. congruence.
      * split; [reflexivity|]. split; [reflexivity|].
        intros text (fields & Hbody & Htext). by rewrite Hbody in Hdetail.
    + simpl. split; [reflexivity|]. split; [reflexivity|].
      intros text (fields & Hbody & Htext). by rewrite Hbody in Htruthy.
Qed.

(** The share dialog with no recipient, and with one the server does not
    know. *)
Lemma handleSendShare_spec_witness :
  requests (handleSendShare (sharing_to "")) = [] ∧
  alerts (handleSendShare (sharing_to "")) = [recipient_missing] ∧
  requests (handleSendShare (sharing_to "bob@example.com"))
    = [ShareSummary (JNum 5) "bob@example.com"] ∧
  errorMessage (state (handleSendShare_settled "bob@example.com"
    (RequestService.shareSummary
       (RequestService.AxiosFail
          (Some {| RequestService.status := 404;
                   RequestService.data := JObj {[ "detail" := JStr "Recipient not found" ]};
                   RequestService.headers := ∅ |})
          "Request failed with status code 404"))
    (sharing_to "bob@example.com"))) = JStr "Recipient not found".
Proof.
  destruct (handleSendShare_spec (sharing_to "")) as (Hempty & _).
  destruct (Hempty eq_refl) as (Hreq & _ & Halerts & _).
  destruct (handleSendShare_spec (sharing_to "bob@example.com")) as (_ & Hcall & _ & Hfail).
  destruct (Hcall (JNum 5)) as (Hreq' & _); [discriminate|reflexivity|].
  split; [exact Hreq|]. split; [exact Halerts|]. split; [exact Hreq'|].
  apply Hfail. eexists. split; reflexivity.
Defined.

(** ** Runs *)

Lemma step_settle n r k o w :
  waiting n r k w → step (Settle n o) w = resume k (answer r o) (wake n w).
Proof. intros [Hr Hk]. simpl. by rewrite Hr, Hk. Qed.

Lemma waiting_await_older n r k r' k' w :
  waiting n r k w → waiting n r k (await r' k' w).
Proof.
  intros [Hr Hk]. pose proof (lookup_lt_Some _ _ _ Hr) as Hlt.
  split; simpl.
  - by rewrite lookup_app_l.
  - rewrite lookup_insert_ne; [done|lia].
Qed.

Lemma waiting_on_state n r k f w : waiting n r k w → waiting n r k (on_state f w).
Proof. done. Qed.

Lemma waiting_wake_other n m r k w :
  n ≠ m → waiting n r k w → waiting n r k (wake m w).
Proof. intros Hne [Hr Hk]. split; simpl; [done|]. by rewrite lookup_delete_ne. Qed.

Lemma fetchSummaries_awaits w id :
  get (App.userData (session w)) "id" = Normal id →
  fetchSummaries w = await (GetUserSummaries id) InFetchSummaries (on_state (setLoading true) w).
Proof. intros Hid. unfold fetchSummaries. simpl. by rewrite Hid. Qed.

Lemma fetchSharedSummaries_awaits w id :
  get (App.userData (session w)) "id" = Normal id →
  fetchSharedSummaries w
  = await (GetUserSharedSummaries id) InFetchSharedSummaries (on_state (setLoading true) w).
Proof. intros Hid. unfold fetchSharedSummaries. simpl. by rewrite Hid. Qed.

Lemma run_settle n r k o es w :
  waiting n r k w →
  run (Settle n o :: es) w = (resume k (answer r o) (wake n w) ≫= run es).
Proof. intros Hw. change (run (Settle n o :: es) w) with (step (Settle n o) w ≫= run es).
  by rewrite (step_settle _ _ _ _ _ Hw). Qed.

Lemma bind_Normal {A B} (a : A) (k : A → completion B) : (Normal a ≫= k) = k a.
Proof. reflexivity. Qed.

Lemma fetchSummaries_settled_listing items w :
  fetchSummaries_settled (RequestService.getUserSummaries (listing items)) w
  = on_state (setLoading false) (on_state (setSummaries items) w).
Proof. reflexivity. Qed.

Lemma fetchSharedSummaries_settled_listing items w :
  fetchSharedSummaries_settled (RequestService.getUserSharedSummaries (listing items)) w
  = on_state (setLoading false) (on_state (setSharedSummaries items) w).
Proof. reflexivity. Qed.

(** Two fetches of the owned list in flight, answered in either order:
    the list ends as the answer that came last. *)
Lemma two_fetches w id (first second : nat) itemsA itemsB :
  get (App.userData (session w)) "id" = Normal id →
  (first = length (requests w) ∧ second = S (length (requests w))) ∨
  (second = length (requests w) ∧ first = S (length (requests w))) →
  ∃ w',
    run [FetchSummaries; FetchSummaries;
         Settle first (listing itemsA); Settle second (listing itemsB)] w = Normal w' ∧
    summaries (state w') = itemsB.
Proof.
  intros Hid Horder.
  set (n := length (requests w)) in *.
  set (r := GetUserSummaries id). set (k := InFetchSummaries).
  set (w1 := await r k (on_state (setLoading true) w)).
  set (w2 := await r k (on_state (setLoading true) w1)).
  assert (H1 : waiting n r k w2).
  { apply waiting_await_older. apply waiting_on_state.
    apply (waiting_await r k (on_state (setLoading true) w)). }
  assert (H2 : waiting (S n) r k w2).
  { replace (S n) with (length (requests (on_state (setLoading true) w1))).
    - apply waiting_await.
    - simpl. rewrite length_app. simpl. lia. }
  assert (Hrun : ∀ es, run (FetchSummaries :: FetchSummaries :: es) w = run es w2).
  { intros es. simpl. rewrite (fetchSummaries_awaits w id Hid). fold r k w1.
    rewrite (fetchSummaries_awaits w1 id Hid). reflexivity. }
  rewrite Hrun.
  assert (Hboth : waiting first r k w2 ∧ waiting second r k w2 ∧ first ≠ second).
  { destruct Horder as [[-> ->]|[-> ->]];
      (split; [assumption|split; [assumption|lia]]). }
  destruct Hboth as (Ha & Hb & Hne).
  rewrite (run_settle _ _ _ _ _ _ Ha).
  change (resume k ?s ?w) with (Normal (fetchSummaries_settled s w)).
  rewrite bind_Normal.
  change (answer r ?o) with (RequestService.getUserSummaries o).
  rewrite fetchSummaries_settled_listing.
  rewrite (run_settle second r k).
  - change (resume k ?s ?w) with (Normal (fetchSummaries_settled s w)).
    rewrite bind_Normal.
    change (answer r ?o) with (RequestService.getUserSummaries o).
    rewrite fetchSummaries_settled_listing.
    eexists. split; reflexivity.
  - apply waiting_on_state, waiting_on_state, waiting_wake_other; [lia|done].
Qed.

(** The same for two fetches of the shared list. *)
Lemma two_shared_fetches w id (first second : nat) itemsA itemsB :
  get (App.userData (session w)) "id" = Normal id →
  (first = length (requests w) ∧ second = S (length (requests w))) ∨
  (second = length (requests w) ∧ first = S (length (requests w))) →
  ∃ w',
    run [FetchSharedSummaries; FetchSharedSummaries;
         Settle first (listing itemsA); Settle second (listing itemsB)] w = Normal w' ∧
    sharedSummaries (state w') = itemsB.
Proof.
  intros Hid Horder.
  set (n := length (requests w)) in *.
  set (r := GetUserSharedSummaries id). set (k := InFetchSharedSummaries).
  set (w1 := await r k (on_state (setLoading true) w)).
  set (w2 := await r k (on_state (setLoading true) w1)).
  assert (H1 : waiting n r k w2).
  { apply waiting_await_older. apply waiting_on_state.
    apply (waiting_await r k (on_state (setLoading true) w)). }
  assert (H2 : waiting (S n) r k w2).
  { replace (S n) with (length (requests (on_state (setLoading true) w1))).
    - apply waiting_await.
    - simpl. rewrite length_app. simpl. lia. }
  assert (Hrun : ∀ es,
    run (FetchSharedSummaries :: FetchSharedSummaries :: es) w = run es w2).
  { intros es. simpl. rewrite (fetchSharedSummaries_awaits w id Hid). fold r k w1.
    rewrite (fetchSharedSummaries_awaits w1 id Hid). reflexivity. }
  rewrite Hrun.
  assert (Hboth : waiting first r k w2 ∧ waiting second r k w2 ∧ first ≠ second).
  { destruct Horder as [[-> ->]|[-> ->]];
      (split; [assumption|split; [assumption|lia]]). }
  destruct Hboth as (Ha & Hb & Hne).
  rewrite (run_settle _ _ _ _ _ _ Ha).
  change (resume k ?s ?w) with (Normal (fetchSharedSummaries_settled s w)).
  rewrite bind_Normal.
  change (answer r ?o) with (RequestService.getUserSharedSummaries o).
  rewrite fetchSharedSummaries_settled_listing.
  rewrite (run_settle second r k).
  - change (resume k ?s ?w) with (Normal (fetchSharedSummaries_settled s w)).
    rewrite bind_Normal.
    change (answer r ?o) with (RequestService.getUserSharedSummaries o).
    rewrite fetchSharedSummaries_settled_listing.
    eexists. split; reflexivity.
  - apply waiting_on_state, waiting_on_state, waiting_wake_other; [lia|done].
Qed.

(** C1, as amended: no fetch is ever discarded.  Of two overlapping fetches
    of the same list, each writes the list when its own answer arrives, so
    the list ends as the answer that arrived last: the first call's when
    the first call is answered after the second, the second call's when the
    answers come in the order of the calls. *)
Theorem last_answer_wins w id items1 items2 :
  get (App.userData (session w)) "id" = Normal id →
  let first := length (requests w) in
  let second := S (length (requests w)) in
  (∃ w',
     run [FetchSummaries; FetchSummaries;
          Settle second (listing items2); Settle first (listing items1)] w = Normal w' ∧
     summaries (state w') = items1) ∧
  (∃ w',
     run [FetchSummaries; FetchSummaries;
          Settle first (listing items1); Settle second (listing items2)] w = Normal w' ∧
     summaries (state w') = items2) ∧
  (∃ w',
     run [FetchSharedSummaries; FetchSharedSummaries;
          Settle second (listing items2); Settle first (listing items1)] w = Normal w' ∧
     sharedSummaries (state w') = items1) ∧
  (∃ w',
     run [FetchSharedSummaries; FetchSharedSummaries;
          Settle first (listing items1); Settle second (listing items2)] w = Normal w' ∧
     sharedSummaries (state w') = items2).
Proof.
  intros Hid first second. repeat split.
  - apply (two_fetches w id); [done|right; done].
  - apply (two_fetches w id); [done|left; done].
  - apply (two_shared_fetches w id); [done|right; done].
  - apply (two_shared_fetches w id); [done|left; done].
Qed.

(** Two fetches on the mounted component, answered in reverse. *)
Lemma last_answer_wins_witness :
  ∃ w',
    run [FetchSummaries; FetchSummaries;
         Settle 1 (listing [second_item ""]); Settle 0 (listing [first_item ""])] mounted
      = Normal w' ∧
    summaries (state w') = [first_item ""].
Proof.
  destruct (last_answer_wins mounted (JStr "user-id") [first_item ""] [second_item ""])
    as (Hstale & _); [reflexivity|].
  exact Hstale.
Defined.

(** C1, as it is stated: two fetches of the owned list, the first answered
    after the second.  The list ends as the first, stale answer and not as
    the second. *)
Lemma stale_answer_overwrites :
  ∃ w',
    run [FetchSummaries; FetchSummaries;
         Settle 1 (listing [second_item ""]); Settle 0 (listing [first_item ""])] mounted
      = Normal w' ∧
    summaries (state w') = [first_item ""] ∧
    summaries (state w') ≠ [second_item ""].
Proof.
  eexists. split; [reflexivity|]. split; [reflexivity|].
  intros H. apply (f_equal (λ items, (λ x, text x "title") <$> head items)) in H.
  vm_compute in H. discriminate H.
Qed.

(** ** Failures of the API *)

(** No handler of the list component, and no answer of the network to one
    of its calls, changes the provider or the store. *)
Lemma step_session e w w' : step e w = Normal w' → session w' = session w.
Proof.
  destruct e; simpl.
  1-14: intros [= <-]; simpl; try reflexivity.
  - unfold fetchSummaries. simpl. by destruct (get _ "id").
  - unfold fetchSharedSummaries. simpl. by destruct (get _ "id").
  - unfold handleSendShare. destruct (negb _); [done|]. simpl.
    destruct (get _ "id"); [done|]. unfold handleSendShare_caught.
    simpl. by destruct (get _ "detail").
  - unfold handleSummaryRegenerate. by destruct (get _ "id").
  - unfold onToggleChange, effect, fetchSummaries, fetchSharedSummaries. simpl.
    destruct (currentView (state w)), (String.eqb view "my-summaries"); simpl;
      try reflexivity;
      destruct (truthy _); simpl; try reflexivity; by destruct (get _ "id").
  - destruct (suspended w !! n) as [k|]; [|by intros [= <-]].
    destruct (requests w !! n) as [r|]; [|by intros [= <-]].
    destruct k; simpl.
    + intros [= <-]. unfold fetchSummaries_settled. by destruct (checked _ _).
    + intros [= <-]. unfold fetchSharedSummaries_settled. by destruct (checked _ _).
    + unfold handleDeleteSummary_settled.
      destruct (answer r o); simpl; [|by intros [= <-]].
      destruct (without _ _); simpl; [by intros [= <-]|done].
    + intros [= <-]. unfold handleSendShare_settled, handleSendShare_caught.
      destruct (answer r o); simpl; [done|]. by destruct (get _ "detail").
    + intros [= <-]. unfold handleSummaryRegenerate_settled.
      by destruct (_ ≫= _).
Qed.

(** C5, as amended: every gateway function rejects with the body of the
    response when there is a truthy one and with its own fixed text
    otherwise, so that two failures with the same body are rejected alike
    whatever their status codes; no step of the list component touches the
    session; and a rejected fetch sets the generic load error. *)
Theorem gateway_rejections :
  Forall (λ mf : (RequestService.axios_outcome → completion jsval) * string,
            ∀ response message,
              mf.1 (RequestService.AxiosFail response message)
              = Throw (or_else (RequestService.response_data response) (JStr mf.2)))
    RequestService.methods ∧
  Forall (λ mf : (RequestService.axios_outcome → completion jsval) * string,
            ∀ status status' body, mf.1 (failure status body) = mf.1 (failure status' body))
    RequestService.methods ∧
  (∀ e w w', step e w = Normal w' → session w' = session w) ∧
  (∀ e w,
     error (state (fetchSummaries_settled (Throw e) w)) = JStr load_failed ∧
     error (state (fetchSharedSummaries_settled (Throw e) w)) = JStr load_shared_failed).
Proof.
  split; [|split; [|split]].
  - unfold RequestService.methods. repeat apply Forall_cons_2; try apply Forall_nil_2;
      intros response message; reflexivity.
  - unfold RequestService.methods. repeat apply Forall_cons_2; try apply Forall_nil_2;
      intros status status' body; reflexivity.
  - exact step_session.
  - intros e w. by split.
Qed.

(** A fetch refused with a 401 leaves the user signed in. *)
Lemma gateway_rejections_witness :
  session (fetchSummaries_settled
             (RequestService.getUserSummaries (failure 401%Z refusal)) (wake 0 (fetchSummaries mounted)))
  = signed_in.
Proof.
  destruct gateway_rejections as (_ & _ & Hsession & _).
  apply (Hsession (Settle 0 (failure 401%Z refusal)) (fetchSummaries mounted)).
  reflexivity.
Defined.

(** C5, as it is stated: the gateway rejects a 401 and a 404 with the same
    body in the same way, and the list component, told of a 401 for its
    fetch, shows the generic load error and leaves the user signed in, with
    the token still stored. *)
Lemma unauthorized_goes_unnoticed :
  RequestService.getUserSummaries (failure 401%Z refusal)
    = RequestService.getUserSummaries (failure 404%Z refusal) ∧
  ∃ w',
    run [FetchSummaries; Settle 0 (failure 401%Z refusal)] mounted = Normal w' ∧
    error (state w') = JStr load_failed ∧
    App.isAuthenticated (session w') = true ∧
    App.localStorage (session w') !! "auth_token" = Some "token".
Proof. split; [reflexivity|]. eexists. repeat split; reflexivity. Qed.

(** ** Startup verification *)

Section Startup.
Variable jwtDecode : string → completion App.JwtPayload.
Variable JSON_parse : string → completion jsval.

Lemma falsy_item_false item :
  App.falsy_item item = false → ∃ v, item = Some v.
Proof. destruct item as [v|]; [by eauto|done]. Qed.

(** The checks throw exactly under the conditions of [refused]. *)
Lemma verifyToken_checks_throw now s :
  (∃ e, App.verifyToken_checks jwtDecode JSON_parse now s = Throw e)
  ↔ refused jwtDecode JSON_parse now s.
Proof.
  unfold App.verifyToken_checks, refused.
  destruct (App.falsy_item (App.getItem "auth_token" s)) eqn:Htoken;
    [split; [by auto|by eauto]|].
  destruct (App.falsy_item (App.getItem "user_data" s)) eqn:Huser;
    [split; [by auto|by eauto]|].
  destruct (falsy_item_false _ Htoken) as [token Ht].
  destruct (falsy_item_false _ Huser) as [profile Hp].
  rewrite Ht, Hp. simpl.
  split.
  - intros [e He]. right. right. exists token, profile.
    split; [done|]. split; [done|].
    destruct (jwtDecode token) as [decoded|e'] eqn:Hdecode; [|by eauto].
    simpl in He. unfold App.expired in He.
    destruct (App.exp decoded) as [exp|] eqn:Hexp.
    + destruct (Z.ltb_spec (exp * 1000) now); [|by eauto 6].
      right. left. by exists decoded, exp.
    + by eauto 6.
  - intros [?|[?|(token' & profile' & [= <-] & [= <-] & Hcase)]]; [done|done|].
    destruct (jwtDecode token) as [decoded|e'] eqn:Hdecode; [|by eauto].
    simpl. unfold App.expired.
    destruct Hcase as [[e He]|[(d & exp & [= <-] & Hexp & Hlt)|[e He]]]; [done| |].
    + rewrite Hexp. apply Z.ltb_lt in Hlt. rewrite Hlt. eauto.
    + destruct (App.exp decoded) as [exp|]; [|by eauto].
      destruct (exp * 1000 <? now)%Z; by eauto.
Qed.

(** Whatever reaches the [catch] ends in [logout]. *)
Lemma verifyToken_refused now o s :
  refused jwtDecode JSON_parse now s →
  App.verifyToken jwtDecode JSON_parse now o s = App.setLoading false (App.logout s).
Proof.
  intros [e He]%verifyToken_checks_throw.
  unfold App.verifyToken, App.verifyToken_call. by rewrite He.
Qed.

(** The answer to the summaries request touches neither the
    authentication flag nor the store. *)
Lemma verifyToken_settle_session settled s :
  App.isAuthenticated (App.verifyToken_settle settled s) = App.isAuthenticated s ∧
  App.localStorage (App.verifyToken_settle settled s) = App.localStorage s.
Proof.
  unfold App.verifyToken_settle.
  destruct settled as [response|e]; simpl; [|done].
  destruct (truthy response); simpl; [|done].
  destruct (get response "status") as [status|e]; simpl; [|done].
  destruct (strict_eq status (JStr "OK")); simpl; [|done].
  by destruct (get response "result").
Qed.

(** Whatever passes the checks signs the user in and leaves the store. *)
Lemma verifyToken_accepted now o s :
  ¬ refused jwtDecode JSON_parse now s →
  App.isAuthenticated (App.verifyToken jwtDecode JSON_parse now o s) = true ∧
  App.localStorage (App.verifyToken jwtDecode JSON_parse now o s) = App.localStorage s.
Proof.
  intros Hnot. unfold App.verifyToken, App.verifyToken_call.
  destruct (App.verifyToken_checks jwtDecode JSON_parse now s) as [parsed|e] eqn:Hc.
  - destruct (get parsed "id") as [id|e]; [|done].
    by destruct (verifyToken_settle_session (RequestService.getUserSummaries o)
      (App.setIsAuthenticated true (App.setUserData parsed s))) as [-> ->].
  - exfalso. apply Hnot. apply verifyToken_checks_throw. eauto.
Qed.

End Startup.

(** C4, as amended: the startup verification fails, and calls [logout],
    exactly when there is no token or no cached profile, or the token does
    not decode, or the decoded expiry is strictly before the current time,
    or the cached profile does not parse; otherwise the user is signed in
    and the store is left alone.  After the failure, an expired token
    included, the user is not authenticated and both session fields are
    gone from the store. *)
Theorem verifyToken_logout_iff jwtDecode JSON_parse now o s :
  ((∃ e, App.verifyToken_checks jwtDecode JSON_parse now s = Throw e)
     ↔ refused jwtDecode JSON_parse now s) ∧
  (refused jwtDecode JSON_parse now s →
     App.verifyToken jwtDecode JSON_parse now o s = App.setLoading false (App.logout s) ∧
     App.isAuthenticated (App.verifyToken jwtDecode JSON_parse now o s) = false ∧
     App.localStorage (App.verifyToken jwtDecode JSON_parse now o s) !! "auth_token" = None ∧
     App.localStorage (App.verifyToken jwtDecode JSON_parse now o s) !! "user_data" = None) ∧
  (¬ refused jwtDecode JSON_parse now s →
     App.isAuthenticated (App.verifyToken jwtDecode JSON_parse now o s) = true ∧
     App.localStorage (App.verifyToken jwtDecode JSON_parse now o s) = App.localStorage s) ∧
  (∀ token decoded exp,
     App.getItem "auth_token" s = Some token →
     jwtDecode token = Normal decoded →
     App.exp decoded = Some exp →
     (exp * 1000 < now)%Z →
     App.isAuthenticated (App.verifyToken jwtDecode JSON_parse now o s) = false ∧
     App.localStorage (App.verifyToken jwtDecode JSON_parse now o s) !! "auth_token" = None ∧
     App.localStorage (App.verifyToken jwtDecode JSON_parse now o s) !! "user_data" = None).
Proof.
  assert (Hlogout : refused jwtDecode JSON_parse now s →
     App.verifyToken jwtDecode JSON_parse now o s = App.setLoading false (App.logout s) ∧
     App.isAuthenticated (App.verifyToken jwtDecode JSON_parse now o s) = false ∧
     App.localStorage (App.verifyToken jwtDecode JSON_parse now o s) !! "auth_token" = None ∧
     App.localStorage (App.verifyToken jwtDecode JSON_parse now o s) !! "user_data" = None).
  { intros Hr. rewrite (verifyToken_refused _ _ _ _ _ Hr). simpl.
    split; [reflexivity|]. split; [reflexivity|]. split.
    - rewrite lookup_delete_ne; [|done]. apply lookup_delete_eq.
    - apply lookup_delete_eq. }
  split; [apply verifyToken_checks_throw|]. split; [exact Hlogout|].
  split; [apply verifyToken_accepted|].
  intros token decoded exp Htoken Hdecode Hexp Hlt.
  apply Hlogout. unfold refused.
  destruct (App.falsy_item (App.getItem "auth_token" s)) eqn:Hft; [by left|].
  destruct (App.falsy_item (App.getItem "user_data" s)) eqn:Hfu; [by auto|].
  destruct (falsy_item_false _ Hfu) as [profile Hp].
  right. right. exists token, profile. split; [done|]. split; [done|].
  right. left. by exists decoded, exp.
Qed.

(** The sample token one millisecond after its expiry, and at it. *)
Lemma verifyToken_logout_iff_witness :
  (App.isAuthenticated verified_after_expiry = false ∧
   App.localStorage verified_after_expiry !! "auth_token" = None ∧
   App.localStorage verified_after_expiry !! "user_data" = None) ∧
  verified_after_expiry = App.setLoading false (App.logout restarted) ∧
  App.localStorage verified_at_expiry = App.localStorage restarted.
Proof.
  destruct (verifyToken_logout_iff decode_sample parse_sample 1000001 (listing []) restarted)
    as (_ & Hrefused & _ & Hexpired).
  destruct (verifyToken_logout_iff decode_sample parse_sample 1000000 (listing []) restarted)
    as (_ & _ & Haccepted & _).
  split; [|split].
  - apply (Hexpired "token" {| App.exp := Some 1000%Z |} 1000%Z); [reflexivity..|lia].
  - apply Hrefused. right. right. exists "token", "profile".
    split; [reflexivity|]. split; [reflexivity|]. right. left.
    exists {| App.exp := Some 1000%Z |}, 1000%Z.
    split; [reflexivity|]. split; [reflexivity|lia].
  - apply Haccepted.
    intros [H|[H|(token & profile & Ht & Hp & Hcase)]];
      [discriminate H|discriminate H|].
    injection Ht as <-. injection Hp as <-.
    destruct Hcase as [[e He]|[(d & exp & Hd & Hexp & Hlt)|[e He]]].
    + discriminate He.
    + injection Hd as <-. simpl in Hexp. injection Hexp as <-.
      vm_compute in Hlt. discriminate Hlt.
    + discriminate He.
Defined.

(** C4, as it is stated: at the very millisecond of the expiry the decoded
    expiry is at (hence at or before) the current time, and yet the
    verification passes: the user is signed in and both session fields are
    still stored. *)
Lemma token_at_expiry_survives :
  decode_sample "token" = Normal {| App.exp := Some 1000%Z |} ∧
  (1000 * 1000 ≤ 1000000)%Z ∧
  App.isAuthenticated verified_at_expiry = true ∧
  App.localStorage verified_at_expiry !! "auth_token" = Some "token" ∧
  App.localStorage verified_at_expiry !! "user_data" = Some "profile".
Proof. split; [reflexivity|]. split; [lia|]. repeat split; reflexivity. Qed.

(** * Further properties of the code *)

(** ** Login, registration and the protected route *)

Lemma failed_not_succeeded text : Normal (failed text) ≠ Normal succeeded.
Proof.
  intros H.
  apply (f_equal (λ c, match c with Normal v => get v "success" | Throw e => Throw e end)) in H.
  vm_compute in H. discriminate H.
Qed.

Section LoginFacts.
Variable JSON_stringify : jsval → jsval.
Variable ToString : jsval → string.

Lemma login_try_granted settled s s' :
  Auth.login_try JSON_stringify ToString settled s = Normal s' ↔
  ∃ token user,
    granted settled token user ∧
    s' = App.setIsAuthenticated true
           (App.setUserData user
             (Auth.setItem ToString "user_data" (JSON_stringify user)
               (Auth.setItem ToString "auth_token" token s))).
Proof.
  unfold Auth.login_try, granted. split.
  - destruct settled as [response|e]; [|done]. simpl.
    destruct (get response "result") as [result|e] eqn:Hresult; [|done]. simpl.
    destruct (get result "auth_token") as [token|e] eqn:Htoken; [|done]. simpl.
    destruct (truthy token) eqn:Htruthy; [|done].
    destruct (get result "user") as [user|e] eqn:Huser; [|done]. simpl.
    intros [= <-]. exists token, user. split; [|done].
    exists response, result. by rewrite Hresult.
  - intros (token & user & (response & result & -> & Hresult & Htoken & Htruthy & Huser) & ->).
    simpl. rewrite Hresult. simpl. rewrite Htoken. simpl. rewrite Htruthy, Huser.
    reflexivity.
Qed.

(** X1: a login is all or nothing.  When the answer grants a session, the
    token and the stringified profile are stored, the user is set and
    authenticated, and the result is a success; in every other case the
    authentication flag, the user and the store are what they were and the
    result is not a success.  Either way the loading flag ends false. *)
Theorem login_all_or_nothing settled s :
  App.loading (Auth.login_settled JSON_stringify ToString settled s).1 = false ∧
  ((∃ token user,
      granted settled token user ∧
      (Auth.login_settled JSON_stringify ToString settled s).2 = Normal succeeded ∧
      App.isAuthenticated (Auth.login_settled JSON_stringify ToString settled s).1 = true ∧
      App.userData (Auth.login_settled JSON_stringify ToString settled s).1 = user ∧
      App.localStorage (Auth.login_settled JSON_stringify ToString settled s).1
        = <["user_data" := Auth.item_text ToString (JSON_stringify user)]>
            (<["auth_token" := Auth.item_text ToString token]> (App.localStorage s))) ∨
   ((¬ ∃ token user, granted settled token user) ∧
    (Auth.login_settled JSON_stringify ToString settled s).2 ≠ Normal succeeded ∧
    App.isAuthenticated (Auth.login_settled JSON_stringify ToString settled s).1
      = App.isAuthenticated s ∧
    App.userData (Auth.login_settled JSON_stringify ToString settled s).1 = App.userData s ∧
    App.localStorage (Auth.login_settled JSON_stringify ToString settled s).1
      = App.localStorage s)).
Proof.
  unfold Auth.login_settled.
  destruct (Auth.login_try JSON_stringify ToString settled s) as [s'|e] eqn:Htry.
  - apply login_try_granted in Htry as (token & user & Hgranted & ->).
    split; [reflexivity|]. left. exists token, user. by repeat split.
  - assert (Hnot : ¬ ∃ token user, granted settled token user).
    { intros (token & user & Hgranted).
      assert (Auth.login_try JSON_stringify ToString settled s
              = Normal (App.setIsAuthenticated true
                 (App.setUserData user
                   (Auth.setItem ToString "user_data" (JSON_stringify user)
                     (Auth.setItem ToString "auth_token" token s))))) as Hok.
      { apply login_try_granted. eauto. }
      congruence. }
    destruct (get e "message") as [message|e']; simpl.
    + split; [reflexivity|]. right. split; [done|]. split; [|done].
      apply failed_not_succeeded.
    + split; [reflexivity|]. right. by repeat split.
Qed.

End LoginFacts.

(** The answer to the summaries request at startup leaves the user alone
    and ends the loading. *)
Lemma verifyToken_settle_user settled s :
  App.userData (App.verifyToken_settle settled s) = App.userData s ∧
  App.loading (App.verifyToken_settle settled s) = false.
Proof.
  unfold App.verifyToken_settle.
  destruct settled as [response|e]; simpl; [|done].
  destruct (truthy response); simpl; [|done].
  destruct (get response "status") as [status|e]; simpl; [|done].
  destruct (strict_eq status (JStr "OK")); simpl; [|done].
  by destruct (get response "result").
Qed.

(** The startup verification always ends the loading. *)
Lemma verifyToken_loading jwtDecode JSON_parse now o s :
  App.loading (App.verifyToken jwtDecode JSON_parse now o s) = false.
Proof.
  unfold App.verifyToken, App.verifyToken_call.
  destruct (App.verifyToken_checks jwtDecode JSON_parse now s) as [parsed|e]; [|done].
  destruct (get parsed "id") as [id|e]; [|done].
  apply verifyToken_settle_user.
Qed.

(** Once the checks have passed, the user is the parsed profile. *)
Lemma verifyToken_user jwtDecode JSON_parse now o s parsed :
  App.verifyToken_checks jwtDecode JSON_parse now s = Normal parsed →
  App.isAuthenticated (App.verifyToken jwtDecode JSON_parse now o s) = true ∧
  App.userData (App.verifyToken jwtDecode JSON_parse now o s) = parsed.
Proof.
  intros Hchecks. unfold App.verifyToken, App.verifyToken_call. rewrite Hchecks.
  destruct (get parsed "id") as [id|e]; [|done].
  split.
  - by destruct (verifyToken_settle_session (RequestService.getUserSummaries o)
      (App.setIsAuthenticated true (App.setUserData parsed s))) as [-> _].
  - by destruct (verifyToken_settle_user (RequestService.getUserSummaries o)
      (App.setIsAuthenticated true (App.setUserData parsed s))) as [-> _].
Qed.

(** X2: the session survives a restart.  After a granted login, the
    startup verification over the store the login has left, with a token
    that decodes and has not expired and a profile text that parses back
    to the user, authenticates the same user again, whatever the summaries
    request then does. *)
Theorem login_then_restart JSON_stringify ToString jwtDecode JSON_parse
    now o settled s token user decoded :
  granted settled token user →
  Auth.item_text ToString token ≠ "" →
  Auth.item_text ToString (JSON_stringify user) ≠ "" →
  jwtDecode (Auth.item_text ToString token) = Normal decoded →
  App.expired decoded now = false →
  JSON_parse (Auth.item_text ToString (JSON_stringify user)) = Normal user →
  App.isAuthenticated
    (App.verifyToken jwtDecode JSON_parse now o
       (App.initial (App.localStorage
          (Auth.login_settled JSON_stringify ToString settled s).1))) = true ∧
  App.userData
    (App.verifyToken jwtDecode JSON_parse now o
       (App.initial (App.localStorage
          (Auth.login_settled JSON_stringify ToString settled s).1))) = user.
Proof.
  intros Hgranted Htoken Hprofile Hdecode Hfresh Hparse.
  apply verifyToken_user.
  unfold Auth.login_settled.
  assert (Auth.login_try JSON_stringify ToString settled s
          = Normal (App.setIsAuthenticated true
             (App.setUserData user
               (Auth.setItem ToString "user_data" (JSON_stringify user)
                 (Auth.setItem ToString "auth_token" token s))))) as ->.
  { apply login_try_granted. eauto. }
  unfold App.verifyToken_checks, App.getItem. simpl.
  rewrite lookup_insert_ne; [|done]. rewrite !lookup_insert_eq. simpl.
  apply String.eqb_neq in Htoken, Hprofile. rewrite Htoken, Hprofile. simpl.
  rewrite Hdecode. simpl. by rewrite Hfresh.
Qed.

(** The sample login, and a restart before the sample token expires. *)
Lemma login_then_restart_witness :
  App.isAuthenticated
    (App.verifyToken decode_sample parse_sample 999999 (listing [])
       (App.initial (App.localStorage
          (Auth.login_settled stringify_sample tostring_sample
             (Normal login_answer) (App.initial ∅)).1))) = true ∧
  App.userData
    (App.verifyToken decode_sample parse_sample 999999 (listing [])
       (App.initial (App.localStorage
          (Auth.login_settled stringify_sample tostring_sample
             (Normal login_answer) (App.initial ∅)).1)))
    = JObj {[ "id" := JStr "user-id" ]}.
Proof.
  apply (login_then_restart stringify_sample tostring_sample decode_sample parse_sample
           999999 (listing []) (Normal login_answer) (App.initial ∅)
           (JStr "token") (JObj {[ "id" := JStr "user-id" ]})
           {| App.exp := Some 1000%Z |}).
  - exists login_answer. eexists. repeat split; reflexivity.
  - discriminate.
  - discriminate.
  - reflexivity.
  - reflexivity.
  - reflexivity.
Defined.

(** What a logout leaves of the store. *)
Lemma logout_store s :
  App.localStorage (App.logout s)
  = delete "user_data" (delete "auth_token" (App.localStorage s)).
Proof. reflexivity. Qed.

Lemma logout_store_empty s :
  App.localStorage (App.logout s) !! "auth_token" = None ∧
  App.localStorage (App.logout s) !! "user_data" = None.
Proof.
  rewrite logout_store. split.
  - rewrite lookup_delete_ne; [|discriminate]. apply lookup_delete_eq.
  - apply lookup_delete_eq.
Qed.

(** X3: a logout is final and idempotent.  Logging out twice is logging
    out once, and a restart over the store a logout has left never
    authenticates, whatever the token decoder and the profile parser
    would say: the protected route redirects to the login page. *)
Theorem logout_then_restart jwtDecode JSON_parse now o s :
  App.logout (App.logout s) = App.logout s ∧
  App.isAuthenticated
    (App.verifyToken jwtDecode JSON_parse now o
       (App.initial (App.localStorage (App.logout s)))) = false ∧
  Auth.redirects
    (App.verifyToken jwtDecode JSON_parse now o
       (App.initial (App.localStorage (App.logout s)))) = true.
Proof.
  destruct (logout_store_empty s) as [Htoken Hprofile].
  assert (Hrefused : refused jwtDecode JSON_parse now
            (App.initial (App.localStorage (App.logout s)))).
  { left. unfold App.getItem.
    change (App.localStorage (App.initial ?m)) with m. by rewrite Htoken. }
  split; [|split].
  - assert (Hstore : App.localStorage (App.logout (App.logout s))
                     = App.localStorage (App.logout s)).
    { rewrite (logout_store (App.logout s)).
      rewrite (delete_id _ "auth_token"); [|exact Htoken].
      apply delete_id. exact Hprofile. }
    unfold App.logout at 1.
    unfold App.setError, App.setSummaries, App.setUserData, App.setIsAuthenticated.
    cbn [App.isAuthenticated App.userData App.summaries App.loading App.error
         App.localStorage].
    change (App.localStorage (App.removeItem "user_data"
              (App.removeItem "auth_token" (App.logout s))))
      with (App.localStorage (App.logout (App.logout s))).
    rewrite Hstore. reflexivity.
  - by rewrite (verifyToken_refused _ _ _ _ _ Hrefused).
  - by rewrite (verifyToken_refused _ _ _ _ _ Hrefused).
Qed.

(** X4: a registration never signs anyone in.  However the API answers,
    the authentication flag, the user, the summaries and the store are
    what they were and the loading flag ends false; the result is the
    success carrying the answer when the gateway call is fulfilled, and not
    a success when it is rejected. *)
Theorem register_never_authenticates settled s :
  App.isAuthenticated (Auth.register_settled settled s).1 = App.isAuthenticated s ∧
  App.userData (Auth.register_settled settled s).1 = App.userData s ∧
  App.summaries (Auth.register_settled settled s).1 = App.summaries s ∧
  App.localStorage (Auth.register_settled settled s).1 = App.localStorage s ∧
  App.loading (Auth.register_settled settled s).1 = false ∧
  match settled with
  | Normal response =>
      (Auth.register_settled settled s).2
      = Normal (JObj {[ "success" := JBool true; "user" := response ]})
  | Throw _ => (Auth.register_settled settled s).2 ≠ Normal succeeded
  end.
Proof.
  unfold Auth.register_settled.
  destruct settled as [response|error]; [by repeat split|].
  destruct (get error "message") as [message|e]; simpl.
  - repeat split. apply failed_not_succeeded.
  - by repeat split.
Qed.

(** X5: what the protected route shows once the startup verification has
    run to its end: the dashboard when the checks have passed, nothing and
    a redirect to the login page when they have not, and in no case the
    spinner. *)
Theorem ProtectedRoute_after_verifyToken jwtDecode JSON_parse now o s :
  (refused jwtDecode JSON_parse now s →
     Auth.ProtectedRoute (App.verifyToken jwtDecode JSON_parse now o s) = Auth.Nothing ∧
     Auth.redirects (App.verifyToken jwtDecode JSON_parse now o s) = true) ∧
  (¬ refused jwtDecode JSON_parse now s →
     Auth.ProtectedRoute (App.verifyToken jwtDecode JSON_parse now o s) = Auth.Children ∧
     Auth.redirects (App.verifyToken jwtDecode JSON_parse now o s) = false).
Proof.
  split.
  - intros Hrefused. by rewrite (verifyToken_refused _ _ _ _ _ Hrefused).
  - intros Hnot.
    destruct (verifyToken_accepted jwtDecode JSON_parse now o s Hnot) as [Hauth _].
    pose proof (verifyToken_loading jwtDecode JSON_parse now o s) as Hloading.
    unfold Auth.ProtectedRoute, Auth.redirects. by rewrite Hloading, Hauth.
Qed.

(** The sample session one millisecond after the expiry of its token, and
    at it. *)
Lemma ProtectedRoute_after_verifyToken_witness :
  Auth.ProtectedRoute verified_after_expiry = Auth.Nothing ∧
  Auth.ProtectedRoute verified_at_expiry = Auth.Children.
Proof.
  split.
  - apply (ProtectedRoute_after_verifyToken decode_sample parse_sample 1000001
             (listing []) restarted).
    right. right. exists "token", "profile".
    split; [reflexivity|]. split; [reflexivity|]. right. left.
    exists {| App.exp := Some 1000%Z |}, 1000%Z.
    split; [reflexivity|]. split; [reflexivity|lia].
  - apply (ProtectedRoute_after_verifyToken decode_sample parse_sample 1000000
             (listing []) restarted).
    intros [H|[H|(token & profile & Ht & Hp & Hcase)]];
      [discriminate H|discriminate H|].
    injection Ht as <-. injection Hp as <-.
    destruct Hcase as [[e He]|[(d & exp & Hd & Hexp & Hlt)|[e He]]].
    + discriminate He.
    + injection Hd as <-. simpl in Hexp. injection Hexp as <-.
      vm_compute in Hlt. discriminate Hlt.
    + discriminate He.
Defined.

(** ** What the list component shows *)

(** The four ways a render returns. *)
Lemma screen_of_inv s shown :
  ListView.screen_of s = Normal shown →
  (loading s = true ∧ shown = ListView.Progress) ∨
  (loading s = false ∧ truthy (error s) = true ∧ shown = ListView.ErrorAlert (error s)) ∨
  (loading s = false ∧ truthy (error s) = false ∧ truthy (selectedSummary s) = true ∧
   shown = ListView.DetailView (selectedSummary s)) ∨
  (loading s = false ∧ truthy (error s) = false ∧ truthy (selectedSummary s) = false ∧
   ∃ cards sharing, shown = ListView.ListOf (currentView s) cards sharing).
Proof.
  unfold ListView.screen_of.
  intros (owned & _ & H)%bind_normal. apply bind_normal in H as (shared & _ & H).
  destruct (loading s); [injection H as <-; by left|].
  destruct (truthy (error s)); [injection H as <-; right; by left|].
  destruct (truthy (selectedSummary s)); [injection H as <-; right; right; by left|].
  apply bind_normal in H as (cards & _ & H). apply bind_normal in H as (sharing & _ & H).
  injection H as <-. right. right. right. eauto 10.
Qed.





(** No step clears the error: it stays, or becomes one of the three
    messages of the component. *)
Lemma step_error e w w' :
  step e w = Normal w' →
  truthy (error (state w)) = true → truthy (error (state w')) = true.
Proof.
  destruct e; simpl.
  1-14: intros [= <-]; simpl; try done.
  - unfold fetchSummaries. simpl. by destruct (get _ "id").
  - unfold fetchSharedSummaries. simpl. by destruct (get _ "id").
  - unfold handleSendShare. destruct (negb _); [done|]. simpl.
    destruct (get _ "id"); [done|]. unfold handleSendShare_caught.
    simpl. by destruct (get _ "detail").
  - unfold handleSummaryRegenerate. by destruct (get _ "id").
  - unfold onToggleChange, effect, fetchSummaries, fetchSharedSummaries. simpl.
    destruct (currentView (state w)), (String.eqb view "my-summaries"); simpl;
      try done;
      destruct (truthy (App.userData _)); simpl; try done; by destruct (get _ "id").
  - destruct (suspended w !! n) as [k|]; [|by intros [= <-]].
    destruct (requests w !! n) as [r|]; [|by intros [= <-]].
    destruct k; simpl.
    + intros [= <-]. unfold fetchSummaries_settled. by destruct (checked _ _).
    + intros [= <-]. unfold fetchSharedSummaries_settled. by destruct (checked _ _).
    + unfold handleDeleteSummary_settled.
      destruct (answer r o); simpl; [|by intros [= <-]].
      destruct (without _ _); simpl; [by intros [= <-]|done].
    + intros [= <-]. unfold handleSendShare_settled, handleSendShare_caught.
      destruct (answer r o); simpl; [done|]. by destruct (get _ "detail").
    + intros [= <-]. unfold handleSummaryRegenerate_settled.
      by destruct (_ ≫= _).
Qed.

(** X6: an error is final.  Once the error of the list component is set,
    no handler and no answer of the network clears it, whatever happens
    next: every later render that returns shows the progress indicator or
    the error alert, never the list or a summary. *)
Theorem error_is_final es w w' :
  run es w = Normal w' →
  truthy (error (state w)) = true →
  truthy (error (state w')) = true ∧
  ∀ shown, ListView.screen_of (state w') = Normal shown →
    shown = ListView.Progress ∨ shown = ListView.ErrorAlert (error (state w')).
Proof.
  intros Hrun Herror.
  assert (Hkept : truthy (error (state w')) = true).
  { revert w Hrun Herror. induction es as [|e es IH]; intros w Hrun Herror.
    - by injection Hrun as <-.
    - change (run (e :: es) w) with (step e w ≫= run es) in Hrun.
      destruct (step e w) as [w1|] eqn:Hstep; [|done].
      apply (IH w1 Hrun). by apply (step_error e w). }
  split; [done|].
  intros shown Hshown.
  apply screen_of_inv in Hshown as [[_ ->]|[(_ & _ & ->)|[(_ & He & _)|(_ & He & _)]]];
    [by left|by right|congruence|congruence].
Qed.

(** A fetch answered with a 401 on the mounted component, followed by a
    second fetch that succeeds. *)
Lemma error_is_final_witness :
  ∃ w',
    run [FetchSummaries; Settle 0 (failure 401%Z refusal);
         FetchSummaries; Settle 1 (listing [first_item ""])] mounted = Normal w' ∧
    ListView.screen_of (state w') = Normal (ListView.ErrorAlert (JStr load_failed)).
Proof.
  eexists. split; [reflexivity|].
  destruct (error_is_final
              [FetchSummaries; Settle 1 (listing [first_item ""])]
              (fetchSummaries_settled
                 (RequestService.getUserSummaries (failure 401%Z refusal))
                 (wake 0 (fetchSummaries mounted)))
              _ eq_refl eq_refl) as [_ Hshown].
  destruct (Hshown _ eq_refl) as [H|H]; [discriminate H|reflexivity].
Defined.



(** X8: on a tab other than [all], every card of the visible list gets the
    colours of that tab: the type of each visible item is a text that
    [getCategoryStyles] maps to the palette entry of the tab.  This for the
    owned and for the shared list. *)
Theorem visible_cards_wear_the_tab s x :
  activeTab s ≠ "all" →
  (∀ visible, filteredSummaries s = Normal visible → x ∈ visible →
     ∃ type, get x "type" = Normal type ∧
       ListView.getCategoryStyles type = Normal (ListView.palette (activeTab s))) ∧
  (∀ visible, filteredSharedSummaries s = Normal visible → x ∈ visible →
     ∃ type, get x "type" = Normal type ∧
       ListView.getCategoryStyles type = Normal (ListView.palette (activeTab s))).
Proof.
  intros Htab.
  assert (Hone : ∀ items visible,
    filterM (matches (activeTab s) (searchQuery s)) items = Normal visible →
    x ∈ visible →
    ∃ type, get x "type" = Normal type ∧
      ListView.getCategoryStyles type = Normal (ListView.palette (activeTab s))).
  { intros items visible Hfilter Hin.
    apply filterM_normal in Hfilter as [Hall ->].
    apply list_elem_of_filter in Hin as [Hkeep Hin].
    rewrite Forall_forall in Hall. specialize (Hall x Hin). simpl in Hall.
    destruct (verdict (matches (activeTab s) (searchQuery s)) x); [|done].
    unfold matches, matchesTab in Hall.
    apply String.eqb_neq in Htab. rewrite Htab in Hall.
    destruct (get x "type") as [type|] eqn:Htype; [|done]. simpl in Hall.
    destruct (toLowerCase type) as [lowered|] eqn:Hlow; [|done]. simpl in Hall.
    destruct (String.eqb lowered (activeTab s)) eqn:Heq.
    - apply String.eqb_eq in Heq as <-. exists type. split; [done|].
      unfold ListView.getCategoryStyles. by rewrite Hlow.
    - simpl in Hall. by destruct (matchesSearch (searchQuery s) x) as [[]|]. }
  split; intros visible; apply Hone.
Qed.

(** The research tab over the completed scenario. *)
Lemma visible_cards_wear_the_tab_witness :
  ∃ type, get (second_item "") "type" = Normal type ∧
    ListView.getCategoryStyles type
    = Normal {| ListView.backgroundColor := "#F3E5F5"; ListView.color := "#6A1B9A" |}.
Proof.
  destruct (visible_cards_wear_the_tab
              (setActiveTab "research" scenario_completed) (second_item ""))
    as [Howned _]; [discriminate|].
  apply (Howned [second_item ""]); [reflexivity|]. apply list_elem_of_here.
Defined.

(** ** Switching between the owned and the shared view *)

(** X9: switching views.  For a signed-in user, choosing the other view
    empties the search field, keeps the category tab and both lists, turns
    the loading flag on and sends exactly one request, for the list of the
    chosen view; a deselection changes nothing at all; choosing the view
    already on sends nothing and keeps the lists, but still empties the
    search field. *)
Theorem switching_views w id :
  truthy (App.userData (session w)) = true →
  get (App.userData (session w)) "id" = Normal id →
  SummaryToggle.handleChange JNull w = w ∧
  (currentView (state w) = MySummaries →
     (let w' := SummaryToggle.handleChange (JStr "shared-summaries") w in
      currentView (state w') = SharedSummaries ∧
      searchQuery (state w') = "" ∧
      activeTab (state w') = activeTab (state w) ∧
      summaries (state w') = summaries (state w) ∧
      sharedSummaries (state w') = sharedSummaries (state w) ∧
      loading (state w') = true ∧
      requests w' = (requests w ++ [GetUserSharedSummaries id])%list) ∧
     (let w' := SummaryToggle.handleChange (JStr "my-summaries") w in
      requests w' = requests w ∧
      state w' = setSearchQuery "" (setCurrentView MySummaries (state w)))) ∧
  (currentView (state w) = SharedSummaries →
     (let w' := SummaryToggle.handleChange (JStr "my-summaries") w in
      currentView (state w') = MySummaries ∧
      searchQuery (state w') = "" ∧
      activeTab (state w') = activeTab (state w) ∧
      summaries (state w') = summaries (state w) ∧
      sharedSummaries (state w') = sharedSummaries (state w) ∧
      loading (state w') = true ∧
      requests w' = (requests w ++ [GetUserSummaries id])%list) ∧
     (let w' := SummaryToggle.handleChange (JStr "shared-summaries") w in
      requests w' = requests w ∧
      state w' = setSearchQuery "" (setCurrentView SharedSummaries (state w)))).
Proof.
  intros Htruthy Hid. split; [reflexivity|].
  unfold SummaryToggle.handleChange, onToggleChange, effect,
    fetchSummaries, fetchSharedSummaries.
  split; intros ->; simpl; rewrite ?Htruthy, ?Hid; by repeat split.
Qed.

(** From the owned to the shared view on the mounted component. *)
Lemma switching_views_witness :
  requests (SummaryToggle.handleChange (JStr "shared-summaries") mounted)
    = [GetUserSharedSummaries (JStr "user-id")] ∧
  requests (SummaryToggle.handleChange (JStr "my-summaries") mounted) = [].
Proof.
  destruct (switching_views mounted (JStr "user-id") eq_refl eq_refl)
    as (_ & Howned & _).
  destruct (Howned eq_refl) as [Hthere Hsame].
  split; [apply Hthere|apply Hsame].
Defined.

(** ** The new-summary dialog *)

Lemma step_files_within_limit e w :
  files_within_limit w → files_within_limit (NewSummary.step e w).
Proof.
  intros [Hfile Hrequests]. destruct e; simpl.
  - unfold NewSummary.selectType. by destruct (negb _).
  - done.
  - done.
  - unfold NewSummary.handleFileChange. destruct uploadedFile as [f|]; [|done].
    destruct (Z.gtb_spec (NewSummary.size f) NewSummary.maxSizeInBytes) as [Hgt|Hle];
      [done|].
    split; [|done]. simpl. unfold NewSummary.maxSizeInBytes in Hle. lia.
  - done.
  - unfold NewSummary.create_click.
    destruct (NewSummary.ready (NewSummary.state w)); [|done].
    destruct (get (NewSummary.userData w) "id") as [id|]; [|done].
    split; [done|]. simpl. apply Forall_app. split; [done|].
    apply Forall_cons_2; [|apply Forall_nil_2].
    destruct (strict_eq (NewSummary.inputMethod (NewSummary.state w)) (JStr "upload"));
      simpl;
      by destruct (strict_eq (NewSummary.inputMethod (NewSummary.state w)) (JStr "type")).
  - unfold NewSummary.create_settled. by destruct settled.
Qed.

(** X10: no call of the dialog carries a file over the limit.  Whatever is
    selected, typed, picked, cancelled, created and answered, in whatever
    order, the file the dialog holds and the file of every gateway call it
    has made are of at most 200 MiB; a file of exactly 200 MiB is taken. *)
Theorem uploads_within_limit es userData :
  files_within_limit (NewSummary.run es (NewSummary.mounted userData)) ∧
  NewSummary.file (NewSummary.state
    (NewSummary.handleFileChange
       (Some {| NewSummary.name := "exact"; NewSummary.size := 200 * 1024 * 1024 |})
       (NewSummary.mounted userData)))
  = Some {| NewSummary.name := "exact"; NewSummary.size := 200 * 1024 * 1024 |}.
Proof.
  split; [|reflexivity].
  assert (Hany : ∀ w, files_within_limit w → files_within_limit (NewSummary.run es w)).
  { unfold NewSummary.run. induction es as [|e es IH]; intros w Hw; [done|].
    simpl. apply IH. by apply step_files_within_limit. }
  apply Hany. split; simpl; [done|apply Forall_nil_2].
Qed.

(** X11: what a click on Create hands to [onCreate].  With the form
    ready and a user id at hand, one call goes out.  When it succeeds the
    form is reset, the [onClose] prop is called once and [onCreate] is
    called twice with the created summary, by [handleTypeSelect] and again
    by the click handler.  When it fails the form is kept, the [onClose]
    prop is not called, and [onCreate] is called once, with [undefined].
    [onCreate] being [handleNewSummary] of the dashboard, every one of
    these calls closes the dialog on the dashboard and asks for the list
    again: a failed creation closes the dialog too, leaving the form
    filled in. *)
Theorem create_calls_onCreate w id :
  NewSummary.ready (NewSummary.state w) = true →
  get (NewSummary.userData w) "id" = Normal id →
  (∃ w1,
     NewSummary.create_click w = NewSummary.Sent w1 ∧
     length (NewSummary.requests w1) = S (length (NewSummary.requests w)) ∧
     NewSummary.created w1 = NewSummary.created w ∧
     NewSummary.closed w1 = NewSummary.closed w ∧
     (∀ createdSummary,
        NewSummary.created (NewSummary.create_settled (Normal createdSummary) w1)
          = (NewSummary.created w ++ [createdSummary; createdSummary])%list ∧
        NewSummary.closed (NewSummary.create_settled (Normal createdSummary) w1)
          = S (NewSummary.closed w) ∧
        NewSummary.state (NewSummary.create_settled (Normal createdSummary) w1)
          = NewSummary.initial) ∧
     (∀ e,
        NewSummary.created (NewSummary.create_settled (Throw e) w1)
          = (NewSummary.created w ++ [JUndefined])%list ∧
        NewSummary.closed (NewSummary.create_settled (Throw e) w1)
          = NewSummary.closed w ∧
        NewSummary.state (NewSummary.create_settled (Throw e) w1)
          = NewSummary.setLoading false (NewSummary.state w))) ∧
  (∀ d, Dashboard.handleNewSummary (NewSummary.userData w) d
        = (Dashboard.setOpenNewDialog false d, Some id)).
Proof.
  intros Hready Hid. split.
  - unfold NewSummary.create_click. rewrite Hready, Hid.
    eexists. split; [reflexivity|]. simpl.
    split; [|split; [reflexivity|split; [reflexivity|split]]].
    + rewrite length_app. simpl. lia.
    + intros createdSummary. split; [|by split].
      by rewrite <- app_assoc.
    + intros e. by repeat split.
  - intros d. unfold Dashboard.handleNewSummary. by rewrite Hid.
Qed.

(** X12: an upload without a file.  The content typed under the method
    [type] is still there after the method is switched to [upload], and it
    is enough for the form to be ready: the click on Create then calls the
    upload function with no file at all. *)
Theorem upload_without_file userData id summaryType value :
  truthy summaryType = true →
  value ≠ "" →
  get userData "id" = Normal id →
  NewSummary.requests
    (NewSummary.run
       [NewSummary.SelectType summaryType;
        NewSummary.SelectMethod (JStr "type");
        NewSummary.TypeContent value;
        NewSummary.SelectMethod (JStr "upload");
        NewSummary.Create]
       (NewSummary.mounted userData))
  = [NewSummary.UserSummaryUpload
       {| NewSummary.userId := id; NewSummary.type := summaryType;
          NewSummary.uploadType := JStr "upload";
          NewSummary.initialData := NewSummary.Picked None |}].
Proof.
  intros Htype Hvalue Hid.
  assert (Hfirst : NewSummary.selectType summaryType (NewSummary.mounted userData)
                   = NewSummary.on_state (NewSummary.setSummaryType summaryType)
                       (NewSummary.mounted userData)).
  { unfold NewSummary.selectType. by destruct (negb _). }
  unfold NewSummary.run.
  cbn [foldl NewSummary.step]. rewrite Hfirst.
  unfold NewSummary.create_click, NewSummary.ready. simpl.
  rewrite Htype, Hid. apply String.eqb_neq in Hvalue. rewrite Hvalue. reflexivity.
Qed.

(** Content typed for a code summary, the method then switched. *)
Lemma upload_without_file_witness :
  NewSummary.requests
    (NewSummary.run
       [NewSummary.SelectType (JStr "code");
        NewSummary.SelectMethod (JStr "type");
        NewSummary.TypeContent "x = 1";
        NewSummary.SelectMethod (JStr "upload");
        NewSummary.Create]
       (NewSummary.mounted (JObj {[ "id" := JStr "user-id" ]})))
  = [NewSummary.UserSummaryUpload
       {| NewSummary.userId := JStr "user-id"; NewSummary.type := JStr "code";
          NewSummary.uploadType := JStr "upload";
          NewSummary.initialData := NewSummary.Picked None |}].
Proof.
  apply (upload_without_file (JObj {[ "id" := JStr "user-id" ]}) (JStr "user-id")
           (JStr "code") "x = 1"); [reflexivity|discriminate|reflexivity].
Defined.

(** A ready form on the sample user: one call; two calls of [onCreate]
    on success; on failure one call of [onCreate], no call of [onClose],
    the content still in the form, and the dialog closed by the
    dashboard. *)
Lemma create_calls_onCreate_witness :
  let w := NewSummary.run [NewSummary.SelectType (JStr "code");
                           NewSummary.SelectMethod (JStr "type");
                           NewSummary.TypeContent "x = 1"]
             (NewSummary.mounted (JObj {[ "id" := JStr "user-id" ]})) in
  ∃ w1,
    NewSummary.create_click w = NewSummary.Sent w1 ∧
    NewSummary.created (NewSummary.create_settled (Normal (JStr "made")) w1)
    = [JStr "made"; JStr "made"] ∧
    NewSummary.created (NewSummary.create_settled (Throw (JStr "no")) w1) = [JUndefined] ∧
    NewSummary.closed (NewSummary.create_settled (Throw (JStr "no")) w1) = 0 ∧
    NewSummary.content (NewSummary.state (NewSummary.create_settled (Throw (JStr "no")) w1))
    = "x = 1" ∧
    Dashboard.openNewDialog
      (Dashboard.handleNewSummary (NewSummary.userData w)
         (Dashboard.setOpenNewDialog true Dashboard.initial)).1 = false.
Proof.
  intros w.
  destruct (create_calls_onCreate w (JStr "user-id") eq_refl eq_refl)
    as [(w1 & Hclick & _ & _ & _ & Hok & Hfailed) Hdashboard].
  destruct (Hfailed (JStr "no")) as (Hcreated & Hclosed & Hstate).
  exists w1. split; [exact Hclick|]. split; [apply (Hok (JStr "made"))|].
  split; [exact Hcreated|]. split; [exact Hclosed|]. split; [by rewrite Hstate|].
  by rewrite Hdashboard.
Defined.

(** ** The dashboard *)

(** [find] with the callback of [handleNewSummary], on items whose id can
    be read, for a created summary whose id can be read. *)
Lemma find_created newSummary result summary_id items :
  get newSummary "result" = Normal result →
  get result "summary_id" = Normal summary_id →
  Forall (λ x, nullish x = false) items →
  Dashboard.find (Dashboard.is_created newSummary) items
  = Normal (first_with_id summary_id items).
Proof.
  intros Hresult Hid. unfold first_with_id.
  induction 1 as [|x items Hx _ IH]; [reflexivity|].
  simpl. rewrite filter_cons.
  assert (Dashboard.is_created newSummary x = Normal (strict_eq (id_of x) summary_id))
    as ->.
  { unfold Dashboard.is_created, id_of. rewrite Hresult.
    destruct x; try done; simpl; by rewrite Hid. }
  simpl. destruct (strict_eq (id_of x) summary_id); [reflexivity|exact IH].
Qed.

(** X13: the dashboard selects what has been created.  When the list
    comes back as a list of items whose id can be read, and the created
    summary carries a primitive [result.summary_id], the list is stored and the
    selection becomes the first item of the list with that id, or
    [undefined] when the list has none: the item selected, if any, is one
    of the list and bears the id. *)
Theorem handleNewSummary_selects_created newSummary result summary_id items settled s :
  Dashboard.result_of settled = Normal (JArr items) →
  get newSummary "result" = Normal result →
  get result "summary_id" = Normal summary_id →
  primitive summary_id = true →
  Forall (λ x, nullish x = false) items →
  Dashboard.summaries (Dashboard.handleNewSummary_settled newSummary settled s)
    = JArr items ∧
  Dashboard.selectedSummary (Dashboard.handleNewSummary_settled newSummary settled s)
    = first_with_id summary_id items ∧
  (first_with_id summary_id items = JUndefined ∨
   (first_with_id summary_id items ∈ items ∧
    strict_eq (id_of (first_with_id summary_id items)) summary_id = true)).
Proof.
  intros Hlist Hresult Hid _ Hitems.
  unfold Dashboard.handleNewSummary_settled. rewrite Hlist. simpl.
  rewrite (find_created _ _ _ _ Hresult Hid Hitems). simpl.
  split; [reflexivity|]. split; [reflexivity|].
  unfold first_with_id.
  destruct (filter _ items) as [|x rest] eqn:Hfilter; [by left|right].
  simpl.
  assert (Hin : x ∈ filter (λ x, strict_eq (id_of x) summary_id) items).
  { rewrite Hfilter. apply list_elem_of_here. }
  apply list_elem_of_filter in Hin as [Hx Hin].
  split; [done|]. by destruct (strict_eq (id_of x) summary_id).
Qed.

(** The summary created as number 2, looked up in the completed
    scenario. *)
Lemma handleNewSummary_selects_created_witness :
  Dashboard.selectedSummary
    (Dashboard.handleNewSummary_settled
       (JObj {[ "result" := JObj {[ "summary_id" := JNum 2 ]} ]})
       (RequestService.getUserSummaries (listing [first_item ""; second_item ""]))
       Dashboard.initial)
  = second_item "".
Proof.
  destruct (handleNewSummary_selects_created
              (JObj {[ "result" := JObj {[ "summary_id" := JNum 2 ]} ]})
              (JObj {[ "summary_id" := JNum 2 ]}) (JNum 2)
              [first_item ""; second_item ""]
              (RequestService.getUserSummaries (listing [first_item ""; second_item ""]))
              Dashboard.initial) as (_ & Hselected & _).
  - reflexivity.
  - reflexivity.
  - reflexivity.
  - reflexivity.
  - apply Forall_cons_2; [reflexivity|].
    apply Forall_cons_2; [reflexivity|]. apply Forall_nil_2.
  - rewrite Hselected. reflexivity.
Defined.

(** X14: a failed creation still reaches the dashboard.  The click on
    Create hands [undefined] to [onCreate], that is to [handleNewSummary],
    which closes the dialog and fetches the list again.  With [undefined]
    for the created summary, an empty list sets the selection to
    [undefined], and a list that starts with an item whose id can be read
    is stored while the lookup throws and the selection stays. *)
Theorem failed_creation_reaches_dashboard e w userData settled s :
  NewSummary.created (NewSummary.create_settled (Throw e) w)
    = (NewSummary.created w ++ [JUndefined])%list ∧
  Dashboard.openNewDialog (Dashboard.handleNewSummary userData s).1 = false ∧
  (Dashboard.result_of settled = Normal (JArr []) →
     Dashboard.handleNewSummary_settled JUndefined settled s
     = Dashboard.setSelectedSummary JUndefined (Dashboard.setSummaries (JArr []) s)) ∧
  (∀ x items,
     nullish x = false →
     Dashboard.result_of settled = Normal (JArr (x :: items)) →
     Dashboard.handleNewSummary_settled JUndefined settled s
     = Dashboard.setSummaries (JArr (x :: items)) s).
Proof.
  split; [reflexivity|]. split.
  { unfold Dashboard.handleNewSummary. by destruct (get userData "id"). }
  split.
  - intros Hlist. unfold Dashboard.handleNewSummary_settled. by rewrite Hlist.
  - intros x items Hx Hlist. unfold Dashboard.handleNewSummary_settled.
    rewrite Hlist. simpl. unfold Dashboard.is_created.
    by destruct x.
Qed.

(** The refetch after a failed creation, answered with the completed
    scenario and with an empty list. *)
Lemma failed_creation_reaches_dashboard_witness :
  Dashboard.selectedSummary
    (Dashboard.handleNewSummary_settled JUndefined
       (RequestService.getUserSummaries (listing [first_item ""; second_item ""]))
       Dashboard.initial) = JNull ∧
  Dashboard.selectedSummary
    (Dashboard.handleNewSummary_settled JUndefined
       (RequestService.getUserSummaries (listing [])) Dashboard.initial) = JUndefined.
Proof.
  destruct (failed_creation_reaches_dashboard JNull (NewSummary.mounted JNull) JNull
              (RequestService.getUserSummaries (listing [first_item ""; second_item ""]))
              Dashboard.initial) as (_ & _ & _ & Hfull).
  destruct (failed_creation_reaches_dashboard JNull (NewSummary.mounted JNull) JNull
              (RequestService.getUserSummaries (listing [])) Dashboard.initial)
    as (_ & _ & Hempty & _).
  split.
  - rewrite (Hfull (first_item "") [second_item ""]); reflexivity.
  - rewrite Hempty; reflexivity.
Defined.

(** ** Regeneration *)

(** X15: from the feedback to the refreshed detail view.  A regeneration
    that succeeds clears the feedback, hides the feedback box and calls
    [onSummaryRegenerate] once, with the summary on show; a regeneration
    that fails keeps the feedback and the box and calls nothing; the
    request carries the id of the summary and the feedback as typed.  The list
    component, so called with a summary whose id can be read, fetches that
    summary again by its id, and when the answer is there the summary on
    show becomes the [result] of the answer. *)
Theorem regeneration_refreshes_detail w settled pw id answered result :
  let w' := SelectedSummary.handleSubmitRegenerate_settled settled w in
  match settled with
  | Normal _ =>
      SelectedSummary.regenerated w'
        = (SelectedSummary.regenerated w ++ [SelectedSummary.summary w])%list ∧
      SelectedSummary.feedback (SelectedSummary.state w') = "" ∧
      SelectedSummary.isRegenerating (SelectedSummary.state w') = false
  | Throw _ =>
      SelectedSummary.regenerated w' = SelectedSummary.regenerated w ∧
      SelectedSummary.feedback (SelectedSummary.state w')
        = SelectedSummary.feedback (SelectedSummary.state w) ∧
      SelectedSummary.isRegenerating (SelectedSummary.state w')
        = SelectedSummary.isRegenerating (SelectedSummary.state w)
  end ∧
  SelectedSummary.regenerating (SelectedSummary.state w') = false ∧
  (get (SelectedSummary.summary w) "id" = Normal id →
     SelectedSummary.requests (SelectedSummary.handleSubmitRegenerate w).1
       = (SelectedSummary.requests w
            ++ [(id, SelectedSummary.feedback (SelectedSummary.state w))])%list ∧
     requests (handleSummaryRegenerate (SelectedSummary.summary w) pw)
       = (requests pw ++ [GetUserSummary id])%list ∧
     waiting (length (requests pw)) (GetUserSummary id) InHandleSummaryRegenerate
       (handleSummaryRegenerate (SelectedSummary.summary w) pw)) ∧
  (get answered "result" = Normal result →
     selectedSummary (state (handleSummaryRegenerate_settled (Normal answered) pw))
       = result).
Proof.
  split; [by destruct settled|]. split; [by destruct settled|]. split.
  - intros Hid. unfold handleSummaryRegenerate, SelectedSummary.handleSubmitRegenerate.
    simpl. rewrite Hid.
    split; [reflexivity|]. split; [reflexivity|]. apply waiting_await.
  - intros Hresult. unfold handleSummaryRegenerate_settled. simpl. by rewrite Hresult.
Qed.

(** The second item of the scenario on show, regenerated and fetched
    again. *)
Lemma regeneration_refreshes_detail_witness :
  requests (handleSummaryRegenerate (second_item "") mounted) = [GetUserSummary (JNum 2)] ∧
  selectedSummary
    (state (handleSummaryRegenerate_settled
       (Normal (JObj {[ "status" := JStr "OK"; "result" := second_item "new" ]}))
       mounted))
  = second_item "new".
Proof.
  destruct (regeneration_refreshes_detail
              {| SelectedSummary.state := SelectedSummary.initial;
                 SelectedSummary.summary := second_item "";
                 SelectedSummary.requests := [];
                 SelectedSummary.regenerated := [] |}
              (Normal JNull) mounted (JNum 2)
              (JObj {[ "status" := JStr "OK"; "result" := second_item "new" ]})
              (second_item "new")) as (_ & _ & Hfetch & Hshown).
  split.
  - destruct (Hfetch eq_refl) as (_ & Hrequests & _). exact Hrequests.
  - apply Hshown. reflexivity.
Defined.

(** X16: what a refetch can do to the detail view.  A refetch that is
    rejected, or answered with [undefined] or [null], leaves the summary on
    show as it was.  A refetch answered with an object that has no
    [result] sets the summary on show to [undefined]: the detail view is
    gone, and the next render that returns shows no summary. *)
Theorem refetch_may_close_detail w settled :
  ((∀ answered, settled = Normal answered → nullish answered = true) →
     handleSummaryRegenerate_settled settled w = w) ∧
  (∀ fields,
     settled = Normal (JObj fields) → fields !! "result" = None →
     selectedSummary (state (handleSummaryRegenerate_settled settled w)) = JUndefined ∧
     ∀ shown,
       ListView.screen_of (state (handleSummaryRegenerate_settled settled w))
         = Normal shown →
       ∀ summary, shown ≠ ListView.DetailView summary).
Proof.
  split.
  - intros Hnullish. unfold handleSummaryRegenerate_settled.
    destruct settled as [answered|e]; [|done].
    specialize (Hnullish answered eq_refl). by destruct answered.
  - intros fields -> Hnone.
    assert (Hstate : state (handleSummaryRegenerate_settled (Normal (JObj fields)) w)
                     = setSelectedSummary JUndefined (state w)).
    { unfold handleSummaryRegenerate_settled. simpl. by rewrite Hnone. }
    rewrite Hstate. split; [reflexivity|].
    intros shown Hshown summary.
    apply screen_of_inv in Hshown
      as [[_ ->]|[(_ & _ & ->)|[(_ & _ & Hs & _)|(_ & _ & _ & cards & sharing & ->)]]];
      [done|done|discriminate Hs|done].
Qed.

(** The mounted component with the second item on show, after a refetch
    that is rejected and after one answered without a result. *)
Lemma refetch_may_close_detail_witness :
  handleSummaryRegenerate_settled (Throw (JStr "Error fetching summary for user"))
    (handleViewSummary (second_item "") mounted)
  = handleViewSummary (second_item "") mounted ∧
  selectedSummary
    (state (handleSummaryRegenerate_settled (Normal (JObj {[ "status" := JStr "OK" ]}))
       (handleViewSummary (second_item "") mounted))) = JUndefined.
Proof.
  destruct (refetch_may_close_detail (handleViewSummary (second_item "") mounted)
              (Throw (JStr "Error fetching summary for user"))) as [Hkept _].
  destruct (refetch_may_close_detail (handleViewSummary (second_item "") mounted)
              (Normal (JObj {[ "status" := JStr "OK" ]}))) as [_ Hgone].
  split.
  - apply Hkept. intros answered H. discriminate H.
  - apply (Hgone {[ "status" := JStr "OK" ]}); reflexivity.
Defined.

(** ** Regular expressions *)

Section RegexFacts.
Import Regex.

Lemma lang_never_inv s : ¬ lang Never s.
Proof. intros H. inversion H. Qed.

Lemma lang_empty_inv s : lang Empty s → s = [].
Proof. intros H. by inversion H. Qed.

Lemma lang_class_inv p s : lang (Class p) s → ∃ c, s = [c] ∧ p c = true.
Proof. intros H. inversion H; subst. eauto. Qed.

Lemma lang_then_inv r1 r2 s :
  lang (Then r1 r2) s → ∃ s1 s2, s = (s1 ++ s2)%list ∧ lang r1 s1 ∧ lang r2 s2.
Proof. intros H. inversion H; subst. eauto. Qed.

Lemma lang_or_inv r1 r2 s : lang (Or r1 r2) s → lang r1 s ∨ lang r2 s.
Proof. intros H. inversion H; subst; auto. Qed.

Lemma nullable_lang r : nullable r = true ↔ lang r [].
Proof.
  induction r as [| |p|r1 IH1 r2 IH2|r1 IH1 r2 IH2|r IH]; simpl.
  - split; [done|]. intros H. by apply lang_never_inv in H.
  - split; [constructor|done].
  - split; [done|]. intros (c & Hc & _)%lang_class_inv. discriminate Hc.
  - rewrite andb_true_iff, IH1, IH2. split.
    + intros [H1 H2]. apply (lang_then r1 r2 [] [] H1 H2).
    + intros (s1 & s2 & Heq & H1 & H2)%lang_then_inv.
      symmetry in Heq. apply app_eq_nil in Heq as [-> ->]. done.
  - rewrite orb_true_iff, IH1, IH2. split.
    + intros [H|H]; [by apply lang_or_l|by apply lang_or_r].
    + apply lang_or_inv.
  - split; [constructor|done].
Qed.

(** A repetition that starts with [c] starts with a round that starts
    with [c]. *)
Lemma lang_star_cons_inv r c s :
  lang (Star r) (c :: s) →
  ∃ s1 s2, s = (s1 ++ s2)%list ∧ lang r (c :: s1) ∧ lang (Star r) s2.
Proof.
  intros H. remember (Star r) as r' eqn:Hr. remember (c :: s) as cs eqn:Hcs.
  revert s Hcs.
  induction H as [| | | | | |r0 t1 t2 H1 _ H2 IH2]; intros t Hcs; try discriminate.
  injection Hr as ->.
  destruct t1 as [|c1 t1].
  - simpl in Hcs. by apply IH2.
  - simpl in Hcs. injection Hcs as Hc Ht. subst c1 t. by exists t1, t2.
Qed.

Lemma derive_lang c r s : lang (derive c r) s ↔ lang r (c :: s).
Proof.
  revert s. induction r as [| |p|r1 IH1 r2 IH2|r1 IH1 r2 IH2|r IH]; intros s; simpl.
  - split; intros H; by apply lang_never_inv in H.
  - split; intros H; [by apply lang_never_inv in H|by apply lang_empty_inv in H].
  - destruct (p c) eqn:Hp.
    + split.
      * intros H. apply lang_empty_inv in H. subst s. by constructor.
      * intros H. apply lang_class_inv in H as (c' & Heq & _).
        injection Heq as _ Hs. subst s. constructor.
    + split.
      * intros H. by apply lang_never_inv in H.
      * intros H. apply lang_class_inv in H as (c' & Heq & Hc).
        injection Heq as Hcc _. subst c'. congruence.
  - assert (Hleft : lang (Then (derive c r1) r2) s →
                    lang (Then r1 r2) (c :: s)).
    { intros (s1 & s2 & -> & H1 & H2)%lang_then_inv.
      apply IH1 in H1. apply (lang_then r1 r2 (c :: s1) s2 H1 H2). }
    assert (Hsplit : lang (Then r1 r2) (c :: s) →
                     lang (Then (derive c r1) r2) s ∨
                     (lang r1 [] ∧ lang (derive c r2) s)).
    { intros (s1 & s2 & Heq & H1 & H2)%lang_then_inv.
      destruct s1 as [|c1 s1].
      - simpl in Heq. subst s2. right. split; [done|]. by apply IH2.
      - simpl in Heq. injection Heq as <- ->. left.
        apply lang_then; [by apply IH1|done]. }
    destruct (nullable r1) eqn:Hnull.
    + split.
      * intros [H|H]%lang_or_inv; [by apply Hleft|].
        apply nullable_lang in Hnull.
        apply (lang_then r1 r2 [] (c :: s) Hnull). by apply IH2.
      * intros H. destruct (Hsplit H) as [H'|[_ H']];
          [by apply lang_or_l|by apply lang_or_r].
    + split; [exact Hleft|].
      intros H. destruct (Hsplit H) as [H'|[Hnil _]]; [done|].
      apply nullable_lang in Hnil. congruence.
  - split.
    + intros [H|H]%lang_or_inv;
        [apply lang_or_l; by apply IH1|apply lang_or_r; by apply IH2].
    + intros [H|H]%lang_or_inv;
        [apply lang_or_l; by apply IH1|apply lang_or_r; by apply IH2].
  - split.
    + intros (s1 & s2 & -> & H1 & H2)%lang_then_inv.
      apply IH in H1. apply (lang_star_more r (c :: s1) s2 H1 H2).
    + intros H. apply lang_star_cons_inv in H as (s1 & s2 & -> & H1 & H2).
      apply lang_then; [by apply IH|done].
Qed.

(** The matcher decides the language. *)
Lemma matches_lang r s : matches r s = true ↔ lang r s.
Proof.
  revert r. induction s as [|c s IH]; intros r; simpl.
  - apply nullable_lang.
  - rewrite IH. apply derive_lang.
Qed.

Lemma lang_star_class p s :
  lang (Star (Class p)) s ↔ Forall (λ c, p c = true) s.
Proof.
  split.
  - intros H. remember (Star (Class p)) as r eqn:Hr.
    induction H as [| | | | | |r0 t1 t2 H1 _ H2 IH2]; try discriminate; [done|].
    injection Hr as ->. apply lang_class_inv in H1 as (c & -> & Hc). simpl.
    apply Forall_cons_2; [done|]. by apply IH2.
  - induction 1 as [|c s Hc _ IH]; [constructor|].
    apply (lang_star_more (Class p) [c] s); [by constructor|done].
Qed.

(** One or more characters of a class. *)
Lemma lang_plus_class p s :
  lang (Plus (Class p)) s ↔ s ≠ [] ∧ Forall (λ c, p c = true) s.
Proof.
  unfold Plus. split.
  - intros (s1 & s2 & -> & H1 & H2)%lang_then_inv.
    apply lang_class_inv in H1 as (c & -> & Hc). simpl. split; [done|].
    apply Forall_cons_2; [done|]. by apply lang_star_class.
  - intros [Hne Hall]. destruct s as [|c s]; [done|].
    apply Forall_cons in Hall as [Hc Hall].
    apply (lang_then (Class p) (Star (Class p)) [c] s);
      [by constructor|by apply lang_star_class].
Qed.

Lemma lang_char c s : lang (Char c) s ↔ s = [c].
Proof.
  unfold Char. split.
  - intros (c' & -> & Hc)%lang_class_inv. by apply Ascii.eqb_eq in Hc as ->.
  - intros ->. constructor. apply Ascii.eqb_refl.
Qed.

End RegexFacts.

(** ** The sign-in form *)

(** X17: the addresses the form accepts.  [validateEmail] accepts a text
    exactly when it is a word, an [@], a word, a dot and a word, where a
    word is one or more characters that are neither white space nor [@]:
    so exactly one [@], no white space, and a dot inside what follows the
    [@]. *)
Theorem validateEmail_shape email :
  AuthForms.validateEmail email = true ↔ email_shape email.
Proof.
  unfold AuthForms.validateEmail, Regex.test_whole, email_shape, word.
  rewrite matches_lang. unfold AuthForms.emailRegex. split.
  - intros (l & s1 & Heq & Hl & H1)%lang_then_inv.
    apply lang_then_inv in H1 as (at1 & s2 & -> & Hat & H2).
    apply lang_then_inv in H2 as (a & s3 & -> & Ha & H3).
    apply lang_then_inv in H3 as (dot & b & -> & Hdot & Hb).
    apply lang_char in Hat as ->. apply lang_char in Hdot as ->.
    apply lang_plus_class in Hl, Ha, Hb.
    exists l, a, b. split; [|done]. rewrite Heq. reflexivity.
  - intros (l & a & b & -> & Hl & Ha & Hb).
    apply lang_plus_class in Hl, Ha, Hb.
    apply lang_then; [done|].
    apply (lang_then _ _ ["@"%char]); [by apply lang_char|].
    apply lang_then; [done|].
    apply (lang_then _ _ ["."%char]); [by apply lang_char|done].
Qed.

(** An address of the tests, and one with two [@]. *)
Lemma validateEmail_shape_witness :
  email_shape "test@example.com" ∧ ¬ email_shape "a@b@example.com".
Proof.
  split.
  - apply validateEmail_shape. reflexivity.
  - intros H. apply validateEmail_shape in H. discriminate H.
Defined.

(** X18: what a submission lets through.  A call to the provider is made
    only with an address of the accepted shape; in the sign-in mode it is
    a login with the address and the password of the form; in the
    registration mode it is a registration with the form as it stands, and
    only when all requirement flags are on, the two passwords are equal,
    both names are there and the phone is valid.  When these conditions
    hold the call is made and the loading flag is on; when they do not,
    no call is made, the loading flag is untouched and an error message is
    shown. *)
Theorem handleSubmit_guards w :
  let s := AuthForms.state w in
  let d := AuthForms.formData s in
  let w' := AuthForms.handleSubmit w in
  (email_shape (AuthForms.email d) ∧ (AuthForms.isLogin s = true ∨ registrable s) →
     AuthForms.calls w'
       = (AuthForms.calls w ++
            [if AuthForms.isLogin s
             then AuthForms.Login (AuthForms.email d) (AuthForms.password d)
             else AuthForms.Register d])%list ∧
     AuthForms.loading (AuthForms.state w') = true ∧
     AuthForms.error (AuthForms.state w') = JStr "") ∧
  (¬ (email_shape (AuthForms.email d) ∧ (AuthForms.isLogin s = true ∨ registrable s)) →
     AuthForms.calls w' = AuthForms.calls w ∧
     AuthForms.loading (AuthForms.state w') = AuthForms.loading s ∧
     truthy (AuthForms.error (AuthForms.state w')) = true).
Proof.
  intros s d w'. unfold w', AuthForms.handleSubmit. simpl. fold s d.
  pose proof (validateEmail_shape (AuthForms.email d)) as Hshape.
  unfold registrable. fold s d.
  destruct (AuthForms.validateEmail (AuthForms.email d)); simpl;
    [|split; [intros [He _]; apply Hshape in He; discriminate|by intros _]].
  destruct (AuthForms.isLogin s); simpl.
  { split; [by intros _|]. intros Hnot. exfalso. apply Hnot.
    split; [by apply Hshape|by left]. }
  destruct (AuthForms.all_met (AuthForms.validations s)); simpl;
    [|split; [intros [_ [?|(? & _)]]; discriminate|by intros _]].
  destruct (String.eqb_spec (AuthForms.password d) (AuthForms.confirmPassword d))
    as [Heq|Hne]; simpl;
    [|split; [intros [_ [?|(_ & ? & _)]]; [discriminate|done]|by intros _]].
  destruct (AuthForms.missing (AuthForms.firstName d)); simpl;
    [split; [intros [_ [?|(_ & _ & ? & _)]]; discriminate|by intros _]|].
  destruct (AuthForms.missing (AuthForms.lastName d)); simpl;
    [split; [intros [_ [?|(_ & _ & _ & ? & _)]]; discriminate|by intros _]|].
  destruct (AuthForms.validatePhone (AuthForms.phone d)); simpl;
    [|split; [intros [_ [?|(_ & _ & _ & _ & ?)]]; discriminate|by intros _]].
  split; [by intros _|]. intros Hnot. exfalso. apply Hnot.
  split; [by apply Hshape|]. right. by repeat split.
Qed.

(** A sign-in with a good address, and the registration form filled in
    but for the confirmation of the password. *)
Lemma handleSubmit_guards_witness :
  AuthForms.calls
    (AuthForms.handleSubmit
       (AuthForms.handleInputChange AuthForms.PasswordField "Password123!"
          (AuthForms.handleInputChange AuthForms.EmailField "test@example.com"
             AuthForms.mounted)))
  = [AuthForms.Login "test@example.com" "Password123!"] ∧
  AuthForms.calls (AuthForms.handleSubmit filled_in) = [] ∧
  AuthForms.error (AuthForms.state (AuthForms.handleSubmit filled_in))
  = JStr "Passwords do not match".
Proof.
  destruct (handleSubmit_guards
              (AuthForms.handleInputChange AuthForms.PasswordField "Password123!"
                 (AuthForms.handleInputChange AuthForms.EmailField "test@example.com"
                    AuthForms.mounted))) as [Hcall _].
  destruct (handleSubmit_guards filled_in) as [_ Hrefused].
  split; [|split].
  - apply Hcall. split; [|by left]. apply validateEmail_shape. reflexivity.
  - apply Hrefused. intros [_ [H|(_ & H & _)]]; discriminate H.
  - reflexivity.
Defined.

(** X19: the requirement flags outlive the password.  The flags are
    computed when the password changes to a text that is not empty; when
    the field is emptied they stay as they were.  So, once a password
    meeting the five requirements has been typed and deleted, a
    registration whose other fields are in order goes through with an
    empty password and an empty confirmation. *)
Theorem flags_outlive_password w good :
  good ≠ "" →
  AuthForms.password (AuthForms.formData (AuthForms.state w)) ≠ good →
  let w' := AuthForms.handleInputChange AuthForms.PasswordField ""
              (AuthForms.handleInputChange AuthForms.PasswordField good w) in
  let d' := AuthForms.formData (AuthForms.state w') in
  AuthForms.password d' = "" ∧
  AuthForms.validations (AuthForms.state w')
    = AuthForms.checked good (AuthForms.validations (AuthForms.state w)) ∧
  (AuthForms.isLogin (AuthForms.state w) = false →
   AuthForms.validateEmail (AuthForms.email (AuthForms.formData (AuthForms.state w))) = true →
   AuthForms.all_met (AuthForms.checked good (AuthForms.validations (AuthForms.state w)))
     = true →
   AuthForms.confirmPassword (AuthForms.formData (AuthForms.state w)) = "" →
   AuthForms.missing (AuthForms.firstName (AuthForms.formData (AuthForms.state w))) = false →
   AuthForms.missing (AuthForms.lastName (AuthForms.formData (AuthForms.state w))) = false →
   AuthForms.validatePhone (AuthForms.phone (AuthForms.formData (AuthForms.state w))) = true →
   AuthForms.calls (AuthForms.handleSubmit w')
     = (AuthForms.calls w ++ [AuthForms.Register d'])%list).
Proof.
  intros Hgood Hfresh w' d'.
  assert (Hstate : AuthForms.state w'
    = AuthForms.setValidations
        (AuthForms.checked good (AuthForms.validations (AuthForms.state w)))
        (AuthForms.setFormData
           (AuthForms.with_field AuthForms.PasswordField ""
              (AuthForms.formData (AuthForms.state w))) (AuthForms.state w))).
  { unfold w', AuthForms.handleInputChange, AuthForms.password_effect. simpl.
    apply String.eqb_neq in Hfresh, Hgood. rewrite Hfresh, Hgood. simpl.
    rewrite andb_false_r. reflexivity. }
  assert (Hcalls : AuthForms.calls w' = AuthForms.calls w) by reflexivity.
  assert (Hnav : AuthForms.navigated w' = AuthForms.navigated w) by reflexivity.
  unfold d'. clearbody w'. rewrite Hstate. simpl.
  split; [reflexivity|]. split; [reflexivity|].
  intros Hmode Hemail Hmet Hconfirm Hfirst Hlast Hphone.
  unfold AuthForms.handleSubmit. simpl. rewrite Hstate, Hcalls. simpl.
  rewrite Hemail, Hmode, Hmet, Hconfirm, Hfirst, Hlast, Hphone. simpl.
  reflexivity.
Qed.

(** The filled-in registration form, its password deleted again. *)
Lemma flags_outlive_password_witness :
  ∃ d,
    AuthForms.calls
      (AuthForms.handleSubmit
         (AuthForms.handleInputChange AuthForms.PasswordField "" filled_in))
    = [AuthForms.Register d] ∧
    AuthForms.password d = "" ∧ AuthForms.confirmPassword d = "".
Proof.
  destruct (flags_outlive_password
              (AuthForms.handlePhoneChange "1234567890"
                (AuthForms.handleInputChange AuthForms.LastNameField "Doe"
                  (AuthForms.handleInputChange AuthForms.FirstNameField "John"
                    (AuthForms.handleInputChange AuthForms.EmailField
                       "john.doe@example.com"
                       (AuthForms.handleToggleMode AuthForms.mounted)))))
              "Abcdef1!") as (Hpassword & _ & Hsubmit); [discriminate..|].
  eexists. split; [|split].
  - apply Hsubmit; reflexivity.
  - exact Hpassword.
  - reflexivity.
Defined.

Lemma failed_success text : get (failed text) "success" = Normal (JBool false).
Proof. reflexivity. Qed.

Lemma failed_error text : get (failed text) "error" = Normal text.
Proof. reflexivity. Qed.

Lemma handleSubmit_settled_failed text w :
  AuthForms.handleSubmit_settled (Normal (failed text)) w
  = AuthForms.on_state (AuthForms.setLoading false)
      (AuthForms.on_state
         (AuthForms.setError (or_else text (JStr "Authentication failed"))) w).
Proof.
  unfold AuthForms.handleSubmit_settled.
  change (Normal (failed text) ≫= _)
    with (get (failed text) "success" ≫= λ success, Normal (failed text, success)).
  rewrite failed_success.
  change (Normal (JBool false) ≫= _) with (Normal (failed text, JBool false)).
  cbv iota beta. change (truthy (JBool false)) with false. cbv iota.
  by rewrite failed_error.
Qed.

Lemma or_else_twice a b : or_else (or_else a b) b = or_else a b.
Proof.
  unfold or_else. destruct (truthy a) eqn:Ha; [by rewrite Ha|].
  by destruct (truthy b).
Qed.

(** X20: what a failed sign-in shows.  Whatever the API answers to a
    failed verification, the gateway rejects with a truthy value, the
    login never lets the rejection through to the form, and the form ends
    with the loading flag off, goes nowhere and shows the [message] of what
    was thrown or else the fixed text [Authentication failed]: so a
    response body without a [message], or no response at all, shows that
    fixed text, whatever detail the server gave. *)
Theorem sign_in_failure_message JSON_stringify ToString response message s w :
  let thrown := or_else (RequestService.response_data response)
                  (JStr "Error verifying user") in
  let outcome := Auth.login_settled JSON_stringify ToString
                   (RequestService.verifyUser (RequestService.AxiosFail response message))
                   s in
  let w' := AuthForms.handleSubmit_settled outcome.2 w in
  truthy thrown = true ∧
  (∃ text,
     get thrown "message" = Normal text ∧
     outcome.2 = Normal (failed (or_else text (JStr "Authentication failed"))) ∧
     AuthForms.error (AuthForms.state w') = or_else text (JStr "Authentication failed")) ∧
  AuthForms.navigated w' = AuthForms.navigated w ∧
  AuthForms.loading (AuthForms.state w') = false ∧
  (get thrown "message" = Normal JUndefined →
     AuthForms.error (AuthForms.state w') = JStr "Authentication failed").
Proof.
  intros thrown outcome w'.
  assert (Htruthy : truthy thrown = true).
  { unfold thrown, or_else.
    by destruct (truthy (RequestService.response_data response)) eqn:H. }
  assert (Hmessage : ∃ text, get thrown "message" = Normal text).
  { destruct thrown; try done; simpl; eauto. }
  destruct Hmessage as [text Htext].
  assert (Houtcome : outcome
    = (App.setLoading false (App.setError (or_else text (JStr "Authentication failed")) s),
       Normal (failed (or_else text (JStr "Authentication failed"))))).
  { unfold outcome, Auth.login_settled, Auth.login_try. simpl. fold thrown.
    by rewrite Htext. }
  assert (Herror : AuthForms.error (AuthForms.state w')
                   = or_else text (JStr "Authentication failed") ∧
                   AuthForms.navigated w' = AuthForms.navigated w ∧
                   AuthForms.loading (AuthForms.state w') = false).
  { unfold w'. rewrite Houtcome. change (_.2) with
      (Normal (failed (or_else text (JStr "Authentication failed"))) : completion jsval).
    rewrite handleSubmit_settled_failed, or_else_twice. by repeat split. }
  destruct Herror as (Herror & Hnav & Hloading).
  split; [done|]. split; [|split; [done|split; [done|]]].
  - exists text. rewrite Houtcome. by repeat split.
  - intros Hnone. rewrite Herror. rewrite Htext in Hnone. by injection Hnone as ->.
Qed.

(** A refusal of the API that carries a detail and no message. *)
Lemma sign_in_failure_message_witness :
  AuthForms.error
    (AuthForms.state
       (AuthForms.handleSubmit_settled
          (Auth.login_settled stringify_sample tostring_sample
             (RequestService.verifyUser (failure 401%Z refusal)) (App.initial ∅)).2
          AuthForms.mounted))
  = JStr "Authentication failed".
Proof.
  destruct (sign_in_failure_message stringify_sample tostring_sample
              (Some {| RequestService.status := 401%Z; RequestService.data := refusal;
                       RequestService.headers := ∅ |})
              "Request failed" (App.initial ∅) AuthForms.mounted)
    as (_ & _ & _ & _ & Hfixed).
  apply Hfixed. reflexivity.
Defined.

(** ** Sharing, continued *)

(** X21: a share error outlives a successful retry.  The error text that
    a failed share has put in the dialog is cleared by closing the
    dialog, but not by a share that then succeeds: the dialog closes with
    the text still in place, and opening the dialog for another summary
    shows it again. *)
Theorem share_error_outlives_success w to to' response message response' text other :
  server_text (RequestService.response_data response) text →
  let w1 := handleSendShare_settled to
              (RequestService.shareSummary (RequestService.AxiosFail response message))
              w in
  let w2 := handleSendShare_settled to'
              (RequestService.shareSummary (RequestService.AxiosOk response')) w1 in
  errorMessage (state w1) = text ∧
  sharingSummary (state w2) = JNull ∧
  errorMessage (state w2) = text ∧
  sharingSummary (state (handleShareSummary other w2)) = other ∧
  errorMessage (state (handleShareSummary other w2)) = text ∧
  errorMessage (state (handleCloseDialog w1)) = JStr "".
Proof.
  intros (fields & Hbody & Htext) w1 w2.
  assert (H1 : errorMessage (state w1) = text).
  { unfold w1. simpl. unfold handleSendShare_caught, or_else. rewrite Hbody. simpl.
    by rewrite Htext. }
  by repeat split.
Qed.

(** A share to an unknown recipient, a retry that succeeds, and the
    dialog opened for the other item. *)
Lemma share_error_outlives_success_witness :
  let unknown := Some {| RequestService.status := 404%Z;
                         RequestService.data :=
                           JObj {[ "detail" := JStr "Recipient not found" ]};
                         RequestService.headers := ∅ |} in
  let fine := {| RequestService.status := 200%Z;
                 RequestService.data := JObj {[ "status" := JStr "OK" ]};
                 RequestService.headers := ∅ |} in
  errorMessage
    (state
       (handleShareSummary (first_item "")
          (handleSendShare_settled "bob@example.com"
             (RequestService.shareSummary (RequestService.AxiosOk fine))
             (handleSendShare_settled "bobb@example.com"
                (RequestService.shareSummary
                   (RequestService.AxiosFail unknown "Request failed"))
                (sharing_to "bobb@example.com")))))
  = JStr "Recipient not found".
Proof.
  intros unknown fine.
  assert (Htext : server_text (RequestService.response_data unknown)
                    (JStr "Recipient not found")).
  { eexists. split; reflexivity. }
  exact (proj1 (proj2 (proj2 (proj2 (proj2
           (share_error_outlives_success (sharing_to "bobb@example.com")
              "bobb@example.com" "bob@example.com" unknown "Request failed" fine
              (JStr "Recipient not found") (first_item "") Htext)))))).
Defined.

(** ** The rules of the registration form *)

Section RuleFacts.
Import Regex.

Lemma lang_times_class n p s :
  lang (Times n (Class p)) s ↔ List.length s = n ∧ Forall (λ c, p c = true) s.
Proof.
  revert s. induction n as [|n IH]; intros s; simpl.
  - split.
    + intros H. apply lang_empty_inv in H. by subst s.
    + intros [Hlen _]. destruct s; [constructor|discriminate Hlen].
  - split.
    + intros (s1 & s2 & -> & H1 & H2)%lang_then_inv.
      apply lang_class_inv in H1 as (c & -> & Hc). apply IH in H2 as [Hlen Hall].
      simpl. split; [by rewrite Hlen|]. by apply Forall_cons_2.
    + intros [Hlen Hall]. destruct s as [|c s]; [discriminate Hlen|].
      apply Forall_cons in Hall as [Hc Hall]. injection Hlen as Hlen.
      apply (lang_then (Class p) (Times n (Class p)) [c] s); [by constructor|].
      by apply IH.
Qed.

Lemma lang_at_least_class n p s :
  lang (AtLeast n (Class p)) s ↔ (n ≤ List.length s)%nat ∧ Forall (λ c, p c = true) s.
Proof.
  unfold AtLeast. split.
  - intros (s1 & s2 & -> & H1 & H2)%lang_then_inv.
    apply lang_times_class in H1 as [Hlen H1]. apply lang_star_class in H2.
    split; [rewrite length_app; lia|]. by apply Forall_app.
  - intros [Hlen Hall].
    rewrite <- (take_drop n s). apply lang_then.
    + apply lang_times_class. split; [rewrite length_take; lia|].
      by apply Forall_take.
    + apply lang_star_class. by apply Forall_drop.
Qed.

Lemma lang_somewhere p s :
  lang (Then (Star Any) (Then (Class p) (Star Any))) s ↔ Exists (λ c, p c = true) s.
Proof.
  assert (Hany : ∀ t, lang (Star Any) t).
  { intros t. apply lang_star_class. by apply Forall_true. }
  split.
  - intros (s1 & s2 & -> & _ & H)%lang_then_inv.
    apply lang_then_inv in H as (s3 & s4 & -> & H & _).
    apply lang_class_inv in H as (c & -> & Hc).
    apply Exists_app. right. by apply Exists_cons_hd.
  - intros (c & Hin & Hc)%Exists_exists.
    apply list_elem_of_split in Hin as (s1 & s2 & ->).
    apply lang_then; [apply Hany|].
    apply (lang_then (Class p) (Star Any) [c] s2); [by constructor|apply Hany].
Qed.

Lemma length_of_text (text : string) :
  List.length (list_ascii_of_string text) = String.length text.
Proof. induction text as [|c text IH]; simpl; [done|by rewrite IH]. Qed.

End RuleFacts.

(** X22: the phones the form accepts.  [validatePhone] accepts a text
    exactly when, after an optional leading [+], it is ten or more
    characters that are each a digit, white space or a hyphen; a phone
    that is [undefined], as it is after a change of mode, is refused.
    Since [handlePhoneChange] puts a [+] in front of what is typed, what
    is typed is accepted exactly when it is itself ten or more such
    characters. *)
Theorem validatePhone_shape phone :
  (AuthForms.validatePhone (Some phone) = true ↔
   ∃ rest,
     (list_ascii_of_string phone = rest ∨
      list_ascii_of_string phone = "+"%char :: rest) ∧
     (10 ≤ List.length rest)%nat ∧ Forall (λ c, dialable c = true) rest) ∧
  AuthForms.validatePhone None = false ∧
  (AuthForms.validatePhone
     (AuthForms.phone (AuthForms.formData (AuthForms.state
        (AuthForms.handlePhoneChange phone AuthForms.mounted)))) = true ↔
   (10 ≤ String.length phone)%nat ∧
   Forall (λ c, dialable c = true) (list_ascii_of_string phone)).
Proof.
  assert (Hshape : ∀ text,
    AuthForms.validatePhone (Some text) = true ↔
    ∃ rest,
      (list_ascii_of_string text = rest ∨
       list_ascii_of_string text = "+"%char :: rest) ∧
      (10 ≤ List.length rest)%nat ∧ Forall (λ c, dialable c = true) rest).
  { intros text. unfold AuthForms.validatePhone, Regex.test_whole. simpl.
    rewrite matches_lang. unfold AuthForms.phoneRegex, Regex.Opt. split.
    - intros (s1 & rest & Heq & Hplus & Hrest)%lang_then_inv.
      apply (lang_at_least_class 10 dialable) in Hrest.
      exists rest. split; [|done].
      apply lang_or_inv in Hplus as [H|H].
      + apply lang_empty_inv in H. subst s1. by left.
      + apply lang_char in H. subst s1. by right.
    - intros (rest & [Heq|Heq] & Hrest); rewrite Heq.
      + apply (lang_then _ _ [] rest); [apply lang_or_l; constructor|].
        by apply (lang_at_least_class 10 dialable).
      + apply (lang_then _ _ ["+"%char] rest);
          [apply lang_or_r; by apply lang_char|].
        by apply (lang_at_least_class 10 dialable). }
  split; [apply Hshape|]. split; [reflexivity|].
  change (AuthForms.phone (AuthForms.formData (AuthForms.state
            (AuthForms.handlePhoneChange phone AuthForms.mounted))))
    with (Some ("+" ++ phone)).
  rewrite Hshape.
  change (list_ascii_of_string ("+" ++ phone))
    with ("+"%char :: list_ascii_of_string phone).
  rewrite <- (length_of_text phone).
  split.
  - intros (rest & [Heq|Heq] & Hlen & Hall).
    + subst rest. apply Forall_cons in Hall as [Hplus _]. discriminate Hplus.
    + injection Heq as <-. done.
  - intros [Hlen Hall]. exists (list_ascii_of_string phone). split; [by right|done].
Qed.

(** The phone of the tests, and ten hyphens. *)
Lemma validatePhone_shape_witness :
  AuthForms.validatePhone (Some "+1234567890") = true ∧
  AuthForms.validatePhone (Some "----------") = true.
Proof.
  split.
  - apply (proj1 (validatePhone_shape "+1234567890")).
    exists (list_ascii_of_string "1234567890").
    split; [by right|]. split; [simpl; lia|].
    repeat (apply Forall_cons_2; [reflexivity|]). apply Forall_nil_2.
  - apply (proj1 (validatePhone_shape "----------")).
    exists (list_ascii_of_string "----------").
    split; [by left|]. split; [simpl; lia|].
    repeat (apply Forall_cons_2; [reflexivity|]). apply Forall_nil_2.
Defined.

(** X23: the five requirements on a password.  The flags that
    [validatePassword] computes are all on exactly when the password has
    eight characters or more and holds a capital letter, a small letter, a
    digit and one of the special characters; the flag of the address is
    left as it was. *)
Theorem password_requirements password v :
  (AuthForms.hasMinLength (AuthForms.checked password v) = true ∧
   AuthForms.hasUpperCase (AuthForms.checked password v) = true ∧
   AuthForms.hasLowerCase (AuthForms.checked password v) = true ∧
   AuthForms.hasNumber (AuthForms.checked password v) = true ∧
   AuthForms.hasSpecialChar (AuthForms.checked password v) = true
   ↔
   (8 ≤ String.length password)%nat ∧
   holds AuthForms.upper password ∧
   holds AuthForms.lower_case password ∧
   holds Regex.digit password ∧
   holds AuthForms.special password) ∧
  AuthForms.email_ok (AuthForms.checked password v) = AuthForms.email_ok v.
Proof.
  split; [|reflexivity].
  unfold AuthForms.checked, holds, Regex.test.
  cbn [AuthForms.hasMinLength AuthForms.hasUpperCase AuthForms.hasLowerCase
       AuthForms.hasNumber AuthForms.hasSpecialChar].
  rewrite !matches_lang, !lang_somewhere, Nat.leb_le. reflexivity.
Qed.

(** The password of the tests, and the same without its mark. *)
Lemma password_requirements_witness :
  AuthForms.all_met
    (AuthForms.checked "Password123!" (AuthForms.validations AuthForms.initial)) = true ∧
  ¬ holds AuthForms.special "Password123".
Proof.
  split; [reflexivity|].
  intros Hholds.
  assert (AuthForms.hasSpecialChar
            (AuthForms.checked "Password123" (AuthForms.validations AuthForms.initial))
          = false) as Hflag by reflexivity.
  assert (Hall : (8 ≤ String.length "Password123")%nat ∧
                 holds AuthForms.upper "Password123" ∧
                 holds AuthForms.lower_case "Password123" ∧
                 holds Regex.digit "Password123" ∧
                 holds AuthForms.special "Password123").
  { split; [simpl; lia|].
    split; [apply Exists_cons_hd; reflexivity|].
    split; [apply Exists_cons_tl, Exists_cons_hd; reflexivity|].
    split; [|exact Hholds].
    do 8 apply Exists_cons_tl. apply Exists_cons_hd. reflexivity. }
  apply (password_requirements "Password123" (AuthForms.validations AuthForms.initial))
    in Hall as (_ & _ & _ & _ & Hspecial).
  congruence.
Defined.
